(** * google-sheets-node-api: the feed client of [index.js]

    A shallow embedding of the client library in [index.js] (authentication
    state, the feed request pipeline, the three read operations, the row
    entity with its textual save, and the XML-safety utilities), followed by
    the properties established about it.

    Conventions of the embedding:
    - JavaScript strings are sequences of 16-bit code units; [string] stands
      for the strings whose code units are all below 256, one [ascii] per
      code unit.  [toLowerCase] and the class [\s] are exact on that range.
    - JavaScript numbers are represented by [Z]; only integers occur.
    - A buffer, which is what the body of a response is read into, is
      represented by the text it holds; it is an object, so it is truthy
      also when that text is empty.
    - A promise chain is run to completion: a rejected promise and a thrown
      exception are both [Throw].  Interleaving of several chains is not
      represented.
    - [Unmodelled] marks inputs on which the embedding does not define what
      the program does (for instance a column name holding a regular
      expression operator); no property is claimed there. *)

From Stdlib Require Import ZArith List Bool Ascii String Lia DecimalString.
Import ListNotations.
Open Scope string_scope.

(* ================================================================== *)
(** ** Strings *)

Definition code (c : ascii) : N := N_of_ascii c.

(** The double quote, code 34. *)
Abbreviation dquote := (Ascii false true false false false true false false).

(** The class [\s] of ECMAScript regular expressions, below 256:
    TAB, LF, VT, FF, CR, SPACE and NO-BREAK SPACE. *)
Definition is_js_space (c : ascii) : bool :=
  let n := code c in
  ((9 <=? n) && (n <=? 13) || (n =? 32) || (n =? 160))%N.

(** The class [[\s_]] of [xmlSafeColumnName]. *)
Definition is_space_or_underscore (c : ascii) : bool :=
  is_js_space c || (code c =? 95)%N.

Definition clean_char (c : ascii) : bool := negb (is_space_or_underscore c).

(** [String.prototype.toLowerCase], one code unit at a time: the upper-case
    letters below 256 are A-Z, U+00C0-U+00D6 and U+00D8-U+00DE, each 32
    below its lower-case form. *)
Definition lower_char (c : ascii) : ascii :=
  let n := code c in
  if ((65 <=? n) && (n <=? 90) || (192 <=? n) && (n <=? 214)
      || (216 <=? n) && (n <=? 222))%N
  then ascii_of_N (n + 32) else c.

Fixpoint toLowerCase (s : string) : string :=
  match s with
  | "" => ""
  | String c s' => String (lower_char c) (toLowerCase s')
  end.

(** [s.replace(/c/g, rep)] for a single literal character [c] and a
    replacement [rep] free of [$]. *)
Fixpoint replace_char_all (c : ascii) (rep s : string) : string :=
  match s with
  | "" => ""
  | String a s' =>
      if Ascii.eqb a c then rep ++ replace_char_all c rep s'
      else String a (replace_char_all c rep s')
  end.

(** [s.replace(/[cls]+/g, rep)]: every maximal run of characters of the
    class is replaced by one [rep].  [in_run] tells that the previous
    character belonged to a run that is already replaced. *)
Fixpoint replace_runs (cls : ascii -> bool) (rep : string) (in_run : bool)
    (s : string) : string :=
  match s with
  | "" => ""
  | String a s' =>
      if cls a then
        (if in_run then "" else rep) ++ replace_runs cls rep true s'
      else String a (replace_runs cls rep false s')
  end.

Fixpoint all_chars (p : ascii -> bool) (s : string) : bool :=
  match s with
  | "" => true
  | String c s' => p c && all_chars p s'
  end.

(** [s.substring(n)]. *)
Fixpoint drop (n : nat) (s : string) : string :=
  match n, s with
  | O, _ => s
  | S _, "" => ""
  | S k, String _ s' => drop k s'
  end.

(** The first occurrence of [pat] in [s], as the text before it and the
    text after it ([s.indexOf(pat)] is the length of the former). *)
Fixpoint split_first (pat s : string) : option (string * string) :=
  if prefix pat s then Some ("", drop (String.length pat) s)
  else match s with
       | "" => None
       | String c s' =>
           match split_first pat s' with
           | Some (before, after) => Some (String c before, after)
           | None => None
           end
       end.

Definition contains (pat s : string) : bool :=
  match split_first pat s with Some _ => true | None => false end.

(** [s.substring(s.lastIndexOf("/") + 1)]: the text after the last slash,
    the whole string when there is none. *)
Fixpoint after_last_slash (s : string) : string :=
  match s with
  | "" => ""
  | String c s' =>
      if contains "/" s' then after_last_slash s'
      else if Ascii.eqb c "/" then s' else s
  end.

Fixpoint join (sep : string) (l : list string) : string :=
  match l with
  | [] => ""
  | [x] => x
  | x :: r => x ++ sep ++ join sep r
  end.

(** Decimal rendering of an integer, as [String(n)] gives it. *)
Definition dec (z : Z) : string := NilZero.string_of_int (Z.to_int z).

(* ================================================================== *)
(** ** Values and outcomes *)

#[local] Set Warnings "-register-all".

(** [Fun] carries the source text of a function, [Buf] the text of a
    buffer. *)
Inductive value : Type :=
| Undefined
| Null
| Bool (b : bool)
| Num (z : Z)
| Str (s : string)
| Arr (items : list value)
| Obj (props : list (string * value))
| Fun (src : string)
| Buf (text : string).

Inductive js_error : Type :=
| TypeError
| Error (msg : string)
| Failure (what : string).

Inductive outcome (A : Type) : Type :=
| Normal (a : A)
| Throw (e : js_error)
| Unmodelled.

Arguments Normal {A} a.
Arguments Throw {A} e.
Arguments Unmodelled {A}.

Definition bind {A B : Type} (m : outcome A) (k : A -> outcome B) : outcome B :=
  match m with
  | Normal a => k a
  | Throw e => Throw e
  | Unmodelled => Unmodelled
  end.

Notation "x <- m ;; k" := (bind m (fun x => k))
  (at level 61, m at next level, right associativity).

Definition of_option {A : Type} (o : option A) : outcome A :=
  match o with Some a => Normal a | None => Unmodelled end.

Fixpoint lookup (k : string) (props : list (string * value)) : option value :=
  match props with
  | [] => None
  | (k', v) :: r => if String.eqb k k' then Some v else lookup k r
  end.

Definition has_key (k : string) (props : list (string * value)) : bool :=
  match lookup k props with Some _ => true | None => false end.

(** ToBoolean. *)
Definition truthy (v : value) : bool :=
  match v with
  | Undefined | Null => false
  | Bool b => b
  | Num z => negb (z =? 0)%Z
  | Str s => negb (s =? "")
  | Arr _ | Obj _ | Fun _ | Buf _ => true
  end.

(** [typeof v === 'object']. *)
Definition typeof_object (v : value) : bool :=
  match v with
  | Null | Arr _ | Obj _ | Buf _ => true
  | _ => false
  end.

(** [v === true]. *)
Definition is_true (v : value) : bool :=
  match v with Bool true => true | _ => false end.

(** [v === 'lit'] and, for a string on the right, [v == 'lit'] restricted
    to the values that need no conversion. *)
Definition is_str (lit : string) (v : value) : bool :=
  match v with Str s => s =? lit | _ => false end.

(** ToString.  Integers beyond 2^53 are not exact numbers, and an object
    that carries its own [toString] or [valueOf] is converted by them:
    both are left out. *)
Fixpoint to_string (v : value) : option string :=
  match v with
  | Undefined => Some "undefined"
  | Null => Some "null"
  | Bool true => Some "true"
  | Bool false => Some "false"
  | Num z => if (Z.abs z <=? 2 ^ 53)%Z then Some (dec z) else None
  | Str s => Some s
  | Arr items =>
      option_map (join ",")
        ((fix elems (l : list value) : option (list string) :=
            match l with
            | [] => Some []
            | x :: r =>
                match (match x with
                       | Undefined | Null => Some ""
                       | _ => to_string x
                       end), elems r with
                | Some sx, Some sr => Some (sx :: sr)
                | _, _ => None
                end
            end) items)
  | Obj props =>
      if has_key "toString" props || has_key "valueOf" props then None
      else Some "[object Object]"
  | Fun src => Some src
  | Buf text => Some text
  end.

(** The properties a value inherits, among the names this program reads
    ([_], [$], [rel], [href], [edit], [title], [entry], [type], [value],
    [expires], [start], [num], [orderby], [reverse], [query], [link],
    ...): an array has the method [reverse], a string the method [link];
    no other of these names is defined by a built-in prototype.  A native
    function is given by the text [String] makes of it. *)
Definition inherited (v : value) (k : string) : value :=
  match v with
  | Arr _ =>
      if k =? "reverse" then Fun "function reverse() { [native code] }"
      else Undefined
  | Str _ =>
      if k =? "link" then Fun "function link() { [native code] }"
      else Undefined
  | _ => Undefined
  end.

(** [v[k]] for one of these names, on a value known to be neither [null]
    nor [undefined]: an own property of an object, an inherited one
    otherwise.  A buffer is met as the body of a response only, of which
    the program reads no property; what a buffer inherits is left out. *)
Definition field (v : value) (k : string) : value :=
  match v with
  | Obj props => match lookup k props with Some x => x | None => Undefined end
  | _ => inherited v k
  end.

Definition get_prop (v : value) (k : string) : outcome value :=
  match v with
  | Undefined | Null => Throw TypeError
  | _ => Normal (field v k)
  end.

(** [items.join(sep)]: [null] and [undefined] elements give the empty
    string. *)
Fixpoint elem_strings (items : list value) : option (list string) :=
  match items with
  | [] => Some []
  | x :: r =>
      match (match x with
             | Undefined | Null => Some ""
             | _ => to_string x
             end), elem_strings r with
      | Some sx, Some sr => Some (sx :: sr)
      | _, _ => None
      end
  end.

Definition array_join (sep : string) (items : list value) : option string :=
  option_map (join sep) (elem_strings items).

(** [v > n] for a number [n]; the conversions of strings and objects to
    numbers are left out. *)
Definition gt_number (v : value) (n : Z) : outcome bool :=
  match v with
  | Num z => Normal (n <? z)%Z
  | Undefined => Normal false
  | Null => Normal (n <? 0)%Z
  | Bool b => Normal (n <? (if b then 1 else 0))%Z
  | _ => Unmodelled
  end.

(** [Object.keys] lists integer-like names first; a property list whose
    names do not start with a digit is listed in insertion order. *)
Definition starts_with_digit (k : string) : bool :=
  match k with
  | "" => false
  | String c _ => ((48 <=? code c) && (code c <=? 57))%N
  end.

Definition insertion_ordered (props : list (string * value)) : bool :=
  forallb (fun kv => negb (starts_with_digit (fst kv))) props.

(** [o[k] = v] on an ordinary object: an existing own property keeps its
    place, a new one goes last; [__proto__] is an accessor and adds no
    own property. *)
Fixpoint upsert (k : string) (v : value) (props : list (string * value))
  : list (string * value) :=
  match props with
  | [] => [(k, v)]
  | (k', v') :: r =>
      if String.eqb k k' then (k, v) :: r else (k', v') :: upsert k v r
  end.

Definition set_prop (k : string) (v : value) (props : list (string * value))
  : list (string * value) :=
  if k =? "__proto__" then props else upsert k v props.

Definition is_object (v : value) : bool :=
  match v with Arr _ | Obj _ | Fun _ | Buf _ => true | _ => false end.

(** [self[k] = v] in a constructor.  Assigning an object to [__proto__]
    replaces the prototype, through which later reads could find
    properties: that case is left out. *)
Definition assign (k : string) (v : value) (self : list (string * value))
  : outcome (list (string * value)) :=
  if (k =? "__proto__") && is_object v then Unmodelled
  else Normal (set_prop k v self).

(* ================================================================== *)
(** ** Utilities ([index.js], lines 339-356) *)

Definition forceArray (val : value) : list value :=
  match val with
  | Arr items => items
  | _ => if truthy val then [val] else []
  end.

(** The four [replace] calls of [xmlSafeValue], in their order. *)
Definition xml_escape (s : string) : string :=
  replace_char_all dquote "&quot;"
    (replace_char_all ">" "&gt;"
       (replace_char_all "<" "&lt;"
          (replace_char_all "&" "&amp;" s))).

Definition xmlSafeValue (val : value) : outcome string :=
  match val with
  | Undefined | Null => Normal ""
  | _ => s <- of_option (to_string val) ;; Normal (xml_escape s)
  end.

Definition xmlSafeColumnName (val : string) : string :=
  if val =? "" then ""
  else toLowerCase (replace_runs is_space_or_underscore "" false val).

(* ================================================================== *)
(** ** The query string ([querystring.stringify]) *)

Definition in_range (lo hi : N) (c : ascii) : bool :=
  ((lo <=? code c) && (code c <=? hi))%N.

(** The characters [encodeURIComponent] leaves as they are. *)
Definition unreserved (c : ascii) : bool :=
  in_range 48 57 c || in_range 65 90 c || in_range 97 122 c
  || contains (String c "") "-_.!~*'()".

Definition hex_digit (n : N) : ascii :=
  ascii_of_N (if (n <? 10)%N then 48 + n else 55 + n).

Definition percent (n : N) : string :=
  String "%" (String (hex_digit (n / 16)) (String (hex_digit (n mod 16)) "")).

(** A code unit below 128 is one UTF-8 byte, one from 128 to 255 is two. *)
Definition escape_unit (c : ascii) : string :=
  if unreserved c then String c ""
  else if (code c <? 128)%N then percent (code c)
  else percent (192 + code c / 64) ++ percent (128 + code c mod 64).

Fixpoint qs_escape (s : string) : string :=
  match s with
  | "" => ""
  | String c s' => escape_unit c ++ qs_escape s'
  end.

Definition stringifyPrimitive (v : value) : option string :=
  match v with
  | Str s => Some s
  | Bool b => Some (if b then "true" else "false")
  | Num z => to_string (Num z)
  | _ => Some ""
  end.

Fixpoint all_some {A : Type} (l : list (option A)) : option (list A) :=
  match l with
  | [] => Some []
  | Some a :: r => option_map (cons a) (all_some r)
  | None :: _ => None
  end.

(** The [key=value] components one property contributes: one per element
    for an array, one otherwise. *)
Definition qs_fields (kv : string * value) : option (list string) :=
  let ks := qs_escape (fst kv) ++ "=" in
  let one v := option_map (fun s => ks ++ qs_escape s) (stringifyPrimitive v) in
  match snd kv with
  | Arr items => all_some (map one items)
  | v => option_map (fun c => [c]) (one v)
  end.

Definition qs_components (props : list (string * value)) : option (list string) :=
  option_map (@List.concat string) (all_some (map qs_fields props)).

Definition stringify (q : value) : outcome string :=
  match q with
  | Obj props =>
      if insertion_ordered props
      then of_option (option_map (join "&") (qs_components props))
      else Unmodelled
  | Arr _ | Buf _ => Unmodelled
  | _ => Normal ""
  end.

(* ================================================================== *)
(** ** Client state and the outside world *)

Inductive auth_mode_t : Type := anonymous | token | jwt.

Record client : Type := {
  ss_key : value;
  options : value;      (* after [options = options || {}] *)
  google_auth : value;
  visibility : string;
  projection : string;
  auth_mode : auth_mode_t;
  jwt_client : option (value * value)   (* client_email, private_key *)
}.

Record http_req : Type := {
  url : value;
  method : string;
  headers : list (string * string);
  body : option value    (* [Some d] is the body [[d]], [None] is [null] *)
}.

Record http_res : Type := {
  status : Z;
  content_type : option string;   (* [res.headers['content-type']] *)
  res_body : string     (* the text of the buffer [res.body.read()] gives *)
}.

Inductive event : Type :=
| Authorize (client_email private_key : value)
| Request (r : http_req).

(** What one operation meets outside the program: the clock, the answer of
    the token endpoint should it be asked, and the answer of the feed
    server to a request. *)
Record env : Type := {
  now : Z;
  authorize : outcome value;
  respond : http_req -> outcome http_res
}.

(** Library code the program calls, and the source text of the two
    closures of a row, which is what [String] makes of them. *)
Record platform : Type := {
  STATUS_CODES : Z -> option string;      (* [http.STATUS_CODES] *)
  parseString : string -> outcome value;  (* the [xml2js] parser *)
  require : string -> outcome value;
  parseInt : value -> value;
  save_src : string;     (* source text of the row's [save] closure *)
  del_src : string       (* source text of the row's [del] closure *)
}.

(** Computations on the client state that record what they do outside. *)
Definition M (A : Type) : Type := client -> outcome A * client * list event.

Definition ret {A : Type} (a : A) : M A := fun c => (Normal a, c, []).

Definition lift {A : Type} (o : outcome A) : M A := fun c => (o, c, []).

Definition emit (ev : event) : M unit := fun c => (Normal tt, c, [ev]).

Definition out {A : Type} (r : outcome A * client * list event) : outcome A :=
  fst (fst r).
Definition state {A : Type} (r : outcome A * client * list event) : client :=
  snd (fst r).
Definition trace {A : Type} (r : outcome A * client * list event) : list event :=
  snd r.

Definition bindM {A B : Type} (m : M A) (k : A -> M B) : M B := fun c =>
  match m c with
  | (Normal a, c1, t1) =>
      (out (k a c1), state (k a c1), (t1 ++ trace (k a c1))%list)
  | (Throw e, c1, t1) => (Throw e, c1, t1)
  | (Unmodelled, c1, t1) => (Unmodelled, c1, t1)
  end.

Notation "x <<- m ;; k" := (bindM m (fun x => k))
  (at level 61, m at next level, right associativity).

Definition GOOGLE_FEED_URL : string := "https://spreadsheets.google.com/feeds/".

(* ================================================================== *)
(** ** Authentication ([index.js], lines 39-75) *)

Definition with_auth_mode (m : auth_mode_t) (c : client) : client :=
  {| ss_key := ss_key c; options := options c; google_auth := google_auth c;
     visibility := visibility c; projection := projection c;
     auth_mode := m; jwt_client := jwt_client c |}.

Definition with_jwt_client (j : value * value) (c : client) : client :=
  {| ss_key := ss_key c; options := options c; google_auth := google_auth c;
     visibility := visibility c; projection := projection c;
     auth_mode := auth_mode c; jwt_client := Some j |}.

Definition setAuthAndDependencies (auth : value) (c : client) : client :=
  {| ss_key := ss_key c; options := options c;
     google_auth := auth;
     visibility :=
       if negb (truthy (field (options c) "visibility"))
       then (if truthy auth then "private" else "public")
       else visibility c;
     projection :=
       if negb (truthy (field (options c) "projection"))
       then (if truthy auth then "full" else "values")
       else projection c;
     auth_mode := auth_mode c; jwt_client := jwt_client c |}.

Definition setAuthToken (auth_id : value) (c : client) : client :=
  setAuthAndDependencies auth_id
    (match auth_mode c with
     | anonymous => with_auth_mode token c
     | _ => c
     end).

(** The constructor. *)
Definition GooogleSpreadsheet (key auth_id opts : value) : outcome client :=
  if negb (truthy key) then Throw (Error "Spreadsheet key not provided.")
  else Normal (setAuthAndDependencies auth_id
         {| ss_key := key;
            options := if truthy opts then opts else Obj [];
            google_auth := Null; visibility := "public";
            projection := "values"; auth_mode := anonymous;
            jwt_client := None |}).

(** The credential built from the token endpoint's answer. *)
Definition token_of_reply (tok : value) : outcome value :=
  t <- get_prop tok "token_type" ;;
  v <- get_prop tok "access_token" ;;
  x <- get_prop tok "expiry_date" ;;
  Normal (Obj [("type", t); ("value", v); ("expires", x)]).

(** [jwt_client] is assigned before the first call of [renewJwtAuth] and
    never cleared, so the [None] case is not reached by the program. *)
Definition renewJwtAuth (e : env) : M unit := fun c =>
  let c1 := with_auth_mode jwt c in
  match jwt_client c with
  | None => (Unmodelled, c1, [])
  | Some (email, key) =>
      match tok <- authorize e ;; token_of_reply tok with
      | Normal cred => (Normal tt, setAuthToken cred c1, [Authorize email key])
      | Throw err => (Throw err, c1, [Authorize email key])
      | Unmodelled => (Unmodelled, c1, [Authorize email key])
      end
  end.

Definition useServiceAccountAuth (P : platform) (e : env) (creds : value)
  : M unit := fun c =>
  match (creds' <- (match creds with
                    | Str path => require P path
                    | _ => Normal creds
                    end) ;;
         email <- get_prop creds' "client_email" ;;
         key <- get_prop creds' "private_key" ;;
         Normal (email, key)) with
  | Normal j => renewJwtAuth e (with_jwt_client j c)
  | Throw err => (Throw err, c, [])
  | Unmodelled => (Unmodelled, c, [])
  end.

(* ================================================================== *)
(** ** The feed request ([index.js], lines 78-137) *)

(** First step: the URL. *)
Definition feed_url (url_params : value) (c : client) : outcome value :=
  match url_params with
  | Str s => Normal (Str s)
  | Arr items =>
      s <- of_option
             (array_join "/"
                (items ++ [Str (visibility c); Str (projection c)])%list) ;;
      Normal (Str (GOOGLE_FEED_URL ++ s))
  | _ => Normal Undefined
  end.

(** First step, continued: the token of a service account is renewed when
    it is not valid beyond the present time. *)
Definition refresh_if_expired (e : env) : M unit := fun c =>
  match auth_mode c with
  | jwt =>
      match x <- get_prop (google_auth c) "expires" ;; gt_number x (now e) with
      | Normal true => (Normal tt, c, [])
      | Normal false => renewJwtAuth e c
      | Throw err => (Throw err, c, [])
      | Unmodelled => (Unmodelled, c, [])
      end
  | _ => (Normal tt, c, [])
  end.

(** Second step: headers, query string, and the request itself. *)
Definition auth_headers (auth : value) : outcome (list (string * string)) :=
  if truthy auth then
    if is_str "Bearer" (field auth "type") then
      s <- of_option (to_string (field auth "value")) ;;
      Normal [("Authorization", "Bearer " ++ s)]
    else
      s <- of_option (to_string auth) ;;
      Normal [("Authorization", "GoogleLogin auth=" ++ s)]
  else Normal [].

Definition is_write (m : string) : bool := (m =? "POST") || (m =? "PUT").

Definition content_headers (m : string) : list (string * string) :=
  if is_write m then [("content-type", "application/atom+xml")] else [].

Definition with_query (u : value) (m : string) (query_or_data : value)
  : outcome value :=
  if (m =? "GET") && truthy query_or_data then
    base <- of_option (to_string u) ;;
    q <- stringify query_or_data ;;
    Normal (Str (base ++ "?" ++ q))
  else Normal u.

Definition build_request (u : value) (m : string) (query_or_data : value)
    (c : client) : outcome http_req :=
  h <- auth_headers (google_auth c) ;;
  u' <- with_query u m query_or_data ;;
  Normal {| url := u'; method := m;
            headers := (h ++ content_headers m)%list;
            body := if is_write m then Some query_or_data else None |}.

Definition nl : string := String (ascii_of_nat 10) "".

Definition private_message : string :=
  "Sheet is private. Use authentication or make public. (see https://github.com/theoephraim/node-google-spreadsheet#a-note-on-authentication for details)"
  ++ nl.

(** Fourth step: the response is classified.  A response without a
    [content-type] header has [undefined] there, and calling [indexOf] on
    it throws. *)
Definition classify (P : platform) (res : http_res) : outcome string :=
  if (status res =? 401)%Z then
    Throw (Error ("Invalid authorization key. " ++ res_body res))
  else if (400 <=? status res)%Z then
    Throw (Error ("HTTP error " ++ dec (status res) ++ ": "
                  ++ match STATUS_CODES P (status res) with
                     | Some s => s
                     | None => "undefined"
                     end
                  ++ ". " ++ res_body res))
  else if (status res =? 200)%Z then
    match content_type res with
    | None => Throw TypeError
    | Some ct =>
        if contains "text/html" ct
        then Throw (Error (private_message ++ res_body res))
        else Normal (res_body res)
    end
  else Normal (res_body res).

(** Fifth step: [xml ? [parse(xml), xml] : [null, null]].  The body is a
    buffer, and a buffer is truthy also when it is empty. *)
Definition parse_body (P : platform) (xml : string) : outcome (value * value) :=
  if truthy (Buf xml) then
    json <- parseString P xml ;; Normal (json, Buf xml)
  else Normal (Null, Null).

Definition makeFeedRequest (P : platform) (e : env)
    (url_params : value) (m : string) (query_or_data : value)
  : M (value * value) :=
  u <<- (fun c => lift (feed_url url_params c) c) ;;
  _ <<- refresh_if_expired e ;;
  req <<- (fun c => lift (build_request u m query_or_data c) c) ;;
  _ <<- emit (Request req) ;;
  res <<- lift (respond e req) ;;
  xml <<- lift (classify P res) ;;
  lift (parse_body P xml).

(* ================================================================== *)
(** ** Entities ([index.js], lines 230-337) *)

Record worksheet : Type := {
  ws_id : string;
  ws_title : value;
  rowCount : value;
  colCount : value
}.

(** [data.id.substring(data.id.lastIndexOf("/") + 1)] succeeds on a string
    only: no other value has both methods. *)
Definition SpreadsheetWorksheet (data : value) : outcome worksheet :=
  id <- get_prop data "id" ;;
  match id with
  | Str s =>
      t <- get_prop (field data "title") "_" ;;
      Normal {| ws_id := after_last_slash s; ws_title := t;
                rowCount := field data "gs:rowCount";
                colCount := field data "gs:colCount" |}
  | _ => Throw TypeError
  end.

(** The loop [self['_links'][link['$']['rel']] = link['$']['href']] over an
    array that starts empty.  The array is kept as the list of its named
    properties; assigning its [length] or its [__proto__] is left out. *)
Fixpoint link_table (links : list value) (acc : list (string * value))
  : outcome (list (string * value)) :=
  match links with
  | [] => Normal acc
  | link :: r =>
      d <- get_prop link "$" ;;
      rel <- get_prop d "rel" ;;
      href <- get_prop d "href" ;;
      name <- of_option (to_string rel) ;;
      if (name =? "length") || (name =? "__proto__") then Unmodelled
      else link_table r (set_prop name href acc)
  end.

(** [Object.keys(val).length] for a [val] with [typeof val === 'object']. *)
Definition own_key_count (val : value) : outcome nat :=
  match val with
  | Null => Throw TypeError
  | Arr items => Normal (List.length items)
  | Obj props => Normal (List.length props)
  | _ => Unmodelled
  end.

(** One turn of the loop over the keys of a feed entry in the row
    constructor. *)
Definition row_field (self : list (string * value)) (key : string) (val : value)
  : outcome (list (string * value)) :=
  if substring 0 4 key =? "gsx:" then
    val' <- (if typeof_object val then
               n <- own_key_count val ;;
               Normal (if Nat.eqb n 0 then Null else val)
             else Normal val) ;;
    if key =? "gsx:" then assign (substring 0 3 key) val' self
    else assign (drop 4 key) val' self
  else if key =? "id" then assign key val self
  else
    u <- get_prop val "_" ;;
    if truthy u then assign key u self
    else if key =? "link" then
      t <- link_table (forceArray val) [] ;;
      assign "_links" (Obj t) self
    else Normal self.

Fixpoint row_fields (self data : list (string * value))
  : outcome (list (string * value)) :=
  match data with
  | [] => Normal self
  | (key, val) :: r => self' <- row_field self key val ;; row_fields self' r
  end.

(** The own enumerable properties of a feed entry as [Object.keys] lists
    them.  A function has none; what [Object.keys] does on a string, a
    number or a boolean depends on the language edition and is left out,
    as are arrays, whose keys are integers. *)
Definition entry_props (data : value) : outcome (list (string * value)) :=
  match data with
  | Undefined | Null => Throw TypeError
  | Obj props => if insertion_ordered props then Normal props else Unmodelled
  | Fun _ => Normal []
  | _ => Unmodelled
  end.

(** A row is the list of its own properties, the two methods included. *)
Definition SpreadsheetRow (P : platform) (data xml : value)
  : outcome (list (string * value)) :=
  props <- entry_props data ;;
  self <- row_fields [("_xml", xml)] props ;;
  Normal (set_prop "del" (Fun (del_src P))
            (set_prop "save" (Fun (save_src P)) self)).

Record cell : Type := {
  cell_id : value;
  cell_row : value;
  cell_col : value;
  cell_value : value;
  numericValue : value;
  cell_links : list (string * value)
}.

Definition SpreadsheetCell (P : platform) (data : value) : outcome cell :=
  id <- get_prop data "id" ;;
  g <- get_prop (field data "gs:cell") "$" ;;
  r <- get_prop g "row" ;;
  c <- get_prop g "col" ;;
  t <- link_table (forceArray (field data "link")) [] ;;
  Normal {| cell_id := id; cell_row := parseInt P r; cell_col := parseInt P c;
            cell_value := field (field data "gs:cell") "_";
            numericValue := field g "numericValue";
            cell_links := t |}.

(* ================================================================== *)
(** ** Saving a row ([index.js], lines 278-294) *)

Definition ROW_ENTRY_TAG : string :=
  "<entry xmlns='http://www.w3.org/2005/Atom' xmlns:gsx='http://schemas.google.com/spreadsheets/2006/extended'>".

Definition is_digit (c : ascii) : bool := in_range 48 57 c.

Definition digit_val (c : ascii) : nat := N.to_nat (code c) - 48.

(** The replacement patterns of [String.prototype.replace]
    (GetSubstitution without named groups): [$$], [$&], [$`], [$'], and
    [$n] or [$nn] for a capture.  [skip] counts the characters of a pattern
    that are still to be passed over. *)
Definition capture_ref (caps : list string) (d1 : ascii) (rest : string)
  : option (string * nat) :=
  let one :=
    let i := digit_val d1 in
    if (1 <=? i)%nat && (i <=? List.length caps)%nat
    then Some (nth (i - 1) caps "", 1%nat) else None in
  match rest with
  | String d2 _ =>
      if is_digit d2 then
        let i := (10 * digit_val d1 + digit_val d2)%nat in
        if (i <=? List.length caps)%nat then
          (if (1 <=? i)%nat then Some (nth (i - 1) caps "", 2%nat) else None)
        else one
      else one
  | "" => one
  end.

Fixpoint expand (caps : list string) (matched before after : string)
    (skip : nat) (t : string) : string :=
  match t with
  | "" => ""
  | String c t' =>
      match skip with
      | S k => expand caps matched before after k t'
      | O =>
          if Ascii.eqb c "$" then
            match t' with
            | String d r =>
                if Ascii.eqb d "$" then
                  "$" ++ expand caps matched before after 1 t'
                else if Ascii.eqb d "&" then
                  matched ++ expand caps matched before after 1 t'
                else if Ascii.eqb d "`" then
                  before ++ expand caps matched before after 1 t'
                else if Ascii.eqb d "'" then
                  after ++ expand caps matched before after 1 t'
                else if is_digit d then
                  match capture_ref caps d r with
                  | Some (text, n) =>
                      text ++ expand caps matched before after n t'
                  | None => String c (expand caps matched before after 0 t')
                  end
                else String c (expand caps matched before after 0 t')
            | "" => "$"
            end
          else String c (expand caps matched before after 0 t')
      end
  end.

(** [s.replace(pat, template)] for a string [pat]: the first occurrence
    only. *)
Definition replace_first (pat template s : string) : string :=
  match split_first pat s with
  | Some (before, after) =>
      before ++ expand [] pat before after 0 template ++ after
  | None => s
  end.

(** The characters with a meaning of their own in a regular expression. *)
Definition regex_plain (c : ascii) : bool :=
  negb (contains (String c "") "\^$.*+?()[]{}|").

Definition open_tag (name : string) : string := "<gsx:" ++ name ++ ">".
Definition close_tag (name : string) : string := "</gsx:" ++ name ++ ">".

(** [s.replace(new RegExp('<gsx:' + name + '>([\s\S]*?)</gsx:' + name + '>'),
    template)] for a [name] of plain characters: the match starts at the
    first opening tag that has a closing tag after it, and ends with the
    first such closing tag. *)
Definition replace_element (name template s : string) : string :=
  match split_first (open_tag name) s with
  | Some (before, rest) =>
      match split_first (close_tag name) rest with
      | Some (inner, after) =>
          before
          ++ expand [inner] (open_tag name ++ inner ++ close_tag name)
               before after 0 template
          ++ after
      | None => s
      end
  | None => s
  end.

(** One turn of the loop over [Object.keys(self)].  The test
    [typeof (self[key] == 'string')] is the truthiness of a type name, so
    only the first character of the key decides. *)
Definition save_field (data_xml key : string) (val : value) : outcome string :=
  if negb (substring 0 1 key =? "_") then
    let name := xmlSafeColumnName key in
    if all_chars regex_plain name then
      v <- xmlSafeValue val ;;
      Normal (replace_element name (open_tag name ++ v ++ close_tag name) data_xml)
    else Unmodelled
  else Normal data_xml.

Fixpoint save_fields (data_xml : string) (self : list (string * value))
  : outcome string :=
  match self with
  | [] => Normal data_xml
  | (key, val) :: r => d <- save_field data_xml key val ;; save_fields d r
  end.

(** The document [save] sends and where it sends it: the arguments of its
    call of [makeFeedRequest]. *)
Definition save_args (self : list (string * value)) : outcome (value * string * value) :=
  match lookup "_xml" self with
  | Some (Str xml) =>
      if insertion_ordered self then
        d <- save_fields (replace_first "<entry>" ROW_ENTRY_TAG xml) self ;;
        target <- get_prop (field (Obj self) "_links") "edit" ;;
        Normal (target, "PUT", Str d)
      else Unmodelled
  | _ => Throw TypeError
  end.

Definition save (P : platform) (e : env) (self : list (string * value))
  : M (value * value) :=
  a <<- lift (save_args self) ;;
  makeFeedRequest P e (fst (fst a)) (snd (fst a)) (snd a).

(* ================================================================== *)
(** ** Read operations ([index.js], lines 140-226) *)

Record ss_data : Type := {
  title : value;
  updated : value;
  author : value;
  worksheets : list worksheet
}.

Fixpoint map_outcome {A B : Type} (f : A -> outcome B) (l : list A)
  : outcome (list B) :=
  match l with
  | [] => Normal []
  | x :: r => y <- f x ;; ys <- map_outcome f r ;; Normal (y :: ys)
  end.

(** The continuation of [getInfo] on what the request resolves to. *)
Definition getInfo_k (data xml : value) : outcome ss_data :=
  if is_true data then Throw (Error "No response to getInfo call")
  else
    t <- (o <- get_prop data "title" ;; get_prop o "_") ;;
    u <- get_prop data "updated" ;;
    a <- get_prop data "author" ;;
    e <- get_prop data "entry" ;;
    ws <- map_outcome SpreadsheetWorksheet (forceArray e) ;;
    Normal {| title := t; updated := u; author := a; worksheets := ws |}.

Definition getInfo (P : platform) (e : env) : M ss_data :=
  key <<- (fun c => ret (ss_key c) c) ;;
  r <<- makeFeedRequest P e (Arr [Str "worksheets"; key]) "GET" Null ;;
  lift (getInfo_k (fst r) (snd r)).

(** [if (opts.name) query[param] = opts.name]. *)
Definition add_option (opts : value) (name param : string)
    (query : list (string * value)) : list (string * value) :=
  if truthy (field opts name) then set_prop param (field opts name) query
  else query.

Definition rows_query (opts : value) : list (string * value) :=
  let opts := if truthy opts then opts else Obj [] in
  add_option opts "query" "sq"
    (add_option opts "reverse" "reverse"
       (add_option opts "orderby" "orderby"
          (add_option opts "num" "max-results"
             (add_option opts "start" "start-index" [])))).

(** [xml.match(/<entry[^>]*>([\s\S]*?)<\/entry>/g)]: a match starts at an
    occurrence of [<entry], runs over the first [>] and ends with the first
    [</entry>] after it; the search resumes behind the match.  Every match
    is longer than a character, so [String.length xml] turns are enough. *)
Fixpoint match_entries (fuel : nat) (xml : string) : list string :=
  match fuel with
  | O => []
  | S f =>
      match split_first "<entry" xml with
      | Some (_, r1) =>
          match split_first ">" r1 with
          | Some (attrs, r2) =>
              match split_first "</entry>" r2 with
              | Some (inner, r3) =>
                  ("<entry" ++ attrs ++ ">" ++ inner ++ "</entry>")
                   :: match_entries f r3
              | None => []
              end
          | None => []
          end
      | None => []
      end
  end.

(** [entries_xml[i]], where [entries_xml] is [null] when nothing matched. *)
Definition entry_xml (entries_xml : list string) (i : nat) : outcome value :=
  match entries_xml with
  | [] => Throw TypeError
  | _ => Normal (match nth_error entries_xml i with
                 | Some s => Str s
                 | None => Undefined
                 end)
  end.

Fixpoint build_rows (P : platform) (entries_xml : list string) (i : nat)
    (entries : list value) : outcome (list (list (string * value))) :=
  match entries with
  | [] => Normal []
  | row_data :: r =>
      x <- entry_xml entries_xml i ;;
      row <- SpreadsheetRow P row_data x ;;
      rows <- build_rows P entries_xml (S i) r ;;
      Normal (row :: rows)
  end.

(** The continuation of [getRows].  [xml.toString('utf-8')] is the text
    of a buffer and the string itself for a string, and throws on [null]
    and [undefined]; other receivers are left out. *)
Definition getRows_k (P : platform) (data xml : value)
  : outcome (list (list (string * value))) :=
  if is_true data then Throw (Error "No response to getRows call")
  else
    match xml with
    | Buf s | Str s =>
        e <- get_prop data "entry" ;;
        build_rows P (match_entries (String.length s) s) 0 (forceArray e)
    | Undefined | Null => Throw TypeError
    | _ => Unmodelled
    end.

Definition getRows (P : platform) (e : env) (worksheet_id opts : value)
  : M (list (list (string * value))) :=
  key <<- (fun c => ret (ss_key c) c) ;;
  r <<- makeFeedRequest P e (Arr [Str "list"; key; worksheet_id]) "GET"
          (Obj (rows_query opts)) ;;
  lift (getRows_k P (fst r) (snd r)).

(** The continuation of [getCells]. *)
Definition getCells_k (P : platform) (data xml : value) : outcome (list cell) :=
  if is_true data then Throw (Error "No response to getCells call")
  else
    e <- get_prop data "entry" ;;
    map_outcome (SpreadsheetCell P) (forceArray e).

(** [_.extend({}, opts)] copies the properties of an object; other truthy
    arguments are left out. *)
Definition cells_query (opts : value) : outcome value :=
  match opts with
  | Obj props => Normal (Obj props)
  | _ => if truthy opts then Unmodelled else Normal (Obj [])
  end.

Definition getCells (P : platform) (e : env) (worksheet_id opts : value)
  : M (list cell) :=
  key <<- (fun c => ret (ss_key c) c) ;;
  q <<- lift (cells_query opts) ;;
  r <<- makeFeedRequest P e (Arr [Str "cells"; key; worksheet_id]) "GET" q ;;
  lift (getCells_k P (fst r) (snd r)).

(* ================================================================== *)
(** ** Adding a row, deleting a row, cells, worksheet methods
       ([index.js], lines 193-202, 238-246, 296-298, 316-336) *)

Definition quote : string := String dquote "".

Definition ADD_ROW_HEAD : string :=
  "<entry xmlns=" ++ quote ++ "http://www.w3.org/2005/Atom" ++ quote
  ++ " xmlns:gsx=" ++ quote
  ++ "http://schemas.google.com/spreadsheets/2006/extended" ++ quote ++ ">"
  ++ nl.

(** The keys [addRow] passes over. *)
Definition reserved_key (key : string) : bool :=
  (key =? "id") || (key =? "title") || (key =? "content") || (key =? "_links").

(** One turn of the loop of [addRow]: the line a key contributes. *)
Definition add_row_line (key : string) (val : value) : outcome string :=
  if reserved_key key then Normal ""
  else
    v <- xmlSafeValue val ;;
    Normal (open_tag (xmlSafeColumnName key) ++ v
            ++ close_tag (xmlSafeColumnName key) ++ nl).

Fixpoint add_row_lines (props : list (string * value)) : outcome string :=
  match props with
  | [] => Normal ""
  | (key, val) :: r =>
      l <- add_row_line key val ;; ls <- add_row_lines r ;; Normal (l ++ ls)
  end.

(** The document [addRow] posts. *)
Definition add_row_xml (data : value) : outcome string :=
  props <- entry_props data ;;
  ls <- add_row_lines props ;;
  Normal (ADD_ROW_HEAD ++ ls ++ "</entry>").

Definition addRow (P : platform) (e : env) (worksheet_id data : value)
  : M (value * value) :=
  d <<- lift (add_row_xml data) ;;
  key <<- (fun c => ret (ss_key c) c) ;;
  makeFeedRequest P e (Arr [Str "list"; key; worksheet_id]) "POST" (Str d).

(** [del] of a row. *)
Definition del (P : platform) (e : env) (self : list (string * value))
  : M (value * value) :=
  target <<- lift (get_prop (field (Obj self) "_links") "edit") ;;
  makeFeedRequest P e target "DELETE" Null.

(** The methods of a worksheet hand its id to the client. *)
Definition ws_getRows (P : platform) (e : env) (ws : worksheet) (opts : value)
  : M (list (list (string * value))) :=
  getRows P e (Str (ws_id ws)) opts.

Definition ws_getCells (P : platform) (e : env) (ws : worksheet) (opts : value)
  : M (list cell) :=
  getCells P e (Str (ws_id ws)) opts.

Definition ws_addRow (P : platform) (e : env) (ws : worksheet) (data : value)
  : M (value * value) :=
  addRow P e (Str (ws_id ws)) data.

Definition CELL_ENTRY_TAG : string :=
  "<entry xmlns='http://www.w3.org/2005/Atom' xmlns:gs='http://schemas.google.com/spreadsheets/2006'>".

Definition CELL_EDIT_BASE : string :=
  "https://spreadsheets.google.com/feeds/cells/key/worksheetId/private/full/R".

(** The document of [save] of a cell before its entry tag is rewritten. *)
Definition cell_entry (edit_id row col new_value : string) : string :=
  "<entry><id>" ++ edit_id ++ "</id>"
  ++ "<link rel=" ++ quote ++ "edit" ++ quote ++ " type=" ++ quote
  ++ "application/atom+xml" ++ quote ++ " href=" ++ quote ++ edit_id ++ quote
  ++ "/>"
  ++ "<gs:cell row=" ++ quote ++ row ++ quote ++ " col=" ++ quote ++ col
  ++ quote ++ " inputValue=" ++ quote ++ new_value ++ quote ++ "/></entry>".

Definition cell_xml (cl : cell) : outcome string :=
  new_value <- xmlSafeValue (cell_value cl) ;;
  row <- of_option (to_string (cell_row cl)) ;;
  col <- of_option (to_string (cell_col cl)) ;;
  Normal (replace_first "<entry>" CELL_ENTRY_TAG
            (cell_entry (CELL_EDIT_BASE ++ row ++ "C" ++ col) row col new_value)).

Definition cell_save (P : platform) (e : env) (cl : cell) : M (value * value) :=
  d <<- lift (cell_xml cl) ;;
  makeFeedRequest P e (field (Obj (cell_links cl)) "edit") "PUT" (Str d).

Definition with_cell_value (v : value) (cl : cell) : cell :=
  {| cell_id := cell_id cl; cell_row := cell_row cl; cell_col := cell_col cl;
     cell_value := v; numericValue := numericValue cl;
     cell_links := cell_links cl |}.

(** [setValue] stores the value, then saves; [del] of a cell is
    [setValue('')]. *)
Definition cell_setValue (P : platform) (e : env) (new_value : value) (cl : cell)
  : M (value * value) :=
  cell_save P e (with_cell_value new_value cl).

Definition cell_del (P : platform) (e : env) (cl : cell) : M (value * value) :=
  cell_setValue P e (Str "") cl.

(* ================================================================== *)
(** ** Concrete surroundings for examples *)

Definition sample_platform : platform :=
  {| STATUS_CODES := fun z =>
       if (z =? 404)%Z then Some "Not Found"
       else if (z =? 500)%Z then Some "Internal Server Error"
       else None;
     parseString := fun s =>
       if all_chars is_js_space s then Normal Null else Normal (Obj []);
     require := fun _ => Throw (Failure "Cannot find module");
     parseInt := fun v => v;
     save_src := "function () { /* save */ }";
     del_src := "function () { /* del */ }" |}.

(** A feed server that answers every request with the same response. *)
Definition answering (t : Z) (reply : outcome value) (res : http_res) : env :=
  {| now := t; authorize := reply; respond := fun _ => Normal res |}.

Definition atom_response (b : string) : http_res :=
  {| status := 200;
     content_type := Some "application/atom+xml; charset=UTF-8";
     res_body := b |}.

Definition anonymous_client : client :=
  {| ss_key := Str "key0"; options := Obj []; google_auth := Null;
     visibility := "public"; projection := "values";
     auth_mode := anonymous; jwt_client := None |}.

Definition sample_token : value :=
  Obj [("type", Str "Bearer"); ("value", Str "ya29.old"); ("expires", Num 1000)].

Definition sample_reply : value :=
  Obj [("token_type", Str "Bearer"); ("access_token", Str "ya29.new");
       ("expiry_date", Num 5000)].

Definition sample_creds : value :=
  Obj [("client_email", Str "robot@example.com"); ("private_key", Str "pem")].

Definition sample_opts : value :=
  Obj [("start", Num 0); ("num", Num 5); ("orderby", Str "");
       ("reverse", Bool false); ("query", Str "age > 25")].

Definition sample_rows_request : http_req :=
  {| url := Str "https://spreadsheets.google.com/feeds/list/key0/1/public/values?max-results=5&sq=age%20%3E%2025";
     method := "GET"; headers := []; body := None |}.

Definition worksheets_path : value := Arr [Str "worksheets"; Str "key0"].

Definition sample_bearer_request : http_req :=
  {| url := Str "https://spreadsheets.google.com/feeds/worksheets/key0/private/full";
     method := "GET";
     headers := [("Authorization", "Bearer ya29.old")];
     body := None |}.

(** A client in service-account mode whose token expires at time 1000. *)
Definition service_client : client :=
  state (useServiceAccountAuth sample_platform
           (answering 0
              (Normal (Obj [("token_type", Str "Bearer");
                            ("access_token", Str "ya29.old");
                            ("expiry_date", Num 1000)]))
              (atom_response ""))
           sample_creds anonymous_client).

(** A token object whose type is not [Bearer], and the request a client
    holding it sends for the worksheets feed. *)
Definition sample_mac_token : list (string * value) :=
  [("type", Str "MAC"); ("value", Str "abc123")].

Definition sample_legacy_request : http_req :=
  {| url := Str "https://spreadsheets.google.com/feeds/worksheets/key0/private/full";
     method := "GET";
     headers := [("Authorization", "GoogleLogin auth=[object Object]")];
     body := None |}.

Definition sample_fresh_token : value :=
  Obj [("type", Str "Bearer"); ("value", Str "ya29.new"); ("expires", Num 5000)].

Definition sample_refreshed_request : http_req :=
  {| url := Str "https://spreadsheets.google.com/feeds/worksheets/key0/private/full";
     method := "GET";
     headers := [("Authorization", "Bearer ya29.new")];
     body := None |}.

Definition sample_entry : value :=
  Obj [("id", Str "https://spreadsheets.google.com/feeds/list/key0/1/private/full/cokwr");
       ("title", Obj [("_", Str "Ann"); ("$", Obj [("type", Str "text")])]);
       ("link",
        Arr [Obj [("$", Obj [("rel", Str "self");
                             ("href", Str "https://example.org/self")])];
             Obj [("$", Obj [("rel", Str "edit");
                             ("href", Str "https://example.org/edit")])]]);
       ("gsx:name", Str "Ann");
       ("gsx:city", Str "Oslo");
       ("gsx:notes", Str "")].

Definition sample_fragment : string :=
  "<entry><id>https://spreadsheets.google.com/feeds/list/key0/1/private/full/cokwr</id><title type='text'>Ann</title><gsx:name>Ann</gsx:name><gsx:city>Oslo</gsx:city><gsx:notes></gsx:notes></entry>".

(** A response with status 200 that carries no [content-type] header. *)
Definition bare_response (b : string) : http_res :=
  {| status := 200; content_type := None; res_body := b |}.

Definition sample_worksheets_request : http_req :=
  {| url := Str "https://spreadsheets.google.com/feeds/worksheets/key0/public/values";
     method := "GET"; headers := []; body := None |}.

Definition sample_cells_request : http_req :=
  {| url := Str "https://spreadsheets.google.com/feeds/cells/key0/1/public/values?min-row=0&return-empty=false";
     method := "GET"; headers := []; body := None |}.

Definition sample_bare_rows_request : http_req :=
  {| url := Str "https://spreadsheets.google.com/feeds/list/key0/1/public/values?";
     method := "GET"; headers := []; body := None |}.

Definition sample_worksheet : worksheet :=
  {| ws_id := "od6"; ws_title := Str "Sheet1";
     rowCount := Str "100"; colCount := Str "20" |}.

Definition sample_add_request : http_req :=
  {| url := Str "https://spreadsheets.google.com/feeds/list/key0/od6/public/values";
     method := "POST";
     headers := [("content-type", "application/atom+xml")];
     body := Some (Str (ADD_ROW_HEAD ++ "<gsx:name>a&amp;b</gsx:name>" ++ nl
                        ++ "</entry>")) |}.

Definition sample_links : list (string * value) :=
  [("self", Str "https://example.org/self");
   ("edit", Str "https://example.org/edit/1");
   ("edit", Str "https://example.org/edit/2")].

Definition plain_entry : list (string * value) :=
  [("id", Str "https://example.org/row/1"); ("gsx:name", Str "Ann")].

Definition sample_row : list (string * value) :=
  match SpreadsheetRow sample_platform sample_entry (Str sample_fragment) with
  | Normal self => self
  | _ => []
  end.

Definition sample_delete_request : http_req :=
  {| url := Str "https://example.org/edit"; method := "DELETE";
     headers := []; body := None |}.

Definition sample_cell : cell :=
  {| cell_id := Str "https://example.org/cells/R2C3";
     cell_row := Num 2; cell_col := Num 3;
     cell_value := Str "a<b"; numericValue := Undefined;
     cell_links := [("edit", Str "https://example.org/cells/R2C3/v1")] |}.

Definition sample_cell_request : http_req :=
  {| url := Str "https://example.org/cells/R2C3/v1"; method := "PUT";
     headers := [("content-type", "application/atom+xml")];
     body := match cell_xml sample_cell with
             | Normal d => Some (Str d)
             | _ => None
             end |}.

Definition sample_new_row : value :=
  Obj [("id", Str "ignored"); ("Name", Str "a&b")].

Definition sample_feed_xml : string :=
  "<feed><entry><a/></entry><entry x='1'>b</entry></feed>".

Definition sample_info : value :=
  Obj [("title", Obj [("_", Str "Book")]);
       ("updated", Str "2015-01-01T00:00:00.000Z");
       ("entry",
        Arr [Obj [("id", Str "https://example.org/feeds/worksheets/key0/od6");
                  ("title", Obj [("_", Str "Sheet1")])];
             Obj [("title", Obj [("_", Str "Sheet2")])]])].

Definition sample_rows_data : value :=
  Obj [("entry", Arr [Obj plain_entry; Obj plain_entry])].

Definition sample_rows_xml : string :=
  "<feed><entry><gsx:name>Ann</gsx:name></entry></feed>".

Definition sample_rows : list (list (string * value)) :=
  match getRows_k sample_platform sample_rows_data (Buf sample_rows_xml) with
  | Normal rows => rows
  | _ => []
  end.

(* ================================================================== *)
(** ** Reference definitions used to state properties *)

(** The options of [getRows] and the query parameter each one becomes. *)
Definition option_params : list (string * string) :=
  [("start", "start-index"); ("num", "max-results"); ("orderby", "orderby");
   ("reverse", "reverse"); ("query", "sq")].

(** The operations that touch the authentication state. *)
Inductive auth_op : Type :=
| OpSetAuthToken (auth_id : value)
| OpUseServiceAccountAuth (e : env) (creds : value)
| OpFeedRequest (e : env) (url_params : value) (m : string)
    (query_or_data : value).

Definition apply_op (P : platform) (op : auth_op) (c : client) : client :=
  match op with
  | OpSetAuthToken a => setAuthToken a c
  | OpUseServiceAccountAuth e creds => state (useServiceAccountAuth P e creds c)
  | OpFeedRequest e up m q => state (makeFeedRequest P e up m q c)
  end.

Definition run_ops (P : platform) (ops : list auth_op) (c : client) : client :=
  fold_left (fun c op => apply_op P op c) ops c.

(** The modes a client goes through, one per operation. *)
Fixpoint modes (P : platform) (ops : list auth_op) (c : client)
  : list auth_mode_t :=
  match ops with
  | [] => []
  | op :: r => auth_mode (apply_op P op c) :: modes P r (apply_op P op c)
  end.

Fixpoint chain {A : Type} (R : A -> A -> Prop) (a : A) (l : list A) : Prop :=
  match l with
  | [] => True
  | b :: r => R a b /\ chain R b r
  end.

(** Transitions out of [anonymous] only, and staying in place. *)
Definition anonymous_step (a b : auth_mode_t) : Prop :=
  a = b \/ (a = anonymous /\ (b = token \/ b = jwt)).

(** The same, and from [token] to [jwt]. *)
Definition forward_step (a b : auth_mode_t) : Prop :=
  anonymous_step a b \/ (a = token /\ b = jwt).

Definition rank (m : auth_mode_t) : nat :=
  match m with anonymous => 0 | token => 1 | jwt => 2 end.

Definition is_authorize (ev : event) : bool :=
  match ev with Authorize _ _ => true | Request _ => false end.

(** The number of calls of the token endpoint. *)
Definition refreshes (t : list event) : nat :=
  List.length (filter is_authorize t).

(** The property of the row a [gsx:] key is stored under. *)
Definition column_of (key : string) : string :=
  if key =? "gsx:" then substring 0 3 key else drop 4 key.

(** The properties one turn of the constructor's loop can assign. *)
Definition row_targets (key : string) : list string :=
  if substring 0 4 key =? "gsx:" then [column_of key]
  else if key =? "id" then ["id"]
  else if key =? "link" then ["link"; "_links"]
  else [key].




(** The characters that open or close markup, and those the escaper
    replaces. *)
Definition markup_char (c : ascii) : bool :=
  Ascii.eqb c "<" || Ascii.eqb c ">" || Ascii.eqb c dquote.

Definition special_char (c : ascii) : bool :=
  Ascii.eqb c "&" || markup_char c.

(** A character of a sanitized column name: outside [[\s_]] and left alone
    by [toLowerCase]. *)
Definition name_char (c : ascii) : bool :=
  clean_char c && Ascii.eqb (lower_char c) c.

(** A character of an escaped query component. *)
Definition query_char (c : ascii) : bool := unreserved c || Ascii.eqb c "%".

Definition is_request (ev : event) : bool :=
  match ev with Request _ => true | Authorize _ _ => false end.

(** The number of HTTP requests sent. *)
Definition requests (t : list event) : nat :=
  List.length (filter is_request t).

(** What no operation changes: the options, and with an option present
    the setting it stands for. *)
Definition settings_kept (c c' : client) : Prop :=
  options c' = options c
  /\ (truthy (field (options c) "visibility") = true ->
      visibility c' = visibility c)
  /\ (truthy (field (options c) "projection") = true ->
      projection c' = projection c).

(** A link element as the parser delivers it. *)
Definition link_obj (rel : string) (href : value) : value :=
  Obj [("$", Obj [("rel", Str rel); ("href", href)])].

(** The entity that stands for a character in escaped text. *)
Definition entity (c : ascii) : string :=
  if Ascii.eqb c "&" then "&amp;"
  else if Ascii.eqb c "<" then "&lt;"
  else if Ascii.eqb c ">" then "&gt;"
  else if Ascii.eqb c dquote then "&quot;"
  else String c "".

Fixpoint escape_each (s : string) : string :=
  match s with
  | "" => ""
  | String c s' => entity c ++ escape_each s'
  end.

(** Decoding of the four entities, as an XML reader does it: [skip] counts
    the characters of an entity that are still to be passed over. *)
Fixpoint xml_decode_from (skip : nat) (s : string) : string :=
  match s with
  | "" => ""
  | String c s' =>
      match skip with
      | S k => xml_decode_from k s'
      | O =>
          if prefix "&amp;" s then String "&" (xml_decode_from 4 s')
          else if prefix "&lt;" s then String "<" (xml_decode_from 3 s')
          else if prefix "&gt;" s then String ">" (xml_decode_from 3 s')
          else if prefix "&quot;" s then String dquote (xml_decode_from 5 s')
          else String c (xml_decode_from 0 s')
      end
  end.

Definition xml_decode (s : string) : string := xml_decode_from 0 s.

Ltac each_ascii c := destruct c as [[] [] [] [] [] [] [] []].

(* ================================================================== *)
(** * Properties *)

(** ** Strings *)

Lemma append_nil_r (s : string) : s ++ "" = s.
Proof. induction s; simpl; congruence. Qed.

Lemma append_assoc (a b c : string) : (a ++ b) ++ c = a ++ b ++ c.
Proof. induction a; simpl; congruence. Qed.

Lemma replace_char_all_app (c : ascii) (rep a b : string) :
  replace_char_all c rep (a ++ b)
  = replace_char_all c rep a ++ replace_char_all c rep b.
Proof.
  induction a as [|x a IH]; simpl; [reflexivity|].
  destruct (Ascii.eqb x c); rewrite IH; simpl;
    [now rewrite append_assoc | reflexivity].
Qed.

(** The four passes amount to one pass that maps each character to its
    entity. *)
Lemma xml_escape_each (s : string) : xml_escape s = escape_each s.
Proof.
  unfold xml_escape.
  induction s as [|c s IH]; [reflexivity|].
  cbn [replace_char_all escape_each].
  unfold entity.
  destruct (Ascii.eqb_spec c "&") as [->|Hamp].
  - rewrite !replace_char_all_app, IH. reflexivity.
  - cbn [replace_char_all].
    destruct (Ascii.eqb_spec c "<") as [->|Hlt].
    + rewrite !replace_char_all_app, IH. reflexivity.
    + cbn [replace_char_all].
      destruct (Ascii.eqb_spec c ">") as [->|Hgt].
      * rewrite !replace_char_all_app, IH. reflexivity.
      * cbn [replace_char_all].
        destruct (Ascii.eqb_spec c dquote) as [->|Hq].
        -- rewrite IH. reflexivity.
        -- rewrite IH. reflexivity.
Qed.

Lemma prefix_cons_neq (c d : ascii) (p s : string) :
  c <> d -> prefix (String d p) (String c s) = false.
Proof.
  intro H. simpl. destruct (ascii_dec d c) as [E|_]; [congruence|reflexivity].
Qed.

Lemma prefix_nil (s : string) : prefix "" s = true.
Proof. now destruct s. Qed.

Lemma xml_decode_escape_each (s : string) : xml_decode (escape_each s) = s.
Proof.
  unfold xml_decode.
  induction s as [|c s IH]; [reflexivity|].
  cbn [escape_each]. unfold entity.
  destruct (Ascii.eqb_spec c "&") as [->|Hamp]; [simpl; now rewrite prefix_nil, IH|].
  destruct (Ascii.eqb_spec c "<") as [->|Hlt]; [simpl; now rewrite prefix_nil, IH|].
  destruct (Ascii.eqb_spec c ">") as [->|Hgt]; [simpl; now rewrite prefix_nil, IH|].
  destruct (Ascii.eqb_spec c dquote) as [->|Hq]; [simpl; now rewrite prefix_nil, IH|].
  cbn [append xml_decode_from].
  rewrite !prefix_cons_neq by assumption.
  now rewrite IH.
Qed.

(** C8.  On every string, [xmlSafeValue] maps each of the characters
    [&], [<], [>] and the double quote to its entity, copies every other
    character unchanged, and decoding the four entities in the result gives
    the string back. *)
Theorem xmlSafeValue_escapes_and_decodes (s : string) :
  xmlSafeValue (Str s) = Normal (escape_each s)
  /\ (entity "&" = "&amp;" /\ entity "<" = "&lt;" /\ entity ">" = "&gt;"
      /\ entity dquote = "&quot;"
      /\ forall c, c <> "&"%char -> c <> "<"%char -> c <> ">"%char ->
                   c <> dquote -> entity c = String c "")
  /\ xml_decode (escape_each s) = s.
Proof.
  split; [|split].
  - simpl. now rewrite xml_escape_each.
  - repeat split; try reflexivity.
    intros c H1 H2 H3 H4. unfold entity.
    destruct (Ascii.eqb_spec c "&"); [contradiction|].
    destruct (Ascii.eqb_spec c "<"); [contradiction|].
    destruct (Ascii.eqb_spec c ">"); [contradiction|].
    destruct (Ascii.eqb_spec c dquote); [contradiction|].
    reflexivity.
  - apply xml_decode_escape_each.
Qed.

(** ** Column names *)

Lemma lower_char_idem (c : ascii) : lower_char (lower_char c) = lower_char c.
Proof. each_ascii c; reflexivity. Qed.

Lemma lower_char_keeps_class (c : ascii) :
  is_space_or_underscore (lower_char c) = is_space_or_underscore c.
Proof. each_ascii c; reflexivity. Qed.

Lemma toLowerCase_idem (s : string) : toLowerCase (toLowerCase s) = toLowerCase s.
Proof.
  induction s as [|c s IH]; simpl; [reflexivity|].
  now rewrite lower_char_idem, IH.
Qed.

Lemma replace_runs_clean (rep : string) (b : bool) (s : string) :
  all_chars clean_char s = true ->
  replace_runs is_space_or_underscore rep b s = s.
Proof.
  revert b. induction s as [|c s IH]; intros b H; simpl in *; [reflexivity|].
  apply andb_true_iff in H as [Hc Hs]. unfold clean_char in Hc.
  apply negb_true_iff in Hc. rewrite Hc. now rewrite IH.
Qed.

Lemma replace_runs_gives_clean (b : bool) (s : string) :
  all_chars clean_char (replace_runs is_space_or_underscore "" b s) = true.
Proof.
  revert b. induction s as [|c s IH]; intros b; simpl; [reflexivity|].
  destruct (is_space_or_underscore c) eqn:Hc.
  - destruct b; simpl; apply IH.
  - simpl. unfold clean_char at 1. now rewrite Hc, IH.
Qed.

Lemma toLowerCase_keeps_clean (s : string) :
  all_chars clean_char (toLowerCase s) = all_chars clean_char s.
Proof.
  induction s as [|c s IH]; simpl; [reflexivity|].
  unfold clean_char at 1 3. now rewrite lower_char_keeps_class, IH.
Qed.

Lemma xmlSafeColumnName_clean (s : string) :
  all_chars clean_char (xmlSafeColumnName s) = true.
Proof.
  unfold xmlSafeColumnName. destruct (s =? ""); [reflexivity|].
  rewrite toLowerCase_keeps_clean. apply replace_runs_gives_clean.
Qed.

(** C9.  Column-name sanitization is idempotent: sanitizing a sanitized
    name returns it unchanged. *)
Theorem xmlSafeColumnName_idempotent (s : string) :
  xmlSafeColumnName (xmlSafeColumnName s) = xmlSafeColumnName s.
Proof.
  pose proof (xmlSafeColumnName_clean s) as Hclean.
  unfold xmlSafeColumnName at 1.
  destruct (String.eqb_spec (xmlSafeColumnName s) "") as [E|_]; [now rewrite E|].
  rewrite (replace_runs_clean _ _ _ Hclean).
  unfold xmlSafeColumnName. destruct (s =? ""); [reflexivity|].
  apply toLowerCase_idem.
Qed.

(** ** The sample client *)

Example anonymous_client_constructed :
  GooogleSpreadsheet (Str "key0") Null Null = Normal anonymous_client.
Proof. reflexivity. Qed.

(** ** Response classification *)

(** The order of the tests in [classify], on responses that carry a
    [content-type] header. *)
Lemma classify_order (P : platform) (st : Z) (ct b : string) :
  let res := {| status := st; content_type := Some ct; res_body := b |} in
  (st = 401%Z ->
     classify P res = Throw (Error ("Invalid authorization key. " ++ b)))
  /\ (st <> 401%Z -> (400 <= st)%Z ->
       exists reason,
         classify P res
         = Throw (Error ("HTTP error " ++ dec st ++ ": " ++ reason ++ ". " ++ b)))
  /\ (st = 200%Z -> contains "text/html" ct = true ->
       classify P res = Throw (Error (private_message ++ b)))
  /\ (st <> 401%Z -> (st < 400)%Z ->
       (st = 200%Z -> contains "text/html" ct = false) ->
       classify P res = Normal b).
Proof.
  cbv zeta. unfold classify. cbn [status content_type res_body].
  repeat split.
  - intros ->. reflexivity.
  - intros Hne Hge.
    destruct (Z.eqb_spec st 401) as [|_]; [contradiction|].
    destruct (Z.leb_spec 400 st) as [_|]; [|lia].
    eexists. reflexivity.
  - intros -> Hct. cbn. now rewrite Hct.
  - intros Hne Hlt Hct.
    destruct (Z.eqb_spec st 401) as [|_]; [contradiction|].
    destruct (Z.leb_spec 400 st) as [|_]; [lia|].
    destruct (Z.eqb_spec st 200) as [E|_]; [|reflexivity].
    now rewrite (Hct E).
Qed.

(** ** Parsing the body *)

Lemma parse_body_parses (P : platform) (xml : string) :
  parse_body P xml = (json <- parseString P xml ;; Normal (json, Buf xml)).
Proof. reflexivity. Qed.

(** ** The feed request run *)

Lemma refresh_no_request (e : env) (c : client) (r : http_req) :
  ~ In (Request r) (trace (refresh_if_expired e c)).
Proof.
  unfold refresh_if_expired, renewJwtAuth.
  destruct (auth_mode c); cbn; try tauto.
  destruct (x <- get_prop (google_auth c) "expires" ;; gt_number x (now e))
    as [[]| |]; cbn; try tauto.
  destruct (jwt_client c) as [[em k]|]; cbn; try tauto.
  destruct (tok <- authorize e ;; token_of_reply tok); cbn;
    intros [H|[]]; discriminate.
Qed.

Lemma makeFeedRequest_sent (P : platform) (e : env) (up : value) (m : string)
    (q : value) (c : client) (r : http_req) :
  In (Request r) (trace (makeFeedRequest P e up m q c)) ->
  exists u,
    feed_url up c = Normal u
    /\ build_request u m q (state (refresh_if_expired e c)) = Normal r
    /\ trace (makeFeedRequest P e up m q c)
       = (trace (refresh_if_expired e c) ++ [Request r])%list
    /\ state (makeFeedRequest P e up m q c) = state (refresh_if_expired e c).
Proof.
  pose proof (refresh_no_request e c r) as Hno.
  unfold makeFeedRequest, bindM, lift, emit.
  destruct (feed_url up c) as [u| |]; cbn; try tauto.
  destruct (refresh_if_expired e c) as [[o c1] t1].
  unfold trace, state in *. cbn in *.
  destruct o as [[]| |]; cbn; try tauto.
  destruct (build_request u m q c1) as [req| |] eqn:Hreq; cbn;
    try (rewrite app_nil_r; tauto).
  assert (Hin : In (Request r) (t1 ++ [Request req]) ->
                exists u0, Normal u = Normal u0
                  /\ build_request u0 m q c1 = Normal r
                  /\ (t1 ++ [Request req])%list = (t1 ++ [Request r])%list
                  /\ c1 = c1).
  { intros H. apply in_app_or in H as [H|[H|[]]]; [tauto|].
    injection H as ->. exists u. auto. }
  destruct (respond e req) as [res| |]; cbn;
    [destruct (classify P res) as [xml| |]; cbn|..]; exact Hin.
Qed.

(** ** The query of [getRows] *)

Lemma In_upsert (k k' : string) (v v' : value) (q : list (string * value)) :
  In (k, v) (upsert k' v' q) -> (k = k' /\ v = v') \/ In (k, v) q.
Proof.
  induction q as [|[k0 v0] q IH]; cbn.
  - intros [H|[]]. injection H as <- <-. auto.
  - destruct (k' =? k0); cbn.
    + intros [H|H]; [injection H as <- <-|]; auto.
    + intros [H|H]; [auto|]. destruct (IH H); auto.
Qed.

Lemma In_set_prop (k k' : string) (v v' : value) (q : list (string * value)) :
  In (k, v) (set_prop k' v' q) -> (k = k' /\ v = v') \/ In (k, v) q.
Proof.
  unfold set_prop. destruct (k' =? "__proto__"); [auto|apply In_upsert].
Qed.

Lemma In_add_option (opts : value) (name param k : string) (v : value)
    (q : list (string * value)) :
  In (k, v) (add_option opts name param q) ->
  (k = param /\ truthy (field opts name) = true) \/ In (k, v) q.
Proof.
  unfold add_option. destruct (truthy (field opts name)) eqn:T; [|auto].
  intros H. apply In_set_prop in H as [[-> _]|H]; auto.
Qed.

Lemma field_of_default (opts : value) (name : string) :
  truthy (field (if truthy opts then opts else Obj []) name) = true ->
  truthy (field opts name) = true.
Proof. destruct (truthy opts); [auto|discriminate]. Qed.

Lemma rows_query_keys (opts : value) (k : string) (v : value) :
  In (k, v) (rows_query opts) ->
  exists name, In (name, k) option_params /\ truthy (field opts name) = true.
Proof.
  unfold rows_query, option_params. intros H.
  repeat (apply In_add_option in H as [[-> H]|H];
          [apply field_of_default in H; eexists; split; [|exact H];
           cbn; intuition congruence|]).
  destruct H.
Qed.

Lemma all_some_map_in {A B : Type} (f : A -> option B) (l : list A)
    (ys : list B) (y : B) :
  all_some (map f l) = Some ys -> In y ys -> exists x, In x l /\ f x = Some y.
Proof.
  revert ys. induction l as [|a l IH]; cbn; intros ys H Hy.
  - injection H as <-. destruct Hy.
  - destruct (f a) as [b|] eqn:Fa; [|discriminate].
    destruct (all_some (map f l)) as [bs|]; [|discriminate].
    injection H as <-. destruct Hy as [<-|Hy].
    + exists a. auto.
    + destruct (IH bs eq_refl Hy) as (x & Hx & Fx). exists x. auto.
Qed.

Lemma qs_fields_shape (k : string) (v : value) (cs : list string) (comp : string) :
  qs_fields (k, v) = Some cs -> In comp cs ->
  exists rest, comp = qs_escape k ++ "=" ++ rest.
Proof.
  unfold qs_fields. cbn [fst snd].
  assert (Hone : forall w c,
             option_map (fun s => (qs_escape k ++ "=") ++ qs_escape s)
               (stringifyPrimitive w) = Some c ->
             exists rest, c = qs_escape k ++ "=" ++ rest).
  { intros w c H. destruct (stringifyPrimitive w) as [s|]; [|discriminate].
    injection H as <-. exists (qs_escape s). apply append_assoc. }
  assert (Hsingle : forall w,
             option_map (fun c => [c])
               (option_map (fun s => (qs_escape k ++ "=") ++ qs_escape s)
                  (stringifyPrimitive w)) = Some cs ->
             In comp cs -> exists rest, comp = qs_escape k ++ "=" ++ rest).
  { intros w H Hin.
    destruct (option_map _ (stringifyPrimitive w)) as [c|] eqn:E;
      [|discriminate].
    injection H as <-. destruct Hin as [<-|[]]. eapply Hone; exact E. }
  destruct v; try apply Hsingle.
  intros H Hin.
  destruct (all_some_map_in _ _ _ _ H Hin) as (w & _ & Hw).
  eapply Hone; exact Hw.
Qed.

Lemma qs_components_shape (props : list (string * value)) (comps : list string)
    (comp : string) :
  qs_components props = Some comps -> In comp comps ->
  exists k v rest, In (k, v) props /\ comp = qs_escape k ++ "=" ++ rest.
Proof.
  unfold qs_components. intros H Hin.
  destruct (all_some (map qs_fields props)) as [css|] eqn:E; [|discriminate].
  injection H as <-. apply in_concat in Hin as (cs & Hcs & Hin).
  destruct (all_some_map_in _ _ _ _ E Hcs) as ([k v] & Hkv & Hf).
  destruct (qs_fields_shape _ _ _ _ Hf Hin) as (rest & ->).
  exists k, v, rest. auto.
Qed.

Lemma bindM_read {A B : Type} (f : client -> A) (k : A -> M B) (c : client) :
  bindM (fun c => ret (f c) c) k c = k (f c) c.
Proof.
  unfold bindM, ret, out, state, trace.
  destruct (k (f c) c) as [[o c1] t]. reflexivity.
Qed.

Lemma trace_bindM_lift {A B : Type} (m : M A) (k : A -> outcome B) (c : client) :
  trace (bindM m (fun a => lift (k a)) c) = trace (m c).
Proof.
  unfold bindM, lift, trace.
  destruct (m c) as [[[a| |] c1] t1]; cbn; [apply app_nil_r|reflexivity..].
Qed.

Lemma state_bindM_lift {A B : Type} (m : M A) (k : A -> outcome B) (c : client) :
  state (bindM m (fun a => lift (k a)) c) = state (m c).
Proof.
  unfold bindM, lift, state.
  destruct (m c) as [[[a| |] c1] t1]; reflexivity.
Qed.

Lemma getRows_trace (P : platform) (e : env) (ws opts : value) (c : client) :
  trace (getRows P e ws opts c)
  = trace (makeFeedRequest P e (Arr [Str "list"; ss_key c; ws]) "GET"
             (Obj (rows_query opts)) c).
Proof.
  unfold getRows. rewrite bindM_read. apply trace_bindM_lift.
Qed.

Lemma lookup_In (k : string) (v : value) (l : list (string * value)) :
  lookup k l = Some v -> In (k, v) l.
Proof.
  induction l as [|[k0 v0] l IH]; cbn; [discriminate|].
  destruct (String.eqb_spec k k0) as [->|_].
  - intros H. injection H as ->. auto.
  - auto.
Qed.

Lemma option_params_distinct (k param : string) :
  In k (map snd option_params) -> In param (map snd option_params) ->
  k <> param -> forall rest, prefix (param ++ "=") (qs_escape k ++ "=" ++ rest) = false.
Proof.
  cbn. intros Hk Hp Hne rest.
  repeat (destruct Hk as [<-|Hk]);
    repeat (destruct Hp as [<-|Hp]); try contradiction; try reflexivity.
Qed.

(** C10.  When an option of [getRows] is falsy (0, [false], the empty
    string, absent), the query object holds no entry for its parameter, and
    in every request the call sends the query string is made of components
    none of which names that parameter. *)
Theorem getRows_omits_falsy_options (P : platform) (e : env)
    (ws opts : value) (c : client) (r : http_req) (name param : string) :
  In (name, param) option_params ->
  truthy (field opts name) = false ->
  In (Request r) (trace (getRows P e ws opts c)) ->
  lookup param (rows_query opts) = None
  /\ exists base comps,
       feed_url (Arr [Str "list"; ss_key c; ws]) c = Normal (Str base)
       /\ qs_components (rows_query opts) = Some comps
       /\ url r = Str (base ++ "?" ++ join "&" comps)
       /\ forall comp, In comp comps -> prefix (param ++ "=") comp = false.
Proof.
  intros Hp Hfalsy Hin.
  assert (Hkeys : forall k v, In (k, v) (rows_query opts) -> k <> param).
  { intros k v Hk ->. apply rows_query_keys in Hk as (name' & Hn & Ht).
    assert (name' = name) as ->; [|congruence].
    cbn in Hp, Hn. intuition congruence. }
  split.
  - destruct (lookup param (rows_query opts)) as [v|] eqn:L; [|reflexivity].
    exfalso. exact (Hkeys _ _ (lookup_In _ _ _ L) eq_refl).
  - rewrite getRows_trace in Hin.
    apply makeFeedRequest_sent in Hin as (u & Hu & Hreq & _).
    pose proof Hu as Hurl. unfold feed_url in Hu.
    destruct (of_option _) as [path| |] in Hu; try discriminate.
    cbn in Hu. injection Hu as <-.
    unfold build_request in Hreq.
    destruct (auth_headers _) as [h| |]; try discriminate.
    cbn in Hreq.
    destruct (insertion_ordered (rows_query opts)); try discriminate.
    destruct (qs_components (rows_query opts)) as [comps|] eqn:Hc;
      try discriminate.
    cbn in Hreq. injection Hreq as <-. cbn.
    exists (GOOGLE_FEED_URL ++ path), comps.
    repeat split; [exact Hurl|].
    intros comp Hcomp.
    destruct (qs_components_shape _ _ _ Hc Hcomp) as (k & v & rest & Hk & ->).
    apply option_params_distinct.
    + apply rows_query_keys in Hk as (n & Hn & _).
      apply (in_map snd) in Hn. exact Hn.
    + apply (in_map snd) in Hp. exact Hp.
    + eapply Hkeys; eauto.
Qed.

(** ** Authentication modes *)

Lemma setAuthAndDependencies_mode (a : value) (c : client) :
  auth_mode (setAuthAndDependencies a c) = auth_mode c.
Proof. reflexivity. Qed.

Lemma setAuthToken_mode (a : value) (c : client) :
  auth_mode (setAuthToken a c)
  = match auth_mode c with anonymous => token | m => m end.
Proof. unfold setAuthToken. destruct (auth_mode c) eqn:E; cbn; auto. Qed.

Lemma renewJwtAuth_mode (e : env) (c : client) :
  auth_mode (state (renewJwtAuth e c)) = jwt.
Proof.
  unfold renewJwtAuth.
  destruct (jwt_client c) as [[em k]|]; [|reflexivity].
  destruct (tok <- authorize e ;; token_of_reply tok); reflexivity.
Qed.

Lemma useServiceAccountAuth_mode (P : platform) (e : env) (creds : value)
    (c : client) :
  auth_mode (state (useServiceAccountAuth P e creds c)) = auth_mode c
  \/ auth_mode (state (useServiceAccountAuth P e creds c)) = jwt.
Proof.
  unfold useServiceAccountAuth.
  match goal with
  | |- context [match ?o with Normal j => _ | Throw err => _ | Unmodelled => _ end] =>
      destruct o as [j| |]
  end; [right; apply renewJwtAuth_mode|left; reflexivity..].
Qed.

Lemma refresh_mode (e : env) (c : client) :
  auth_mode (state (refresh_if_expired e c)) = auth_mode c.
Proof.
  unfold refresh_if_expired. destruct (auth_mode c) eqn:E; try exact E.
  destruct (x <- get_prop (google_auth c) "expires" ;; gt_number x (now e))
    as [[]| |]; try exact E.
  apply renewJwtAuth_mode.
Qed.

Lemma makeFeedRequest_state (P : platform) (e : env) (up : value) (m : string)
    (q : value) (c : client) :
  state (makeFeedRequest P e up m q c) = c
  \/ state (makeFeedRequest P e up m q c) = state (refresh_if_expired e c).
Proof.
  unfold makeFeedRequest, bindM, lift, emit.
  destruct (feed_url up c) as [u| |]; cbn; auto.
  destruct (refresh_if_expired e c) as [[[[]| |] c1] t1]; cbn; auto.
  destruct (build_request u m q c1) as [req| |]; cbn; auto.
  destruct (respond e req) as [res| |]; cbn; auto.
  destruct (classify P res) as [xml| |]; cbn; auto.
Qed.

Lemma apply_op_forward (P : platform) (op : auth_op) (c : client) :
  forward_step (auth_mode c) (auth_mode (apply_op P op c)).
Proof.
  unfold forward_step, anonymous_step.
  destruct op as [a|e creds|e up m q]; cbn [apply_op].
  - rewrite setAuthToken_mode. destruct (auth_mode c); auto.
  - destruct (useServiceAccountAuth_mode P e creds c) as [->| ->]; auto.
    destruct (auth_mode c); auto.
  - destruct (makeFeedRequest_state P e up m q c) as [->| ->]; auto.
    rewrite refresh_mode. auto.
Qed.

Lemma forward_step_rank (a b : auth_mode_t) :
  forward_step a b -> (rank a <= rank b)%nat.
Proof.
  unfold forward_step, anonymous_step.
  intros [[->|[-> [->| ->]]]|[-> ->]]; cbn; lia.
Qed.

(** C6 (amended).  Every operation on the authentication state leaves the
    mode in place or moves it from [anonymous] to [token], from [anonymous]
    to [jwt], or from [token] to [jwt]; along any sequence of operations
    the mode never moves back, so it never returns to [anonymous]. *)
Theorem auth_mode_moves_forward (P : platform) (ops : list auth_op) (c : client) :
  chain forward_step (auth_mode c) (modes P ops c)
  /\ (rank (auth_mode c) <= rank (auth_mode (run_ops P ops c)))%nat.
Proof.
  revert c. induction ops as [|op ops IH]; intros c; cbn.
  - auto.
  - destruct (IH (apply_op P op c)) as [Hc Hr].
    pose proof (apply_op_forward P op c) as Hs.
    repeat split; auto.
    apply forward_step_rank in Hs. unfold run_ops in Hr. lia.
Qed.

(** C6 as stated fails: after a token was injected, switching to a service
    account moves the mode from [token] to [jwt]. *)
Lemma token_mode_moves_to_jwt :
  ~ chain anonymous_step anonymous
      (modes sample_platform
         [OpSetAuthToken sample_token;
          OpUseServiceAccountAuth
            (answering 2000 (Normal sample_reply) (atom_response ""))
            sample_creds]
         anonymous_client).
Proof.
  cbn. unfold anonymous_step. intros (_ & [H|[H _]] & _); discriminate.
Qed.

(** ** The authorization header *)

Lemma get_prop_truthy (v : value) (k : string) :
  truthy v = true -> get_prop v k = Normal (field v k).
Proof. destruct v; cbn; congruence. Qed.

Lemma refresh_not_needed (e : env) (c : client) :
  (auth_mode c = jwt ->
   truthy (google_auth c) = true
   /\ gt_number (field (google_auth c) "expires") (now e) = Normal true) ->
  refresh_if_expired e c = (Normal tt, c, []).
Proof.
  unfold refresh_if_expired. destruct (auth_mode c); try reflexivity.
  intros H. destruct (H eq_refl) as [Ht Hgt].
  rewrite (get_prop_truthy _ _ Ht). cbn. now rewrite Hgt.
Qed.

Lemma is_str_true (lit : string) (v : value) :
  is_str lit v = true <-> v = Str lit.
Proof.
  destruct v; cbn; try (split; [discriminate|congruence]).
  destruct (String.eqb_spec s lit) as [->|N]; split; try congruence; auto.
Qed.

(** After a credential was injected with [setAuthToken], every request
    sent while that credential is in place (outside service-account mode,
    or before its expiry) carries an [Authorization] header: [Bearer ]
    followed by the credential's value when its type is [Bearer], and
    otherwise [GoogleLogin auth=] followed by the credential itself
    converted to a string; the credential stays in the client state for
    the requests that follow. *)
Lemma credential_authorization_header (P : platform) (e : env)
    (c : client) (tok up : value) (m : string) (q : value) (r : http_req) :
  truthy tok = true ->
  (auth_mode c = jwt -> gt_number (field tok "expires") (now e) = Normal true) ->
  In (Request r) (trace (makeFeedRequest P e up m q (setAuthToken tok c))) ->
  (exists s,
      headers r = (("Authorization", s) :: content_headers m)%list
      /\ ((field tok "type" = Str "Bearer"
           /\ exists v, to_string (field tok "value") = Some v
                        /\ s = "Bearer " ++ v)
          \/ (field tok "type" <> Str "Bearer"
              /\ exists v, to_string tok = Some v
                           /\ s = "GoogleLogin auth=" ++ v)))
  /\ state (makeFeedRequest P e up m q (setAuthToken tok c)) = setAuthToken tok c.
Proof.
  intros Htruthy Hvalid Hin.
  apply makeFeedRequest_sent in Hin as (u & _ & Hreq & _ & Hstate).
  assert (Hkeep : refresh_if_expired e (setAuthToken tok c)
                  = (Normal tt, setAuthToken tok c, [])).
  { apply refresh_not_needed. rewrite setAuthToken_mode.
    intros Hm. split; [exact Htruthy|].
    apply Hvalid. destruct (auth_mode c); congruence. }
  rewrite Hkeep in Hreq, Hstate. cbn [state fst snd] in Hreq, Hstate.
  split; [|exact Hstate].
  unfold build_request in Hreq.
  change (google_auth (setAuthToken tok c)) with tok in Hreq.
  unfold auth_headers in Hreq. rewrite Htruthy in Hreq.
  destruct (is_str "Bearer" (field tok "type")) eqn:Hb.
  - apply is_str_true in Hb.
    destruct (to_string (field tok "value")) as [v|] eqn:Hv; [|discriminate].
    cbn in Hreq. destruct (with_query u m q); try discriminate.
    cbn in Hreq. injection Hreq as <-. cbn.
    eexists. split; [reflexivity|]. left. split; [exact Hb|]. now exists v.
  - assert (Hnb : field tok "type" <> Str "Bearer").
    { intros E. apply is_str_true in E. congruence. }
    destruct (to_string tok) as [v|] eqn:Hv; [|discriminate].
    cbn in Hreq. destruct (with_query u m q); try discriminate.
    cbn in Hreq. injection Hreq as <-. cbn.
    eexists. split; [reflexivity|]. right. split; [exact Hnb|]. now exists v.
Qed.

(** C4.  A token object injected with [setAuthToken] gives every request
    sent while it is in place the header [Bearer ] followed by its value
    when its type is [Bearer].  When its type is anything else, the header
    is the text [GoogleLogin auth=[object Object]], whatever the value of
    the token: the object itself, not its value, is joined to the prefix,
    so the credential is not in the header. *)
Theorem token_object_authorization_header (P : platform) (e : env)
    (c : client) (props : list (string * value)) (up : value) (m : string)
    (q : value) (r : http_req) :
  (auth_mode c = jwt ->
   gt_number (field (Obj props) "expires") (now e) = Normal true) ->
  In (Request r)
     (trace (makeFeedRequest P e up m q (setAuthToken (Obj props) c))) ->
  (field (Obj props) "type" = Str "Bearer" ->
   exists v,
     to_string (field (Obj props) "value") = Some v
     /\ headers r
        = ("Authorization", "Bearer " ++ v) :: content_headers m)
  /\ (field (Obj props) "type" <> Str "Bearer" ->
      headers r
      = (("Authorization", "GoogleLogin auth=[object Object]")
           :: content_headers m)%list).
Proof.
  intros Hvalid Hin.
  destruct (credential_authorization_header P e c (Obj props) up m q r
              eq_refl Hvalid Hin)
    as [(s & Hh & [(Hb & v & Hv & ->)|(Hnb & v & Hv & ->)]) _].
  - split; [intros _; now exists v|intros N; contradiction].
  - split; [intros E; contradiction|intros _].
    rewrite Hh. cbn [to_string] in Hv.
    destruct (has_key "toString" props || has_key "valueOf" props);
      [discriminate|].
    now injection Hv as <-.
Qed.

(** ** Token refresh *)

Lemma makeFeedRequest_after_refresh (P : platform) (e : env) (up u : value)
    (m : string) (q : value) (c : client) :
  feed_url up c = Normal u ->
  state (makeFeedRequest P e up m q c) = state (refresh_if_expired e c)
  /\ trace (makeFeedRequest P e up m q c)
     = (trace (refresh_if_expired e c)
        ++ match out (refresh_if_expired e c),
                 build_request u m q (state (refresh_if_expired e c)) with
           | Normal _, Normal r => [Request r]
           | _, _ => []
           end)%list
  /\ (forall err, out (refresh_if_expired e c) = Throw err ->
        out (makeFeedRequest P e up m q c) = Throw err).
Proof.
  intros Hu.
  unfold makeFeedRequest, bindM, lift, emit. rewrite Hu. cbn.
  destruct (refresh_if_expired e c) as [[[[]| |] c1] t1]; cbn.
  - destruct (build_request u m q c1) as [req| |]; cbn.
    + destruct (respond e req) as [res| |]; cbn;
        [destruct (classify P res) as [xml| |]; cbn|..];
        repeat split; discriminate.
    + rewrite !app_nil_r. repeat split; discriminate.
    + rewrite !app_nil_r. repeat split; discriminate.
  - rewrite app_nil_r. repeat split. intros err H. now injection H as ->.
  - rewrite app_nil_r. repeat split. discriminate.
Qed.

(** C5.  In service-account mode, a request made when the cached token's
    expiry is not in the future calls the token endpoint exactly once; when
    the endpoint answers, the fresh token replaces the stored one and the
    request is sent after the refresh, built from the fresh token; when it
    fails the request is not sent.  A request made before the expiry calls
    the endpoint not at all and leaves the client state as it is. *)
Theorem expired_token_is_refreshed_once (P : platform) (e : env) (c : client)
    (up u : value) (m : string) (q x email key : value) :
  auth_mode c = jwt ->
  jwt_client c = Some (email, key) ->
  get_prop (google_auth c) "expires" = Normal x ->
  feed_url up c = Normal u ->
  (gt_number x (now e) = Normal false ->
     refreshes (trace (makeFeedRequest P e up m q c)) = 1%nat
     /\ (forall reply fresh,
           authorize e = Normal reply -> token_of_reply reply = Normal fresh ->
           google_auth (state (makeFeedRequest P e up m q c)) = fresh
           /\ forall r,
                build_request u m q (setAuthToken fresh (with_auth_mode jwt c))
                = Normal r ->
                trace (makeFeedRequest P e up m q c)
                = [Authorize email key; Request r])
     /\ (forall err,
           authorize e = Throw err ->
           out (makeFeedRequest P e up m q c) = Throw err
           /\ trace (makeFeedRequest P e up m q c) = [Authorize email key]
           /\ google_auth (state (makeFeedRequest P e up m q c))
              = google_auth c))
  /\ (gt_number x (now e) = Normal true ->
        refreshes (trace (makeFeedRequest P e up m q c)) = 0%nat
        /\ state (makeFeedRequest P e up m q c) = c).
Proof.
  intros Hmode Hjwt Hx Hu.
  destruct (makeFeedRequest_after_refresh P e up u m q c Hu)
    as (Hst & Htr & Herr).
  set (run := makeFeedRequest P e up m q c) in *. clearbody run.
  rewrite Hst, Htr. clear Hst Htr.
  split.
  - intros Hexp.
    assert (Href : refresh_if_expired e c = renewJwtAuth e c).
    { unfold refresh_if_expired. rewrite Hmode, Hx. cbn. now rewrite Hexp. }
    rewrite Href in *. clear Href.
    unfold renewJwtAuth in *. rewrite Hjwt in *.
    destruct (authorize e) as [reply| |]; cbn in *.
    + destruct (token_of_reply reply) as [fresh| |] eqn:Htok; cbn in *.
      * split; [|split].
        -- destruct (build_request u m q _) as [r| |]; reflexivity.
        -- intros reply' fresh' Hr Ht. injection Hr as Hr. subst reply'.
           rewrite Htok in Ht. injection Ht as Ht. subst fresh'.
           split; [reflexivity|]. intros r ->. reflexivity.
        -- discriminate.
      * split; [reflexivity|split; [|discriminate]].
        intros reply' fresh' Hr Ht. injection Hr as Hr. subst reply'.
        rewrite Htok in Ht. discriminate.
      * split; [reflexivity|split; [|discriminate]].
        intros reply' fresh' Hr Ht. injection Hr as Hr. subst reply'.
        rewrite Htok in Ht. discriminate.
    + split; [reflexivity|split; [discriminate|]].
      intros err H. injection H as <-. auto.
    + split; [reflexivity|split; discriminate].
  - intros Hvalid.
    assert (Href : refresh_if_expired e c = (Normal tt, c, [])).
    { unfold refresh_if_expired. rewrite Hmode, Hx. cbn. now rewrite Hvalid. }
    rewrite Href. cbn.
    split; [|reflexivity].
    destruct (build_request u m q c) as [r| |]; reflexivity.
Qed.

(** ** Responses without a content type, and empty responses *)

Lemma out_bindM_lift {A B : Type} (m : M A) (k : A -> outcome B) (c : client) :
  out (bindM m (fun a => lift (k a)) c) = bind (out (m c)) k.
Proof.
  unfold bindM, lift, out.
  destruct (m c) as [[[a| |] c1] t1]; reflexivity.
Qed.

Lemma makeFeedRequest_out (P : platform) (e : env) (up : value) (m : string)
    (q : value) (c : client) (r : http_req) :
  In (Request r) (trace (makeFeedRequest P e up m q c)) ->
  out (makeFeedRequest P e up m q c)
  = (res <- respond e r ;; xml <- classify P res ;; parse_body P xml).
Proof.
  pose proof (refresh_no_request e c r) as Hno.
  unfold makeFeedRequest, bindM, lift, emit.
  destruct (feed_url up c) as [u| |]; cbn; try tauto.
  destruct (refresh_if_expired e c) as [[o c1] t1].
  unfold trace, state, out in *. cbn in *.
  destruct o as [[]| |]; cbn; try tauto.
  destruct (build_request u m q c1) as [req| |]; cbn;
    try (rewrite app_nil_r; tauto).
  assert (Hin : In (Request r) (t1 ++ [Request req]) -> req = r).
  { intros H. apply in_app_or in H as [H|[H|[]]]; [tauto|].
    now injection H. }
  destruct (respond e req) as [res| |] eqn:Hres; cbn;
    [destruct (classify P res) as [xml| |] eqn:Hcl; cbn|..];
    intros H; apply Hin in H; subst r; rewrite Hres; cbn;
    try rewrite Hcl; reflexivity.
Qed.

(** C1.  A response with status 200 and no [content-type] header is none
    of the three failures the classification names, yet it is not passed on
    as a success: classifying it throws a [TypeError], and so every request
    answered that way fails with a [TypeError], whatever the body. *)
Theorem classify_without_content_type (P : platform) (b : string) :
  classify P {| status := 200; content_type := None; res_body := b |}
  = Throw TypeError
  /\ forall e up m q c r,
       In (Request r) (trace (makeFeedRequest P e up m q c)) ->
       respond e r
       = Normal {| status := 200; content_type := None; res_body := b |} ->
       out (makeFeedRequest P e up m q c) = Throw TypeError.
Proof.
  split; [reflexivity|].
  intros e up m q c r Hin Hres.
  rewrite (makeFeedRequest_out _ _ _ _ _ _ _ Hin), Hres. reflexivity.
Qed.

(** An instance: the worksheets feed answered with status 200 and no
    [content-type] header. *)
Lemma classify_without_content_type_witness :
  In (Request sample_worksheets_request)
     (trace (makeFeedRequest sample_platform
               (answering 0 Unmodelled (bare_response "<feed/>"))
               worksheets_path "GET" Null anonymous_client))
  /\ out (makeFeedRequest sample_platform
            (answering 0 Unmodelled (bare_response "<feed/>"))
            worksheets_path "GET" Null anonymous_client)
     = Throw TypeError.
Proof.
  assert (H : In (Request sample_worksheets_request)
                (trace (makeFeedRequest sample_platform
                          (answering 0 Unmodelled (bare_response "<feed/>"))
                          worksheets_path "GET" Null anonymous_client)))
    by (vm_compute; left; reflexivity).
  split; [exact H|].
  exact (proj2 (classify_without_content_type sample_platform "<feed/>")
           (answering 0 Unmodelled (bare_response "<feed/>"))
           worksheets_path "GET" Null anonymous_client
           sample_worksheets_request H eq_refl).
Defined.

Lemma makeFeedRequest_xml_is_buffer (P : platform) (e : env) (up : value)
    (m : string) (q : value) (c : client) (json xml : value) :
  out (makeFeedRequest P e up m q c) = Normal (json, xml) ->
  exists b, xml = Buf b.
Proof.
  unfold makeFeedRequest, bindM, lift, emit.
  destruct (feed_url up c) as [u| |]; cbn; try discriminate.
  destruct (refresh_if_expired e c) as [[[[]| |] c1] t1]; cbn;
    try discriminate.
  destruct (build_request u m q c1) as [req| |]; cbn; try discriminate.
  destruct (respond e req) as [res| |]; cbn; try discriminate.
  destruct (classify P res) as [b| |]; cbn; try discriminate.
  unfold parse_body. cbn [truthy].
  destruct (parseString P b) as [j| |]; cbn; try discriminate.
  intros H. exists b. congruence.
Qed.

(** C2.  A request never resolves to [(null, null)]: its second component
    is the buffer of the body, also when the body is empty.  Whenever the
    request of [getInfo], [getRows] or [getCells] resolves to [null] as
    parsed data, which is what the parser gives on an empty body, the
    operation fails with a [TypeError], not with its
    [No response to ... call] error. *)
Theorem empty_response_is_a_TypeError (P : platform) (e : env)
    (ws opts x : value) (c : client) :
  (out (makeFeedRequest P e (Arr [Str "worksheets"; ss_key c]) "GET" Null c)
   = Normal (Null, x) ->
   out (getInfo P e c) = Throw TypeError)
  /\ (out (makeFeedRequest P e (Arr [Str "list"; ss_key c; ws]) "GET"
             (Obj (rows_query opts)) c)
      = Normal (Null, x) ->
      out (getRows P e ws opts c) = Throw TypeError)
  /\ (forall q,
        cells_query opts = Normal q ->
        out (makeFeedRequest P e (Arr [Str "cells"; ss_key c; ws]) "GET" q c)
        = Normal (Null, x) ->
        out (getCells P e ws opts c) = Throw TypeError)
  /\ (forall up m q json,
        out (makeFeedRequest P e up m q c) = Normal (json, x) -> x <> Null).
Proof.
  split; [|split; [|split]].
  - intros H. unfold getInfo. rewrite bindM_read, out_bindM_lift, H.
    reflexivity.
  - intros H. unfold getRows. rewrite bindM_read, out_bindM_lift, H.
    destruct (makeFeedRequest_xml_is_buffer _ _ _ _ _ _ _ _ H) as [b ->].
    reflexivity.
  - intros q Hq H. unfold getCells. rewrite bindM_read.
    unfold bindM at 1, lift at 1. rewrite Hq. cbn [out state trace fst snd].
    rewrite out_bindM_lift, H. reflexivity.
  - intros up m q json H.
    destruct (makeFeedRequest_xml_is_buffer _ _ _ _ _ _ _ _ H) as [b ->].
    discriminate.
Qed.

(** An instance: the three operations on a response with an empty body,
    which resolves to [null] and the empty buffer. *)
Lemma empty_response_is_a_TypeError_witness :
  out (makeFeedRequest sample_platform
         (answering 0 Unmodelled (atom_response ""))
         (Arr [Str "worksheets"; ss_key anonymous_client]) "GET" Null
         anonymous_client)
  = Normal (Null, Buf "")
  /\ out (getInfo sample_platform (answering 0 Unmodelled (atom_response ""))
            anonymous_client)
     = Throw TypeError
  /\ out (getRows sample_platform (answering 0 Unmodelled (atom_response ""))
            (Num 1) Null anonymous_client)
     = Throw TypeError
  /\ out (getCells sample_platform (answering 0 Unmodelled (atom_response ""))
            (Num 1) Null anonymous_client)
     = Throw TypeError.
Proof.
  destruct (empty_response_is_a_TypeError sample_platform
              (answering 0 Unmodelled (atom_response "")) (Num 1) Null
              (Buf "") anonymous_client) as (Hinfo & Hrows & Hcells & _).
  split; [reflexivity|].
  split; [exact (Hinfo eq_refl)|].
  split; [exact (Hrows eq_refl)|].
  exact (Hcells (Obj []) eq_refl eq_refl).
Defined.

(** ** Instances of the request properties *)

(** An instance: [start] is 0, and the request names [max-results] and [sq]
    only. *)
Lemma getRows_omits_falsy_options_witness :
  In ("start", "start-index") option_params
  /\ truthy (field sample_opts "start") = false
  /\ In (Request sample_rows_request)
        (trace (getRows sample_platform
                  (answering 0 Unmodelled (atom_response ""))
                  (Num 1) sample_opts anonymous_client))
  /\ lookup "start-index" (rows_query sample_opts) = None
  /\ exists base comps,
       feed_url (Arr [Str "list"; ss_key anonymous_client; Num 1])
         anonymous_client = Normal (Str base)
       /\ qs_components (rows_query sample_opts) = Some comps
       /\ url sample_rows_request = Str (base ++ "?" ++ join "&" comps)
       /\ forall comp, In comp comps -> prefix ("start-index" ++ "=") comp = false.
Proof.
  assert (H1 : In ("start", "start-index") option_params) by (cbn; auto).
  assert (H2 : truthy (field sample_opts "start") = false) by reflexivity.
  assert (H3 : In (Request sample_rows_request)
                 (trace (getRows sample_platform
                           (answering 0 Unmodelled (atom_response ""))
                           (Num 1) sample_opts anonymous_client)))
    by (vm_compute; left; reflexivity).
  split; [exact H1|]. split; [exact H2|]. split; [exact H3|].
  exact (getRows_omits_falsy_options sample_platform
           (answering 0 Unmodelled (atom_response "")) (Num 1) sample_opts
           anonymous_client sample_rows_request "start" "start-index"
           H1 H2 H3).
Defined.

(** An instance: a token of type [MAC] injected into an anonymous client. *)
Lemma token_object_authorization_header_witness :
  In (Request sample_legacy_request)
     (trace (makeFeedRequest sample_platform
               (answering 2000 Unmodelled (atom_response ""))
               worksheets_path "GET" Null
               (setAuthToken (Obj sample_mac_token) anonymous_client)))
  /\ field (Obj sample_mac_token) "type" <> Str "Bearer"
  /\ field (Obj sample_mac_token) "value" = Str "abc123"
  /\ headers sample_legacy_request
     = (("Authorization", "GoogleLogin auth=[object Object]")
          :: content_headers "GET")%list.
Proof.
  assert (H1 : In (Request sample_legacy_request)
                 (trace (makeFeedRequest sample_platform
                           (answering 2000 Unmodelled (atom_response ""))
                           worksheets_path "GET" Null
                           (setAuthToken (Obj sample_mac_token)
                              anonymous_client))))
    by (vm_compute; left; reflexivity).
  assert (H2 : field (Obj sample_mac_token) "type" <> Str "Bearer")
    by discriminate.
  assert (H3 : auth_mode anonymous_client = jwt ->
               gt_number (field (Obj sample_mac_token) "expires") 2000
               = Normal true)
    by discriminate.
  split; [exact H1|]. split; [exact H2|]. split; [reflexivity|].
  exact (proj2 (token_object_authorization_header sample_platform
                  (answering 2000 Unmodelled (atom_response ""))
                  anonymous_client sample_mac_token worksheets_path "GET" Null
                  sample_legacy_request H3 H1) H2).
Defined.

(** An instance: a token that expired at time 1000, used at time 2000. *)
Lemma expired_token_is_refreshed_once_witness :
  auth_mode service_client = jwt
  /\ jwt_client service_client = Some (Str "robot@example.com", Str "pem")
  /\ get_prop (google_auth service_client) "expires" = Normal (Num 1000)
  /\ gt_number (Num 1000) 2000 = Normal false
  /\ refreshes
       (trace (makeFeedRequest sample_platform
                 (answering 2000 (Normal sample_reply) (atom_response ""))
                 worksheets_path "GET" Null service_client)) = 1%nat
  /\ google_auth
       (state (makeFeedRequest sample_platform
                 (answering 2000 (Normal sample_reply) (atom_response ""))
                 worksheets_path "GET" Null service_client))
     = sample_fresh_token
  /\ trace (makeFeedRequest sample_platform
              (answering 2000 (Normal sample_reply) (atom_response ""))
              worksheets_path "GET" Null service_client)
     = [Authorize (Str "robot@example.com") (Str "pem");
        Request sample_refreshed_request].
Proof.
  destruct (expired_token_is_refreshed_once sample_platform
              (answering 2000 (Normal sample_reply) (atom_response ""))
              service_client worksheets_path
              (Str "https://spreadsheets.google.com/feeds/worksheets/key0/private/full")
              "GET" Null (Num 1000) (Str "robot@example.com") (Str "pem")
              eq_refl eq_refl eq_refl eq_refl) as [Hexpired _].
  destruct (Hexpired eq_refl) as (Hcount & Hfresh & _).
  destruct (Hfresh sample_reply sample_fresh_token eq_refl eq_refl)
    as [Hstate Htrace].
  split; [reflexivity|]. split; [reflexivity|]. split; [reflexivity|].
  split; [reflexivity|]. split; [exact Hcount|]. split; [exact Hstate|].
  apply (Htrace sample_refreshed_request). reflexivity.
Defined.

(** ** Rows *)

Lemma lookup_upsert_same (k : string) (v : value) (l : list (string * value)) :
  lookup k (upsert k v l) = Some v.
Proof.
  induction l as [|[k0 v0] l IH]; cbn.
  - now rewrite String.eqb_refl.
  - destruct (String.eqb_spec k k0) as [->|N]; cbn.
    + now rewrite String.eqb_refl.
    + destruct (String.eqb_spec k k0); [contradiction|exact IH].
Qed.

Lemma lookup_upsert_other (t k : string) (v : value) (l : list (string * value)) :
  t <> k -> lookup t (upsert k v l) = lookup t l.
Proof.
  intros N. induction l as [|[k0 v0] l IH]; cbn.
  - destruct (String.eqb_spec t k); [contradiction|reflexivity].
  - destruct (String.eqb_spec k k0) as [->|N0]; cbn.
    + destruct (String.eqb_spec t k0); [contradiction|reflexivity].
    + now rewrite IH.
Qed.

Lemma lookup_set_prop_same (k : string) (v : value) (l : list (string * value)) :
  k <> "__proto__" -> lookup k (set_prop k v l) = Some v.
Proof.
  intros N. unfold set_prop.
  destruct (String.eqb_spec k "__proto__"); [contradiction|].
  apply lookup_upsert_same.
Qed.

Lemma lookup_set_prop_other (t k : string) (v : value) (l : list (string * value)) :
  t <> k -> lookup t (set_prop k v l) = lookup t l.
Proof.
  intros N. unfold set_prop. destruct (k =? "__proto__"); [reflexivity|].
  now apply lookup_upsert_other.
Qed.

Lemma row_fields_app (self a b : list (string * value)) :
  row_fields self (a ++ b)
  = (self' <- row_fields self a ;; row_fields self' b).
Proof.
  revert self. induction a as [|[k v] a IH]; intros self; cbn; [reflexivity|].
  destruct (row_field self k v); cbn; auto.
Qed.

Lemma row_field_other (t : string) (self self' : list (string * value))
    (key : string) (val : value) :
  row_field self key val = Normal self' ->
  ~ In t (row_targets key) ->
  lookup t self' = lookup t self.
Proof.
  unfold row_field, row_targets, column_of.
  assert (Hset : forall k v l,
             In k (if substring 0 4 key =? "gsx:"
                   then [if key =? "gsx:" then substring 0 3 key else drop 4 key]
                   else if key =? "id" then ["id"]
                   else if key =? "link" then ["link"; "_links"] else [key]) ->
             assign k v self = Normal l ->
             ~ In t (if substring 0 4 key =? "gsx:"
                     then [if key =? "gsx:" then substring 0 3 key else drop 4 key]
                     else if key =? "id" then ["id"]
                     else if key =? "link" then ["link"; "_links"] else [key]) ->
             lookup t l = lookup t self).
  { intros k v l Hk H Ht. unfold assign in H.
    destruct ((k =? "__proto__") && is_object v); [discriminate|].
    injection H as <-.
    apply lookup_set_prop_other. intros ->. contradiction. }
  destruct (substring 0 4 key =? "gsx:").
  - destruct (if typeof_object val then _ else _) as [val'| |]; cbn [bind];
      try discriminate.
    destruct (key =? "gsx:"); apply Hset; cbn; auto.
  - destruct (String.eqb_spec key "id") as [->|_].
    + apply Hset; cbn; auto.
    + destruct (get_prop val "_") as [u| |]; cbn [bind]; try discriminate.
      destruct (truthy u).
      * destruct (String.eqb_spec key "link") as [->|_]; apply Hset; cbn; auto.
      * destruct (key =? "link").
        -- destruct (link_table (forceArray val) []) as [t0| |]; cbn [bind];
             try discriminate.
           apply Hset; cbn; auto.
        -- intros H _. now injection H as <-.
Qed.

Lemma row_fields_other (t : string) (data self self' : list (string * value)) :
  row_fields self data = Normal self' ->
  (forall k v, In (k, v) data -> ~ In t (row_targets k)) ->
  lookup t self' = lookup t self.
Proof.
  revert self. induction data as [|[k v] data IH]; intros self; cbn.
  - intros H _. now injection H as <-.
  - destruct (row_field self k v) as [s1| |] eqn:E; cbn; try discriminate.
    intros H Hall. rewrite (IH s1 H) by (intros; eapply Hall; eauto).
    eapply row_field_other; eauto.
Qed.




(** ** Saving a row *)

Lemma append_length (a b : string) :
  String.length (a ++ b) = (String.length a + String.length b)%nat.
Proof. induction a; cbn; congruence. Qed.

Lemma prefix_drop (pat s : string) :
  prefix pat s = true -> s = pat ++ drop (String.length pat) s.
Proof.
  revert s. induction pat as [|c pat IH]; intros s; cbn.
  - reflexivity.
  - destruct s as [|d s]; cbn; [discriminate|].
    destruct (ascii_dec c d) as [->|_]; [|discriminate].
    intros H. f_equal. now apply IH.
Qed.

Lemma split_first_sound (pat s a b : string) :
  split_first pat s = Some (a, b) -> s = a ++ pat ++ b.
Proof.
  revert a. induction s as [|c s IH]; intros a; cbn [split_first].
  - destruct (prefix pat "") eqn:E; [|discriminate].
    intros H. injection H as <- <-. now apply prefix_drop.
  - destruct (prefix pat (String c s)) eqn:E.
    + intros H. injection H as <- <-. now apply prefix_drop.
    + destruct (split_first pat s) as [[a' b']|]; [|discriminate].
      intros H. injection H as <- <-. cbn. f_equal. now apply IH.
Qed.

Lemma all_chars_app (p : ascii -> bool) (a b : string) :
  all_chars p (a ++ b) = all_chars p a && all_chars p b.
Proof. induction a as [|c a IH]; cbn; [reflexivity|]. now rewrite IH, andb_assoc. Qed.






















(** The replacement is a pattern: a new value that holds [$1] receives the
    old text of the element in its place.  The property above leaves such
    values aside. *)
Example save_expands_dollar_patterns :
  (self <- SpreadsheetRow sample_platform sample_entry (Str sample_fragment) ;;
   save_args (set_prop "city" (Str "$1 (was)") self))
  = Normal (Str "https://example.org/edit", "PUT",
            Str (ROW_ENTRY_TAG
                 ++ "<id>https://spreadsheets.google.com/feeds/list/key0/1/private/full/cokwr</id><title type='text'>Ann</title><gsx:name>Ann</gsx:name><gsx:city>Oslo (was)</gsx:city><gsx:notes></gsx:notes></entry>")).
Proof. reflexivity. Qed.

(* ================================================================== *)
(** * Further properties of the code *)

(** ** The escaper *)

Lemma entity_markup_free (c : ascii) :
  all_chars (fun x => negb (markup_char x)) (entity c) = true.
Proof.
  unfold entity.
  destruct (Ascii.eqb_spec c "&"); [reflexivity|].
  destruct (Ascii.eqb_spec c "<"); [reflexivity|].
  destruct (Ascii.eqb_spec c ">"); [reflexivity|].
  destruct (Ascii.eqb_spec c dquote); [reflexivity|].
  cbn. unfold markup_char.
  destruct (Ascii.eqb_spec c "<"); [contradiction|].
  destruct (Ascii.eqb_spec c ">"); [contradiction|].
  destruct (Ascii.eqb_spec c dquote); [contradiction|].
  reflexivity.
Qed.

Lemma entity_length (c : ascii) :
  (1 <= String.length (entity c))%nat
  /\ (special_char c = true -> 2 <= String.length (entity c))%nat
  /\ (special_char c = false -> entity c = String c "").
Proof.
  unfold entity, special_char, markup_char.
  destruct (Ascii.eqb c "&"); [cbn; repeat split; try lia; discriminate|].
  destruct (Ascii.eqb c "<"); [cbn; repeat split; try lia; discriminate|].
  destruct (Ascii.eqb c ">"); [cbn; repeat split; try lia; discriminate|].
  destruct (Ascii.eqb c dquote); [cbn; repeat split; try lia; discriminate|].
  cbn. repeat split; try lia; discriminate.
Qed.

Lemma escape_each_length (s : string) :
  (String.length s <= String.length (escape_each s))%nat.
Proof.
  induction s as [|c s IH]; cbn; [lia|].
  rewrite append_length. pose proof (entity_length c) as [H _]. lia.
Qed.

Lemma escape_each_app (a b : string) :
  escape_each (a ++ b) = escape_each a ++ escape_each b.
Proof.
  induction a as [|c a IH]; cbn; [reflexivity|].
  now rewrite IH, append_assoc.
Qed.

(** X1.  The text [xmlSafeValue] makes of a string holds none of the
    characters [<], [>] and the double quote; it is the string itself
    exactly when the string holds none of [&], [<], [>] and the double
    quote; and escaping a concatenation is concatenating the escaped
    parts. *)
Theorem xml_escape_markup_free (s : string) :
  all_chars (fun x => negb (markup_char x)) (xml_escape s) = true
  /\ (xml_escape s = s <-> all_chars (fun x => negb (special_char x)) s = true)
  /\ forall t, xml_escape (s ++ t) = xml_escape s ++ xml_escape t.
Proof.
  rewrite xml_escape_each. split; [|split].
  - induction s as [|c s IH]; cbn; [reflexivity|].
    now rewrite all_chars_app, entity_markup_free, IH.
  - induction s as [|c s IH]; cbn; [tauto|].
    destruct (entity_length c) as (_ & Hsp & Hpl).
    destruct (special_char c) eqn:Hc; cbn.
    + split; [|discriminate]. intros H. exfalso.
      apply (f_equal String.length) in H. rewrite append_length in H.
      cbn in H. pose proof (escape_each_length s). specialize (Hsp eq_refl).
      lia.
    + rewrite (Hpl eq_refl). cbn. rewrite <- IH.
      split; [intros H; now injection H|intros ->; reflexivity].
  - intros t. rewrite !xml_escape_each. apply escape_each_app.
Qed.

(** ** Column names *)

Lemma replace_runs_flag (b : bool) (s : string) :
  replace_runs is_space_or_underscore "" b s
  = replace_runs is_space_or_underscore "" false s.
Proof.
  destruct s as [|c s]; cbn; [reflexivity|].
  destruct (is_space_or_underscore c); [destruct b|]; reflexivity.
Qed.

Lemma replace_runs_app (a b : string) :
  replace_runs is_space_or_underscore "" false (a ++ b)
  = replace_runs is_space_or_underscore "" false a
    ++ replace_runs is_space_or_underscore "" false b.
Proof.
  induction a as [|c a IH]; cbn; [reflexivity|].
  destruct (is_space_or_underscore c); cbn.
  - rewrite !(replace_runs_flag true). exact IH.
  - now rewrite IH.
Qed.

Lemma toLowerCase_app (a b : string) :
  toLowerCase (a ++ b) = toLowerCase a ++ toLowerCase b.
Proof. induction a as [|c a IH]; cbn; [reflexivity|]. now rewrite IH. Qed.

Lemma xmlSafeColumnName_unfold (s : string) :
  xmlSafeColumnName s
  = toLowerCase (replace_runs is_space_or_underscore "" false s).
Proof. unfold xmlSafeColumnName. destruct (String.eqb_spec s "") as [->|_]; reflexivity. Qed.

Lemma lower_char_is_lower (c : ascii) :
  Ascii.eqb (lower_char (lower_char c)) (lower_char c) = true.
Proof. rewrite lower_char_idem. apply Ascii.eqb_refl. Qed.

(** X2.  A name made by [xmlSafeColumnName] holds no white space, no
    underscore and no upper-case letter; a string that already has this
    form is returned as it is; and the name of a concatenation is the
    concatenation of the names. *)
Theorem xmlSafeColumnName_output (s : string) :
  all_chars name_char (xmlSafeColumnName s) = true
  /\ (all_chars name_char s = true -> xmlSafeColumnName s = s)
  /\ forall t, xmlSafeColumnName (s ++ t)
               = xmlSafeColumnName s ++ xmlSafeColumnName t.
Proof.
  split; [|split].
  - rewrite xmlSafeColumnName_unfold.
    pose proof (replace_runs_gives_clean false s) as H.
    induction (replace_runs is_space_or_underscore "" false s) as [|c r IH];
      cbn in *; [reflexivity|].
    apply andb_true_iff in H as [Hc Hr].
    unfold name_char at 1. unfold clean_char in *.
    now rewrite lower_char_keeps_class, Hc, lower_char_is_lower, IH.
  - rewrite xmlSafeColumnName_unfold.
    induction s as [|c s IH]; cbn; [reflexivity|].
    intros H. apply andb_true_iff in H as [Hc Hs].
    unfold name_char, clean_char in Hc. apply andb_true_iff in Hc as [Hcl Hlo].
    apply negb_true_iff in Hcl. rewrite Hcl. cbn.
    apply Ascii.eqb_eq in Hlo. now rewrite Hlo, IH.
  - intros t. rewrite !xmlSafeColumnName_unfold, replace_runs_app.
    apply toLowerCase_app.
Qed.

(** ** The query string *)

Lemma escape_unit_query_chars (c : ascii) :
  all_chars query_char (escape_unit c) = true.
Proof. each_ascii c; reflexivity. Qed.

Lemma escape_unit_unreserved (c : ascii) :
  unreserved c = true -> escape_unit c = String c "".
Proof. unfold escape_unit. now intros ->. Qed.

(** X3.  A key or value escaped for the query string holds only
    unreserved characters and [%], so neither [&] nor [=]; a string of
    unreserved characters is left as it is. *)
Theorem qs_escape_output (s : string) :
  all_chars query_char (qs_escape s) = true
  /\ contains "&" (qs_escape s) = false
  /\ contains "=" (qs_escape s) = false
  /\ (all_chars unreserved s = true -> qs_escape s = s).
Proof.
  assert (Hq : all_chars query_char (qs_escape s) = true).
  { induction s as [|c s IH]; cbn; [reflexivity|].
    now rewrite all_chars_app, escape_unit_query_chars, IH. }
  assert (Hno : forall d t, query_char d = false ->
                  all_chars query_char t = true ->
                  contains (String d "") t = false).
  { intros d t Hd. induction t as [|c t IH]; [reflexivity|].
    intros H. cbn in H. apply andb_true_iff in H as [Hc Ht].
    unfold contains in *. cbn.
    destruct (ascii_dec d c) as [->|_]; [congruence|].
    destruct (split_first (String d "") t); [now specialize (IH Ht)|reflexivity]. }
  split; [exact Hq|].
  split; [now apply Hno|].
  split; [now apply Hno|].
  induction s as [|c s IH]; cbn; [reflexivity|].
  intros H. apply andb_true_iff in H as [Hc Hs].
  cbn in Hq. rewrite all_chars_app in Hq. apply andb_true_iff in Hq as [_ Hq].
  now rewrite (escape_unit_unreserved c Hc), (IH Hq Hs).
Qed.

Lemma xml_escape_markup_free_witness :
  all_chars (fun x => negb (special_char x)) "plain text" = true
  /\ xml_escape "plain text" = "plain text".
Proof.
  split; [reflexivity|].
  exact (proj2 (proj1 (proj2 (xml_escape_markup_free "plain text"))) eq_refl).
Defined.

Lemma xmlSafeColumnName_output_witness :
  all_chars name_char "firstname" = true
  /\ xmlSafeColumnName "firstname" = "firstname".
Proof.
  split; [reflexivity|].
  exact (proj1 (proj2 (xmlSafeColumnName_output "firstname")) eq_refl).
Defined.

Lemma qs_escape_output_witness :
  all_chars unreserved "max-results" = true
  /\ qs_escape "max-results" = "max-results".
Proof.
  split; [reflexivity|].
  exact (proj2 (proj2 (proj2 (qs_escape_output "max-results"))) eq_refl).
Defined.

(** ** Worksheets *)

Lemma contains_slash_cons (c : ascii) (s : string) :
  contains "/" (String c s) = Ascii.eqb c "/" || contains "/" s.
Proof.
  unfold contains. cbn [split_first].
  destruct (Ascii.eqb_spec c "/") as [->|N];
    [change (prefix "/" (String "/" s)) with (prefix "" s);
     now rewrite prefix_nil|].
  rewrite (prefix_cons_neq c "/" "" s N). cbn [orb].
  destruct (split_first "/" s) as [[a b]|]; reflexivity.
Qed.

Lemma after_last_slash_spec (s : string) :
  contains "/" (after_last_slash s) = false
  /\ ((contains "/" s = false /\ after_last_slash s = s)
      \/ exists before, s = before ++ "/" ++ after_last_slash s).
Proof.
  induction s as [|c s (IHno & IH)]; [cbn; auto|].
  cbn [after_last_slash]. rewrite contains_slash_cons.
  destruct (contains "/" s) eqn:Hs.
  - split; [exact IHno|]. right.
    destruct IH as [[H _]|[before H]]; [discriminate|].
    exists (String c before). rewrite H at 1. reflexivity.
  - destruct (Ascii.eqb_spec c "/") as [->|N].
    + split; [exact Hs|]. right. now exists "".
    + split; [rewrite contains_slash_cons, Hs;
              destruct (Ascii.eqb_spec c "/"); [contradiction|reflexivity]|].
      left. now split.
Qed.

Lemma get_prop_Normal (v x : value) (k : string) :
  get_prop v k = Normal x -> x = field v k.
Proof. destruct v; cbn; intros H; try discriminate; now injection H. Qed.

(** X4.  The id of a worksheet is the text after the last slash of the
    entry's id: it holds no slash, and the entry's id is the worksheet id
    itself or ends with a slash followed by it.  An entry whose id is not
    a string makes the constructor fail with a [TypeError]. *)
Theorem worksheet_id_is_last_segment (data : value) :
  (forall ws,
      SpreadsheetWorksheet data = Normal ws ->
      exists s,
        field data "id" = Str s
        /\ contains "/" (ws_id ws) = false
        /\ (s = ws_id ws \/ exists before, s = before ++ "/" ++ ws_id ws))
  /\ ((forall s, field data "id" <> Str s) ->
      SpreadsheetWorksheet data = Throw TypeError).
Proof.
  unfold SpreadsheetWorksheet. split.
  - intros ws H.
    destruct (get_prop data "id") as [id| |] eqn:Hid; cbn [bind] in H;
      try discriminate.
    apply get_prop_Normal in Hid. subst id.
    destruct (field data "id") as [| | | |s| | | |]; try discriminate.
    destruct (get_prop _ "_") as [t| |]; cbn [bind] in H; try discriminate.
    injection H as <-. cbn [ws_id]. exists s. split; [reflexivity|].
    destruct (after_last_slash_spec s) as (Hno & [[_ E]|Hex]).
    + split; [exact Hno|]. left. now rewrite E.
    + split; [exact Hno|]. now right.
  - intros Hno.
    destruct (get_prop data "id") as [id| |] eqn:Hid; cbn [bind].
    + apply get_prop_Normal in Hid. subst id.
      destruct (field data "id") as [| | | |s| | | |]; try reflexivity.
      now destruct (Hno s).
    + destruct data; cbn in Hid; try discriminate; now injection Hid as <-.
    + destruct data; discriminate.
Qed.

Lemma worksheet_id_is_last_segment_witness :
  exists s,
    field (Obj [("id", Str "https://spreadsheets.google.com/feeds/worksheets/key0/private/full/od6");
                ("title", Obj [("_", Str "Sheet1")])]) "id" = Str s
    /\ contains "/" "od6" = false
    /\ (s = "od6" \/ exists before, s = before ++ "/" ++ "od6").
Proof.
  exact (proj1 (worksheet_id_is_last_segment
                  (Obj [("id", Str "https://spreadsheets.google.com/feeds/worksheets/key0/private/full/od6");
                        ("title", Obj [("_", Str "Sheet1")])]))
           {| ws_id := "od6"; ws_title := Str "Sheet1";
              rowCount := Undefined; colCount := Undefined |} eq_refl).
Defined.

(** ** One entry and a list of one entry *)

Lemma field_upsert_other (k k' : string) (v : value) (props : list (string * value)) :
  k <> k' -> field (Obj (upsert k' v props)) k = field (Obj props) k.
Proof. intros N. cbn. now rewrite lookup_upsert_other. Qed.

Lemma field_upsert_same (k : string) (v : value) (props : list (string * value)) :
  field (Obj (upsert k v props)) k = v.
Proof. cbn. now rewrite lookup_upsert_same. Qed.

(** X5.  A feed whose [entry] is one object is read by [getInfo],
    [getRows] and [getCells] as a feed whose [entry] is the array of that
    object; a feed without [entry] gives no worksheet, no row and no
    cell. *)
Theorem single_entry_is_a_list_of_one (P : platform)
    (props entry : list (string * value)) (xml : value) :
  getInfo_k (Obj (upsert "entry" (Obj entry) props)) xml
  = getInfo_k (Obj (upsert "entry" (Arr [Obj entry]) props)) xml
  /\ getRows_k P (Obj (upsert "entry" (Obj entry) props)) xml
     = getRows_k P (Obj (upsert "entry" (Arr [Obj entry]) props)) xml
  /\ getCells_k P (Obj (upsert "entry" (Obj entry) props)) xml
     = getCells_k P (Obj (upsert "entry" (Arr [Obj entry]) props)) xml
  /\ (lookup "entry" props = None ->
      getCells_k P (Obj props) xml = Normal []
      /\ (forall s, getRows_k P (Obj props) (Buf s) = Normal []
                     /\ getRows_k P (Obj props) (Str s) = Normal [])
      /\ forall info, getInfo_k (Obj props) xml = Normal info ->
                      worksheets info = []).
Proof.
  unfold getInfo_k, getRows_k, getCells_k.
  cbn [is_true get_prop bind].
  rewrite !field_upsert_same, !field_upsert_other by discriminate.
  split; [reflexivity|]. split; [reflexivity|]. split; [reflexivity|].
  intros Hno. cbn [field]. rewrite Hno. cbn.
  split; [reflexivity|]. split; [intros s; split; reflexivity|].
  intros info H.
  destruct (get_prop _ "_") as [t| |]; cbn in H; try discriminate.
  now injection H as <-.
Qed.

Lemma single_entry_is_a_list_of_one_witness :
  lookup "entry" [("title", Obj [("_", Str "Budget")])] = None
  /\ getCells_k sample_platform (Obj [("title", Obj [("_", Str "Budget")])])
       (Buf "<feed/>") = Normal []
  /\ getRows_k sample_platform (Obj [("title", Obj [("_", Str "Budget")])])
       (Buf "<feed/>") = Normal [].
Proof.
  destruct (single_entry_is_a_list_of_one sample_platform
              [("title", Obj [("_", Str "Budget")])] [] (Buf "<feed/>"))
    as (_ & _ & _ & H).
  destruct (H eq_refl) as (Hc & Hr & _).
  split; [reflexivity|]. split; [exact Hc|exact (proj1 (Hr "<feed/>"))].
Defined.

(** ** The constructor and the options *)

Lemma field_default_options (opts : value) (k : string) :
  k <> "link" ->
  field (if truthy opts then opts else Obj []) k = field opts k.
Proof.
  intros Hk. destruct opts as [| | [] | z | s | | | |]; cbn; try reflexivity.
  - now destruct (z =? 0)%Z.
  - destruct (s =? ""); cbn; [|reflexivity].
    now destruct (String.eqb_spec k "link").
Qed.

(** X6.  The constructor throws "Spreadsheet key not provided." on a
    falsy key; otherwise the client keeps the key and the credential,
    starts in anonymous mode without a JWT client, and addresses
    [private]/[full] when a credential is given and [public]/[values]
    when none is, unless the matching option is set, in which case the
    initial [public] or [values] stays. *)
Theorem constructor_key_and_defaults (key auth opts : value) :
  (truthy key = false ->
   GooogleSpreadsheet key auth opts
   = Throw (Error "Spreadsheet key not provided."))
  /\ (truthy key = true ->
      exists c,
        GooogleSpreadsheet key auth opts = Normal c
        /\ ss_key c = key /\ google_auth c = auth
        /\ auth_mode c = anonymous /\ jwt_client c = None
        /\ visibility c
           = (if truthy (field opts "visibility") then "public"
              else if truthy auth then "private" else "public")
        /\ projection c
           = (if truthy (field opts "projection") then "values"
              else if truthy auth then "full" else "values")).
Proof.
  unfold GooogleSpreadsheet. split; intros ->; cbn [negb]; [reflexivity|].
  eexists. split; [reflexivity|].
  cbn [ss_key google_auth auth_mode jwt_client visibility projection
       setAuthAndDependencies options].
  rewrite !field_default_options by discriminate.
  destruct (truthy (field opts "visibility")),
           (truthy (field opts "projection")); cbn [negb];
    repeat split; reflexivity.
Qed.

Lemma constructor_key_and_defaults_witness :
  truthy (Str "") = false
  /\ GooogleSpreadsheet (Str "") Null Null
     = Throw (Error "Spreadsheet key not provided.")
  /\ truthy (Str "key0") = true
  /\ exists c,
       GooogleSpreadsheet (Str "key0") (Str "legacy-key")
         (Obj [("visibility", Str "private")]) = Normal c
       /\ visibility c = "public" /\ projection c = "full".
Proof.
  destruct (constructor_key_and_defaults (Str "") Null Null) as [Hno _].
  destruct (constructor_key_and_defaults (Str "key0") (Str "legacy-key")
              (Obj [("visibility", Str "private")])) as [_ Hyes].
  destruct (Hyes eq_refl) as (c & Hc & _ & _ & _ & _ & Hv & Hp).
  split; [reflexivity|]. split; [exact (Hno eq_refl)|].
  split; [reflexivity|]. exists c. auto.
Defined.

Lemma settings_kept_refl (c : client) : settings_kept c c.
Proof. unfold settings_kept. auto. Qed.

Lemma settings_kept_trans (a b c : client) :
  settings_kept a b -> settings_kept b c -> settings_kept a c.
Proof.
  unfold settings_kept. intros (Ho & Hv & Hp) (Ho' & Hv' & Hp').
  rewrite Ho in Hv', Hp'. repeat split.
  - congruence.
  - intros H. rewrite (Hv' H). auto.
  - intros H. rewrite (Hp' H). auto.
Qed.

Lemma setAuthToken_settings (a : value) (c : client) :
  settings_kept c (setAuthToken a c).
Proof.
  unfold settings_kept, setAuthToken, setAuthAndDependencies.
  destruct (auth_mode c); cbn; repeat split; intros ->; reflexivity.
Qed.

Lemma renewJwtAuth_settings (e : env) (c : client) :
  settings_kept c (state (renewJwtAuth e c)).
Proof.
  assert (Hm : settings_kept c (with_auth_mode jwt c))
    by (unfold settings_kept; cbn; auto).
  unfold renewJwtAuth.
  destruct (jwt_client c) as [[em k]|]; [|exact Hm].
  destruct (tok <- authorize e ;; token_of_reply tok) as [cred| |];
    try exact Hm.
  exact (settings_kept_trans _ _ _ Hm (setAuthToken_settings cred _)).
Qed.

Lemma refresh_settings (e : env) (c : client) :
  settings_kept c (state (refresh_if_expired e c)).
Proof.
  unfold refresh_if_expired.
  destruct (auth_mode c); try apply settings_kept_refl.
  destruct (x <- get_prop (google_auth c) "expires" ;; gt_number x (now e))
    as [[]| |]; try apply settings_kept_refl.
  apply renewJwtAuth_settings.
Qed.

Lemma apply_op_settings (P : platform) (op : auth_op) (c : client) :
  settings_kept c (apply_op P op c).
Proof.
  destruct op as [a|e creds|e up m q]; cbn [apply_op].
  - apply setAuthToken_settings.
  - unfold useServiceAccountAuth.
    match goal with
    | |- context [match ?o with Normal j => _ | Throw err => _ | Unmodelled => _ end] =>
        destruct o as [j| |]
    end; try apply settings_kept_refl.
    apply (settings_kept_trans _ (with_jwt_client j c));
      [unfold settings_kept; cbn; auto|apply renewJwtAuth_settings].
  - destruct (makeFeedRequest_state P e up m q c) as [->| ->];
      [apply settings_kept_refl|apply refresh_settings].
Qed.

Lemma run_ops_settings (P : platform) (ops : list auth_op) (c : client) :
  settings_kept c (run_ops P ops c).
Proof.
  revert c. induction ops as [|op ops IH]; intros c; cbn.
  - apply settings_kept_refl.
  - eapply settings_kept_trans; [apply apply_op_settings|apply IH].
Qed.

(** X7.  The value of the [visibility] and [projection] options is never
    read: when an option is set to anything truthy, the client addresses
    [public] (respectively [values]) after construction and after every
    sequence of [setAuthToken], [useServiceAccountAuth] and feed
    requests. *)
Theorem visibility_option_is_never_used (P : platform) (key auth opts : value)
    (c : client) (ops : list auth_op) :
  GooogleSpreadsheet key auth opts = Normal c ->
  (truthy (field opts "visibility") = true ->
   visibility (run_ops P ops c) = "public")
  /\ (truthy (field opts "projection") = true ->
      projection (run_ops P ops c) = "values").
Proof.
  intros Hc.
  destruct (run_ops_settings P ops c) as (_ & Hv & Hp).
  unfold GooogleSpreadsheet in Hc.
  destruct (truthy key); cbn [negb] in Hc; [|discriminate].
  injection Hc as <-. cbn in Hv, Hp |- *.
  rewrite !field_default_options in * by discriminate.
  split; intros H.
  - rewrite (Hv H), H. reflexivity.
  - rewrite (Hp H), H. reflexivity.
Qed.

Lemma visibility_option_is_never_used_witness :
  GooogleSpreadsheet (Str "key0") Null (Obj [("visibility", Str "private")])
  = Normal {| ss_key := Str "key0";
              options := Obj [("visibility", Str "private")];
              google_auth := Null; visibility := "public";
              projection := "values"; auth_mode := anonymous;
              jwt_client := None |}
  /\ visibility
       (run_ops sample_platform [OpSetAuthToken sample_token]
          {| ss_key := Str "key0";
             options := Obj [("visibility", Str "private")];
             google_auth := Null; visibility := "public";
             projection := "values"; auth_mode := anonymous;
             jwt_client := None |})
     = "public".
Proof.
  split; [reflexivity|].
  exact (proj1 (visibility_option_is_never_used sample_platform (Str "key0")
                  Null (Obj [("visibility", Str "private")]) _
                  [OpSetAuthToken sample_token] eq_refl) eq_refl).
Defined.

(** ** Credentials *)

(** X8.  [setAuthToken] overwrites: two calls in a row are the second
    alone, the credential stored is the argument, and without the options
    the visibility and projection follow the truthiness of the new
    credential (so a falsy token puts the client back on
    [public]/[values]). *)
Theorem setAuthToken_last_wins (a b : value) (c : client) :
  setAuthToken a (setAuthToken b c) = setAuthToken a c
  /\ google_auth (setAuthToken a c) = a
  /\ (truthy (field (options c) "visibility") = false ->
      visibility (setAuthToken a c)
      = (if truthy a then "private" else "public"))
  /\ (truthy (field (options c) "projection") = false ->
      projection (setAuthToken a c) = (if truthy a then "full" else "values")).
Proof.
  unfold setAuthToken, setAuthAndDependencies.
  destruct (auth_mode c) eqn:Hm; cbn; rewrite ?Hm; cbn;
    (split; [|split; [reflexivity|split; intros ->; reflexivity]]);
    destruct (truthy (field (options c) "visibility")),
             (truthy (field (options c) "projection")); reflexivity.
Qed.

Lemma setAuthToken_last_wins_witness :
  truthy (field (options anonymous_client) "visibility") = false
  /\ visibility (setAuthToken sample_token anonymous_client) = "private"
  /\ visibility (setAuthToken Null (setAuthToken sample_token anonymous_client))
     = "public".
Proof.
  destruct (setAuthToken_last_wins sample_token Null anonymous_client)
    as (_ & _ & Hv & _).
  destruct (setAuthToken_last_wins Null sample_token anonymous_client)
    as (Hlast & _ & Hv' & _).
  split; [reflexivity|]. split; [exact (Hv eq_refl)|].
  rewrite Hlast. exact (Hv' eq_refl).
Defined.

(** X9.  Outside service-account mode and with a falsy credential, a
    request carries no [Authorization] header (its headers are the content
    type of a write, nothing else), no authorization is attempted and the
    client is unchanged. *)
Theorem no_credential_no_authorization_header (P : platform) (e : env)
    (up : value) (m : string) (q : value) (c : client) (r : http_req) :
  auth_mode c <> jwt ->
  truthy (google_auth c) = false ->
  In (Request r) (trace (makeFeedRequest P e up m q c)) ->
  headers r = content_headers m
  /\ refreshes (trace (makeFeedRequest P e up m q c)) = 0%nat
  /\ state (makeFeedRequest P e up m q c) = c.
Proof.
  intros Hm Hf Hin.
  apply makeFeedRequest_sent in Hin as (u & _ & Hreq & Htr & Hst).
  assert (Hkeep : refresh_if_expired e c = (Normal tt, c, [])).
  { apply refresh_not_needed. intros E. contradiction. }
  rewrite Hkeep in *. cbn [state trace fst snd] in *.
  rewrite Htr, Hst. split; [|split; reflexivity].
  unfold build_request, auth_headers in Hreq. rewrite Hf in Hreq.
  cbn [bind] in Hreq.
  destruct (with_query u m q); cbn [bind] in Hreq; try discriminate.
  now injection Hreq as <-.
Qed.

Lemma no_credential_no_authorization_header_witness :
  auth_mode (setAuthToken Null (setAuthToken sample_token anonymous_client))
  <> jwt
  /\ In (Request sample_worksheets_request)
        (trace (makeFeedRequest sample_platform
                  (answering 0 Unmodelled (atom_response ""))
                  worksheets_path "GET" Null
                  (setAuthToken Null
                     (setAuthToken sample_token anonymous_client))))
  /\ headers sample_worksheets_request = content_headers "GET".
Proof.
  assert (H1 : auth_mode (setAuthToken Null
                            (setAuthToken sample_token anonymous_client))
               <> jwt) by discriminate.
  assert (H2 : In (Request sample_worksheets_request)
                 (trace (makeFeedRequest sample_platform
                           (answering 0 Unmodelled (atom_response ""))
                           worksheets_path "GET" Null
                           (setAuthToken Null
                              (setAuthToken sample_token anonymous_client)))))
    by (vm_compute; left; reflexivity).
  split; [exact H1|]. split; [exact H2|].
  exact (proj1 (no_credential_no_authorization_header sample_platform _ _ _ _
                  _ _ H1 eq_refl H2)).
Defined.

(** X10.  When the authorization of [useServiceAccountAuth] fails, the
    failure is the result of the call, but the client is left in
    service-account mode without a token: every later feed request fails
    with a [TypeError] on reading the expiry of the missing token, and
    sends nothing. *)
Theorem failed_authorization_blocks_requests (P : platform) (e e' : env)
    (cprops : list (string * value)) (err : js_error) (c : client) :
  authorize e = Throw err ->
  google_auth c = Null ->
  out (useServiceAccountAuth P e (Obj cprops) c) = Throw err
  /\ auth_mode (state (useServiceAccountAuth P e (Obj cprops) c)) = jwt
  /\ google_auth (state (useServiceAccountAuth P e (Obj cprops) c)) = Null
  /\ forall up m q u,
       feed_url up (state (useServiceAccountAuth P e (Obj cprops) c))
       = Normal u ->
       makeFeedRequest P e' up m q
         (state (useServiceAccountAuth P e (Obj cprops) c))
       = (Throw TypeError, state (useServiceAccountAuth P e (Obj cprops) c), []).
Proof.
  intros Hauth Hnull.
  assert (Hrun : useServiceAccountAuth P e (Obj cprops) c
                 = (Throw err,
                    with_auth_mode jwt
                      (with_jwt_client (field (Obj cprops) "client_email",
                                        field (Obj cprops) "private_key") c),
                    [Authorize (field (Obj cprops) "client_email")
                       (field (Obj cprops) "private_key")])).
  { unfold useServiceAccountAuth, renewJwtAuth.
    cbn [get_prop bind with_jwt_client jwt_client]. now rewrite Hauth. }
  rewrite Hrun. cbn [out state fst snd].
  split; [reflexivity|]. split; [reflexivity|]. split; [exact Hnull|].
  intros up m q u Hu.
  unfold makeFeedRequest, bindM, lift. rewrite Hu.
  cbn [out state trace fst snd app].
  unfold refresh_if_expired.
  cbn [auth_mode with_auth_mode with_jwt_client google_auth]. rewrite Hnull.
  reflexivity.
Qed.

Lemma failed_authorization_blocks_requests_witness :
  authorize (answering 0 (Throw (Failure "invalid_grant")) (atom_response ""))
  = Throw (Failure "invalid_grant")
  /\ google_auth anonymous_client = Null
  /\ makeFeedRequest sample_platform
       (answering 10 (Normal sample_reply) (atom_response ""))
       worksheets_path "GET" Null
       (state (useServiceAccountAuth sample_platform
                 (answering 0 (Throw (Failure "invalid_grant"))
                    (atom_response ""))
                 sample_creds anonymous_client))
     = (Throw TypeError,
        state (useServiceAccountAuth sample_platform
                 (answering 0 (Throw (Failure "invalid_grant"))
                    (atom_response ""))
                 sample_creds anonymous_client),
        []).
Proof.
  split; [reflexivity|]. split; [reflexivity|].
  destruct (failed_authorization_blocks_requests sample_platform
              (answering 0 (Throw (Failure "invalid_grant")) (atom_response ""))
              (answering 10 (Normal sample_reply) (atom_response ""))
              [("client_email", Str "robot@example.com"); ("private_key", Str "pem")]
              (Failure "invalid_grant") anonymous_client eq_refl eq_refl)
    as (_ & _ & _ & H).
  exact (H worksheets_path "GET" Null
           (Str "https://spreadsheets.google.com/feeds/worksheets/key0/public/values")
           eq_refl).
Defined.

(** ** The shape of a request *)

Lemma auth_headers_keys (a : value) (h : list (string * string)) :
  auth_headers a = Normal h ->
  forall k v, In (k, v) h -> k = "Authorization".
Proof.
  unfold auth_headers. destruct (truthy a).
  - destruct (is_str "Bearer" (field a "type")).
    + destruct (to_string (field a "value")); cbn; [|discriminate].
      intros H k v Hin. injection H as <-. destruct Hin as [E|[]]. congruence.
    + destruct (to_string a); cbn; [|discriminate].
      intros H k v Hin. injection H as <-. destruct Hin as [E|[]]. congruence.
  - intros H k v Hin. injection H as <-. destruct Hin.
Qed.

(** X11.  Every request [makeFeedRequest] sends uses the method asked
    for; it has a body, the data, exactly for [POST] and [PUT]; it carries
    the content type [application/atom+xml] exactly for these two; and a
    URL given as a string is used as it is unless the method is [GET] with
    a truthy query. *)
Theorem request_shape (P : platform) (e : env) (up : value) (m : string)
    (q : value) (c : client) (r : http_req) :
  In (Request r) (trace (makeFeedRequest P e up m q c)) ->
  method r = m
  /\ body r = (if is_write m then Some q else None)
  /\ (forall v, In ("content-type", v) (headers r) <->
                is_write m = true /\ v = "application/atom+xml")
  /\ (forall s, up = Str s -> (m =? "GET") && truthy q = false ->
                url r = Str s).
Proof.
  intros Hin.
  apply makeFeedRequest_sent in Hin as (u & Hu & Hreq & _).
  unfold build_request in Hreq.
  destruct (auth_headers _) as [h| |] eqn:Hh; cbn [bind] in Hreq;
    try discriminate.
  destruct (with_query u m q) as [u'| |] eqn:Hq; cbn [bind] in Hreq;
    try discriminate.
  injection Hreq as <-. cbn [method body headers url].
  split; [reflexivity|]. split; [reflexivity|]. split.
  - intros v. unfold content_headers. split.
    + intros H. apply in_app_or in H as [H|H].
      * apply (auth_headers_keys _ _ Hh) in H. discriminate.
      * destruct (is_write m); [|destruct H].
        destruct H as [E|[]]. injection E as <-. auto.
    + intros [-> ->]. apply in_or_app. right. now left.
  - intros s -> Hget. cbn in Hu. injection Hu as <-.
    unfold with_query in Hq. rewrite Hget in Hq. now injection Hq as <-.
Qed.

Lemma request_shape_witness :
  In (Request sample_bearer_request)
     (trace (makeFeedRequest sample_platform
               (answering 2000 Unmodelled (atom_response ""))
               worksheets_path "GET" Null
               (setAuthToken sample_token anonymous_client)))
  /\ method sample_bearer_request = "GET"
  /\ body sample_bearer_request = None.
Proof.
  assert (H : In (Request sample_bearer_request)
                (trace (makeFeedRequest sample_platform
                          (answering 2000 Unmodelled (atom_response ""))
                          worksheets_path "GET" Null
                          (setAuthToken sample_token anonymous_client))))
    by (vm_compute; left; reflexivity).
  destruct (request_shape _ _ _ _ _ _ _ H) as (Hm & Hb & _).
  split; [exact H|]. split; [exact Hm|exact Hb].
Defined.

(** ** How much one call does outside *)

Lemma refresh_trace_counts (e : env) (c : client) :
  (refreshes (trace (refresh_if_expired e c)) <= 1)%nat
  /\ requests (trace (refresh_if_expired e c)) = 0%nat
  /\ (auth_mode c <> jwt -> refreshes (trace (refresh_if_expired e c)) = 0%nat).
Proof.
  unfold refresh_if_expired, renewJwtAuth.
  destruct (auth_mode c); cbn; try (repeat split; lia).
  destruct (x <- get_prop (google_auth c) "expires" ;; gt_number x (now e))
    as [[]| |]; cbn; try (repeat split; try lia; congruence).
  destruct (jwt_client c) as [[em k]|]; cbn;
    [|repeat split; try lia; congruence].
  destruct (tok <- authorize e ;; token_of_reply tok); cbn;
    repeat split; try lia; congruence.
Qed.

Lemma counts_app (t1 t2 : list event) :
  refreshes (t1 ++ t2) = (refreshes t1 + refreshes t2)%nat
  /\ requests (t1 ++ t2) = (requests t1 + requests t2)%nat.
Proof.
  unfold refreshes, requests. rewrite !filter_app, !length_app. auto.
Qed.

Lemma makeFeedRequest_trace (P : platform) (e : env) (up : value) (m : string)
    (q : value) (c : client) :
  trace (makeFeedRequest P e up m q c) = []
  \/ trace (makeFeedRequest P e up m q c) = trace (refresh_if_expired e c)
  \/ exists r, trace (makeFeedRequest P e up m q c)
               = (trace (refresh_if_expired e c) ++ [Request r])%list.
Proof.
  destruct (feed_url up c) as [u| |] eqn:Hu.
  - destruct (makeFeedRequest_after_refresh P e up u m q c Hu) as (_ & -> & _).
    destruct (out (refresh_if_expired e c)) as [[]| |];
      try (right; left; apply app_nil_r).
    destruct (build_request u m q _) as [r| |];
      try (right; left; apply app_nil_r).
    right. right. now exists r.
  - left. unfold makeFeedRequest, bindM, lift. now rewrite Hu.
  - left. unfold makeFeedRequest, bindM, lift. now rewrite Hu.
Qed.

(** X12.  One call of [makeFeedRequest] sends at most one request and
    asks for at most one token; outside service-account mode it asks for
    none and leaves the client as it was. *)
Theorem one_call_one_request (P : platform) (e : env) (up : value)
    (m : string) (q : value) (c : client) :
  (requests (trace (makeFeedRequest P e up m q c)) <= 1)%nat
  /\ (refreshes (trace (makeFeedRequest P e up m q c)) <= 1)%nat
  /\ (auth_mode c <> jwt ->
      refreshes (trace (makeFeedRequest P e up m q c)) = 0%nat
      /\ state (makeFeedRequest P e up m q c) = c).
Proof.
  destruct (refresh_trace_counts e c) as (Hr & Hq & Hn).
  assert (Hst : auth_mode c <> jwt -> state (makeFeedRequest P e up m q c) = c).
  { intros Hm. destruct (makeFeedRequest_state P e up m q c) as [->| ->];
      [reflexivity|].
    rewrite refresh_not_needed; [reflexivity|]. intros E. contradiction. }
  destruct (makeFeedRequest_trace P e up m q c) as [->|[->|[r ->]]].
  - cbn. split; [lia|]. split; [lia|]. intros Hm. split; [reflexivity|auto].
  - rewrite Hq. split; [lia|]. split; [exact Hr|].
    intros Hm. split; [exact (Hn Hm)|auto].
  - destruct (counts_app (trace (refresh_if_expired e c)) [Request r])
      as [-> ->].
    rewrite Hq. cbn. split; [lia|]. split; [lia|].
    intros Hm. split; [rewrite (Hn Hm); reflexivity|auto].
Qed.

Lemma one_call_one_request_witness :
  auth_mode anonymous_client <> jwt
  /\ refreshes (trace (makeFeedRequest sample_platform
                         (answering 0 (Normal sample_reply) (atom_response ""))
                         worksheets_path "GET" Null anonymous_client)) = 0%nat
  /\ state (makeFeedRequest sample_platform
              (answering 0 (Normal sample_reply) (atom_response ""))
              worksheets_path "GET" Null anonymous_client)
     = anonymous_client.
Proof.
  assert (H : auth_mode anonymous_client <> jwt) by discriminate.
  split; [exact H|].
  exact (proj2 (proj2 (one_call_one_request sample_platform
                         (answering 0 (Normal sample_reply) (atom_response ""))
                         worksheets_path "GET" Null anonymous_client)) H).
Defined.

(** ** What a call resolves to *)

Lemma classify_Normal (P : platform) (res : http_res) (b : string) :
  classify P res = Normal b ->
  b = res_body res /\ (status res < 400)%Z.
Proof.
  unfold classify.
  destruct (status res =? 401)%Z; [discriminate|].
  destruct (Z.leb_spec 400 (status res)) as [|Hlt]; [discriminate|].
  destruct (status res =? 200)%Z.
  - destruct (content_type res) as [ct|]; [|discriminate].
    destruct (contains "text/html" ct); [discriminate|].
    intros E. injection E as <-. auto.
  - intros E. injection E as <-. auto.
Qed.

Lemma makeFeedRequest_Normal_sent (P : platform) (e : env) (up : value)
    (m : string) (q : value) (c : client) (a : value * value) :
  out (makeFeedRequest P e up m q c) = Normal a ->
  exists r, In (Request r) (trace (makeFeedRequest P e up m q c)).
Proof.
  unfold makeFeedRequest, bindM, lift, emit.
  destruct (feed_url up c) as [u| |]; cbn; try discriminate.
  destruct (refresh_if_expired e c) as [[[[]| |] c1] t1]; cbn;
    try discriminate.
  destruct (build_request u m q c1) as [req| |]; cbn; try discriminate.
  intros _. exists req.
  destruct (respond e req) as [res| |]; cbn;
    [destruct (classify P res) as [xml| |]; cbn|..];
    apply in_or_app; right; now left.
Qed.

(** X13.  When [makeFeedRequest] resolves, a request was sent whose
    response has a status below 400, and the call resolves to what the
    parser makes of the body and to the buffer of the body.  This holds
    for an empty body too: the parser is called on it, and the pair
    [null, null] is never what the call resolves to. *)
Theorem resolved_value_is_the_body (P : platform) (e : env) (up : value)
    (m : string) (q : value) (c : client) (json xml : value) :
  out (makeFeedRequest P e up m q c) = Normal (json, xml) ->
  exists r res,
    In (Request r) (trace (makeFeedRequest P e up m q c))
    /\ respond e r = Normal res
    /\ (status res < 400)%Z
    /\ parseString P (res_body res) = Normal json
    /\ xml = Buf (res_body res).
Proof.
  intros Hout.
  destruct (makeFeedRequest_Normal_sent _ _ _ _ _ _ _ Hout) as [r Hin].
  rewrite (makeFeedRequest_out _ _ _ _ _ _ _ Hin) in Hout.
  destruct (respond e r) as [res| |] eqn:Hres; cbn [bind] in Hout;
    try discriminate.
  destruct (classify P res) as [b| |] eqn:Hcl; cbn [bind] in Hout;
    try discriminate.
  apply classify_Normal in Hcl as [-> Hst].
  exists r, res. split; [exact Hin|]. split; [exact Hres|].
  split; [exact Hst|].
  rewrite parse_body_parses in Hout.
  destruct (parseString P (res_body res)) as [j| |];
    cbn [bind] in Hout; try discriminate.
  split; congruence.
Qed.

(** An instance: a response with an empty body. *)
Lemma resolved_value_is_the_body_witness :
  out (makeFeedRequest sample_platform
         (answering 0 Unmodelled (atom_response ""))
         worksheets_path "GET" Null anonymous_client)
  = Normal (Null, Buf "")
  /\ exists r res,
       In (Request r)
          (trace (makeFeedRequest sample_platform
                    (answering 0 Unmodelled (atom_response ""))
                    worksheets_path "GET" Null anonymous_client))
       /\ respond (answering 0 Unmodelled (atom_response "")) r = Normal res
       /\ (status res < 400)%Z
       /\ parseString sample_platform (res_body res) = Normal Null
       /\ Buf "" = Buf (res_body res).
Proof.
  split; [reflexivity|].
  exact (resolved_value_is_the_body sample_platform
           (answering 0 Unmodelled (atom_response ""))
           worksheets_path "GET" Null anonymous_client Null (Buf "")
           eq_refl).
Defined.

(** ** Queries and addresses *)

Lemma bindM_lift (A B : Type) (o : outcome A) (k : A -> M B) (c : client) :
  bindM (lift o) k c
  = match o with
    | Normal a => k a c
    | Throw err => (Throw err, c, [])
    | Unmodelled => (Unmodelled, c, [])
    end.
Proof.
  unfold bindM, lift. destruct o as [a| |]; try reflexivity.
  unfold out, state, trace. now destruct (k a c) as [[o' c'] t'].
Qed.

Lemma all_some_map_forward {A B : Type} (f : A -> option B) (l : list A)
    (ys : list B) (x : A) :
  all_some (map f l) = Some ys -> In x l ->
  exists y, f x = Some y /\ In y ys.
Proof.
  revert ys. induction l as [|a l IH]; cbn; intros ys H Hx; [destruct Hx|].
  destruct (f a) as [b|] eqn:Fa; [|discriminate].
  destruct (all_some (map f l)) as [bs|]; [|discriminate].
  injection H as <-. destruct Hx as [->|Hx].
  - exists b. split; [exact Fa|now left].
  - destruct (IH bs eq_refl Hx) as (y & Hy & Hin). exists y. split; [exact Hy|now right].
Qed.

Lemma qs_components_forward (props : list (string * value))
    (comps : list string) (k : string) (v : value) :
  qs_components props = Some comps ->
  In (k, v) props ->
  (forall items, v <> Arr items) ->
  exists s, stringifyPrimitive v = Some s
            /\ In (qs_escape k ++ "=" ++ qs_escape s) comps.
Proof.
  unfold qs_components. intros H Hin Hv.
  destruct (all_some (map qs_fields props)) as [css|] eqn:E; [|discriminate].
  injection H as <-.
  destruct (all_some_map_forward _ _ _ _ E Hin) as (cs & Hcs & Hcss).
  unfold qs_fields in Hcs. cbn [fst snd] in Hcs.
  assert (Hone : option_map (fun c => [c])
                   (option_map (fun s => (qs_escape k ++ "=") ++ qs_escape s)
                      (stringifyPrimitive v)) = Some cs).
  { destruct v; try exact Hcs. now destruct (Hv items). }
  destruct (stringifyPrimitive v) as [s|]; [|discriminate].
  cbn in Hone. injection Hone as <-.
  exists s. split; [reflexivity|].
  apply in_concat. eexists. split; [exact Hcss|].
  left. apply append_assoc.
Qed.

Lemma GET_request_url (P : platform) (e : env) (path : list value)
    (props : list (string * value)) (c : client) (r : http_req) :
  In (Request r)
     (trace (makeFeedRequest P e (Arr path) "GET" (Obj props) c)) ->
  exists base comps,
    feed_url (Arr path) c = Normal (Str base)
    /\ qs_components props = Some comps
    /\ url r = Str (base ++ "?" ++ join "&" comps).
Proof.
  intros Hin.
  apply makeFeedRequest_sent in Hin as (u & Hu & Hreq & _).
  pose proof Hu as Hurl. unfold feed_url in Hu.
  destruct (of_option _) as [p| |] in Hu; try discriminate.
  cbn in Hu. injection Hu as <-.
  unfold build_request in Hreq.
  destruct (auth_headers _) as [h| |]; try discriminate.
  cbn in Hreq.
  destruct (insertion_ordered props); try discriminate.
  destruct (qs_components props) as [comps|]; try discriminate.
  cbn in Hreq. injection Hreq as <-.
  exists (GOOGLE_FEED_URL ++ p), comps. auto.
Qed.

Lemma getCells_trace (P : platform) (e : env) (ws : value)
    (props : list (string * value)) (c : client) :
  trace (getCells P e ws (Obj props) c)
  = trace (makeFeedRequest P e (Arr [Str "cells"; ss_key c; ws]) "GET"
             (Obj props) c).
Proof.
  unfold getCells. rewrite bindM_read. cbn [cells_query].
  rewrite bindM_lift. apply trace_bindM_lift.
Qed.

(** X14.  [getCells] passes its options on unfiltered: every property
    of the options object, falsy values included, is a parameter of the
    query string of the request, which goes to the cells feed of the
    worksheet. *)
Theorem getCells_sends_every_option (P : platform) (e : env) (ws : value)
    (props : list (string * value)) (c : client) (r : http_req) :
  In (Request r) (trace (getCells P e ws (Obj props) c)) ->
  exists base comps,
    feed_url (Arr [Str "cells"; ss_key c; ws]) c = Normal (Str base)
    /\ qs_components props = Some comps
    /\ url r = Str (base ++ "?" ++ join "&" comps)
    /\ forall k v,
         In (k, v) props -> (forall items, v <> Arr items) ->
         exists s, stringifyPrimitive v = Some s
                   /\ In (qs_escape k ++ "=" ++ qs_escape s) comps.
Proof.
  intros Hin. rewrite getCells_trace in Hin.
  apply GET_request_url in Hin as (base & comps & Hb & Hc & Hu).
  exists base, comps. repeat split; auto.
  intros k v Hk Hv. eapply qs_components_forward; eauto.
Qed.

Lemma getCells_sends_every_option_witness :
  In (Request sample_cells_request)
     (trace (getCells sample_platform (answering 0 Unmodelled (atom_response ""))
               (Num 1)
               (Obj [("min-row", Num 0); ("return-empty", Bool false)])
               anonymous_client))
  /\ exists base comps,
       feed_url (Arr [Str "cells"; ss_key anonymous_client; Num 1])
         anonymous_client = Normal (Str base)
       /\ qs_components [("min-row", Num 0); ("return-empty", Bool false)]
          = Some comps
       /\ url sample_cells_request = Str (base ++ "?" ++ join "&" comps)
       /\ forall k v,
            In (k, v) [("min-row", Num 0); ("return-empty", Bool false)] ->
            (forall items, v <> Arr items) ->
            exists s, stringifyPrimitive v = Some s
                      /\ In (qs_escape k ++ "=" ++ qs_escape s) comps.
Proof.
  assert (H : In (Request sample_cells_request)
                (trace (getCells sample_platform
                          (answering 0 Unmodelled (atom_response ""))
                          (Num 1)
                          (Obj [("min-row", Num 0); ("return-empty", Bool false)])
                          anonymous_client)))
    by (vm_compute; left; reflexivity).
  split; [exact H|].
  exact (getCells_sends_every_option _ _ _ _ _ _ H).
Defined.

Lemma rows_query_no_options (opts : value) :
  truthy opts = false -> rows_query opts = [].
Proof. unfold rows_query. now intros ->. Qed.

Lemma getInfo_trace (P : platform) (e : env) (c : client) :
  trace (getInfo P e c)
  = trace (makeFeedRequest P e (Arr [Str "worksheets"; ss_key c]) "GET" Null c).
Proof. unfold getInfo. rewrite bindM_read. apply trace_bindM_lift. Qed.

(** X15.  [getRows] called without options still sends a query object,
    an empty one, so the URL of its request ends with a bare [?];
    [getInfo] passes [null] and its URL is the worksheets feed with no
    query part. *)
Theorem empty_query_leaves_a_question_mark (P : platform) (e : env)
    (ws opts : value) (c : client) (r : http_req) :
  (truthy opts = false ->
   In (Request r) (trace (getRows P e ws opts c)) ->
   exists base,
     feed_url (Arr [Str "list"; ss_key c; ws]) c = Normal (Str base)
     /\ url r = Str (base ++ "?"))
  /\ (In (Request r) (trace (getInfo P e c)) ->
      feed_url (Arr [Str "worksheets"; ss_key c]) c = Normal (url r)).
Proof.
  split.
  - intros Hopts Hin. rewrite getRows_trace, (rows_query_no_options _ Hopts) in Hin.
    apply GET_request_url in Hin as (base & comps & Hb & Hc & Hu).
    cbn in Hc. injection Hc as <-. exists base. split; [exact Hb|exact Hu].
  - intros Hin. rewrite getInfo_trace in Hin.
    apply makeFeedRequest_sent in Hin as (u & Hu & Hreq & _).
    rewrite Hu. unfold build_request in Hreq.
    destruct (auth_headers _) as [h| |]; try discriminate.
    cbn in Hreq. now injection Hreq as <-.
Qed.

Lemma empty_query_leaves_a_question_mark_witness :
  truthy Undefined = false
  /\ In (Request sample_bare_rows_request)
        (trace (getRows sample_platform
                  (answering 0 Unmodelled (atom_response ""))
                  (Num 1) Undefined anonymous_client))
  /\ (exists base,
        feed_url (Arr [Str "list"; ss_key anonymous_client; Num 1])
          anonymous_client = Normal (Str base)
        /\ url sample_bare_rows_request = Str (base ++ "?"))
  /\ In (Request sample_worksheets_request)
        (trace (getInfo sample_platform
                  (answering 0 Unmodelled (atom_response "")) anonymous_client))
  /\ feed_url (Arr [Str "worksheets"; ss_key anonymous_client]) anonymous_client
     = Normal (url sample_worksheets_request).
Proof.
  assert (H1 : In (Request sample_bare_rows_request)
                 (trace (getRows sample_platform
                           (answering 0 Unmodelled (atom_response ""))
                           (Num 1) Undefined anonymous_client)))
    by (vm_compute; left; reflexivity).
  assert (H2 : In (Request sample_worksheets_request)
                 (trace (getInfo sample_platform
                           (answering 0 Unmodelled (atom_response ""))
                           anonymous_client)))
    by (vm_compute; left; reflexivity).
  split; [reflexivity|]. split; [exact H1|].
  split; [exact (proj1 (empty_query_leaves_a_question_mark sample_platform _
                          (Num 1) Undefined _ _) eq_refl H1)|].
  split; [exact H2|].
  exact (proj2 (empty_query_leaves_a_question_mark sample_platform _ (Num 1)
                  Undefined _ _) H2).
Defined.

Lemma list_feed_url (k w : string) (c : client) :
  feed_url (Arr [Str "list"; Str k; Str w]) c
  = Normal (Str (GOOGLE_FEED_URL ++ "list/" ++ k ++ "/" ++ w ++ "/"
                 ++ visibility c ++ "/" ++ projection c)).
Proof. reflexivity. Qed.

Lemma plain_request_url (P : platform) (e : env) (up : value) (m : string)
    (q : value) (c : client) (r : http_req) :
  (m =? "GET") = false ->
  In (Request r) (trace (makeFeedRequest P e up m q c)) ->
  feed_url up c = Normal (url r).
Proof.
  intros Hm Hin.
  apply makeFeedRequest_sent in Hin as (u & Hu & Hreq & _).
  rewrite Hu. unfold build_request, with_query in Hreq. rewrite Hm in Hreq.
  destruct (auth_headers _) as [h| |]; try discriminate.
  cbn in Hreq. now injection Hreq as <-.
Qed.

Lemma addRow_trace (P : platform) (e : env) (ws data : value) (c : client)
    (r : http_req) :
  In (Request r) (trace (addRow P e ws data c)) ->
  exists d,
    add_row_xml data = Normal d
    /\ In (Request r)
          (trace (makeFeedRequest P e (Arr [Str "list"; ss_key c; ws]) "POST"
                    (Str d) c)).
Proof.
  unfold addRow. rewrite bindM_lift.
  destruct (add_row_xml data) as [d| |]; try (intros []).
  rewrite bindM_read. intros Hin. now exists d.
Qed.

(** X16.  The [getRows] and [addRow] methods of a worksheet send their
    request to the list feed of that worksheet:
    [feeds/list/<key>/<worksheet id>/<visibility>/<projection>], followed
    by the query string for [getRows] and by nothing for [addRow]. *)
Theorem worksheet_methods_address_its_list_feed (P : platform) (e : env)
    (ws : worksheet) (v : value) (c : client) (k : string) (r : http_req) :
  ss_key c = Str k ->
  (In (Request r) (trace (ws_getRows P e ws v c)) ->
   exists comps,
     qs_components (rows_query v) = Some comps
     /\ url r = Str (GOOGLE_FEED_URL ++ "list/" ++ k ++ "/" ++ ws_id ws ++ "/"
                     ++ visibility c ++ "/" ++ projection c ++ "?"
                     ++ join "&" comps))
  /\ (In (Request r) (trace (ws_addRow P e ws v c)) ->
      url r = Str (GOOGLE_FEED_URL ++ "list/" ++ k ++ "/" ++ ws_id ws ++ "/"
                   ++ visibility c ++ "/" ++ projection c)).
Proof.
  intros Hk. split; intros Hin.
  - unfold ws_getRows in Hin. rewrite getRows_trace, Hk in Hin.
    apply GET_request_url in Hin as (base & comps & Hb & Hc & Hu).
    exists comps. split; [exact Hc|]. rewrite Hu. f_equal.
    rewrite list_feed_url in Hb.
    assert (E : GOOGLE_FEED_URL ++ "list/" ++ k ++ "/" ++ ws_id ws ++ "/"
                ++ visibility c ++ "/" ++ projection c = base) by congruence.
    rewrite <- E, !append_assoc. reflexivity.
  - unfold ws_addRow in Hin. apply addRow_trace in Hin as (d & _ & Hin).
    apply plain_request_url in Hin; [|reflexivity].
    rewrite Hk, list_feed_url in Hin. congruence.
Qed.

Lemma worksheet_methods_address_its_list_feed_witness :
  ss_key anonymous_client = Str "key0"
  /\ In (Request sample_add_request)
        (trace (ws_addRow sample_platform
                  (answering 0 Unmodelled (atom_response ""))
                  sample_worksheet (Obj [("Name", Str "a&b")])
                  anonymous_client))
  /\ url sample_add_request
     = Str (GOOGLE_FEED_URL ++ "list/" ++ "key0" ++ "/"
            ++ ws_id sample_worksheet ++ "/" ++ visibility anonymous_client
            ++ "/" ++ projection anonymous_client).
Proof.
  assert (H : In (Request sample_add_request)
                (trace (ws_addRow sample_platform
                          (answering 0 Unmodelled (atom_response ""))
                          sample_worksheet (Obj [("Name", Str "a&b")])
                          anonymous_client)))
    by (vm_compute; left; reflexivity).
  split; [reflexivity|]. split; [exact H|].
  exact (proj2 (worksheet_methods_address_its_list_feed sample_platform
                  (answering 0 Unmodelled (atom_response ""))
                  sample_worksheet (Obj [("Name", Str "a&b")])
                  anonymous_client "key0" sample_add_request eq_refl) H).
Defined.

(** ** Links, rows and cells *)

Lemma lookup_app (k : string) (a b : list (string * value)) :
  lookup k (a ++ b)
  = match lookup k a with Some v => Some v | None => lookup k b end.
Proof.
  induction a as [|[k0 v0] a IH]; cbn; [reflexivity|].
  now destruct (k =? k0).
Qed.

Lemma link_table_lookup (links acc : list (string * value)) :
  (forall rel href, In (rel, href) links ->
                    rel <> "length" /\ rel <> "__proto__") ->
  exists t,
    link_table (map (fun p => link_obj (fst p) (snd p)) links) acc = Normal t
    /\ forall rel,
         lookup rel t = match lookup rel (rev links) with
                        | Some h => Some h
                        | None => lookup rel acc
                        end.
Proof.
  revert acc. induction links as [|[rel href] links IH]; intros acc Hok.
  - exists acc. split; reflexivity.
  - destruct (Hok rel href (or_introl eq_refl)) as [Hl Hp].
    destruct (IH (set_prop rel href acc)) as (t & Ht & Hlook).
    { intros r h Hin. apply (Hok r h). now right. }
    exists t. split.
    + cbn [map link_table fst snd]. unfold link_obj at 1. cbn.
      destruct (String.eqb_spec rel "length"); [contradiction|].
      destruct (String.eqb_spec rel "__proto__"); [contradiction|].
      exact Ht.
    + intros q. rewrite Hlook. cbn [rev]. rewrite lookup_app.
      destruct (lookup q (rev links)); [reflexivity|]. cbn.
      destruct (String.eqb_spec q rel) as [->|N].
      * now apply lookup_set_prop_same.
      * now apply lookup_set_prop_other.
Qed.

(** X17.  The loop over the links of an entry stores each [href] under
    its [rel]: afterwards a [rel] is bound to the [href] of the last link
    that has it, and a name no link has keeps what it was bound to. *)
Theorem link_table_last_rel_wins (links acc : list (string * value)) :
  (forall rel href, In (rel, href) links ->
                    rel <> "length" /\ rel <> "__proto__") ->
  exists t,
    link_table (map (fun p => link_obj (fst p) (snd p)) links) acc = Normal t
    /\ forall rel,
         lookup rel t = match lookup rel (rev links) with
                        | Some h => Some h
                        | None => lookup rel acc
                        end.
Proof. apply link_table_lookup. Qed.

Lemma link_table_last_rel_wins_witness :
  exists t,
    link_table (map (fun p => link_obj (fst p) (snd p)) sample_links) []
    = Normal t
    /\ forall rel,
         lookup rel t = match lookup rel (rev sample_links) with
                        | Some h => Some h
                        | None => lookup rel []
                        end.
Proof.
  assert (H : forall rel href, In (rel, href) sample_links ->
                               rel <> "length" /\ rel <> "__proto__").
  { intros rel href [E|[E|[E|[]]]]; injection E as <- <-;
      split; discriminate. }
  exact (link_table_last_rel_wins sample_links [] H).
Defined.

Lemma SpreadsheetRow_lookup (P : platform) (data xml : value)
    (props self : list (string * value)) (t : string) :
  entry_props data = Normal props ->
  SpreadsheetRow P data xml = Normal self ->
  t <> "save" -> t <> "del" ->
  exists fields,
    row_fields [("_xml", xml)] props = Normal fields
    /\ lookup t self = lookup t fields.
Proof.
  intros Hp Hrow Hs Hd. unfold SpreadsheetRow in Hrow. rewrite Hp in Hrow.
  cbn [bind] in Hrow.
  destruct (row_fields _ props) as [fields| |]; try discriminate.
  cbn [bind] in Hrow. injection Hrow as <-.
  exists fields. split; [reflexivity|].
  rewrite !lookup_set_prop_other by congruence. reflexivity.
Qed.

Lemma save_without_fragment (P : platform) (e : env)
    (self : list (string * value)) (x : value) (c : client) :
  lookup "_xml" self = Some x -> (forall s, x <> Str s) ->
  save P e self c = (Throw TypeError, c, []).
Proof.
  intros Hx Hs. unfold save. rewrite bindM_lift. unfold save_args.
  rewrite Hx. destruct x; try reflexivity. now destruct (Hs s).
Qed.

(** X18.  A row keeps the XML it was built with under [_xml], provided
    no key of the entry is assigned to that property; when that XML is not
    a string (a row beyond the fragments found in the response has
    [undefined] there), [save] fails with a [TypeError], sends nothing and
    leaves the client unchanged. *)
Theorem row_keeps_its_fragment (P : platform) (e : env) (data xml : value)
    (props self : list (string * value)) (c : client) :
  entry_props data = Normal props ->
  (forall k v, In (k, v) props -> ~ In "_xml" (row_targets k)) ->
  SpreadsheetRow P data xml = Normal self ->
  lookup "_xml" self = Some xml
  /\ ((forall s, xml <> Str s) ->
      save P e self c = (Throw TypeError, c, [])).
Proof.
  intros Hp Hk Hrow.
  destruct (SpreadsheetRow_lookup P data xml props self "_xml" Hp Hrow)
    as (fields & Hf & Hl); try discriminate.
  assert (Hx : lookup "_xml" self = Some xml).
  { rewrite Hl, (row_fields_other "_xml" props _ fields Hf Hk). reflexivity. }
  split; [exact Hx|]. intros Hs. now apply (save_without_fragment P e self xml).
Qed.

Lemma row_keeps_its_fragment_witness :
  entry_props (Obj plain_entry) = Normal plain_entry
  /\ SpreadsheetRow sample_platform (Obj plain_entry) Undefined
     = Normal [("_xml", Undefined); ("id", Str "https://example.org/row/1");
               ("name", Str "Ann");
               ("save", Fun (save_src sample_platform));
               ("del", Fun (del_src sample_platform))]
  /\ lookup "_xml"
       [("_xml", Undefined); ("id", Str "https://example.org/row/1");
        ("name", Str "Ann");
        ("save", Fun (save_src sample_platform));
        ("del", Fun (del_src sample_platform))] = Some Undefined
  /\ ((forall s, Undefined <> Str s) ->
      save sample_platform (answering 0 Unmodelled (atom_response ""))
        [("_xml", Undefined); ("id", Str "https://example.org/row/1");
         ("name", Str "Ann");
         ("save", Fun (save_src sample_platform));
         ("del", Fun (del_src sample_platform))] anonymous_client
      = (Throw TypeError, anonymous_client, [])).
Proof.
  assert (H : forall k v, In (k, v) plain_entry ->
                          ~ In "_xml" (row_targets k)).
  { intros k v [E|[E|[]]]; injection E as <- <-; cbn; intros [F|[]];
      discriminate. }
  split; [reflexivity|]. split; [reflexivity|].
  exact (row_keeps_its_fragment sample_platform
           (answering 0 Unmodelled (atom_response "")) (Obj plain_entry)
           Undefined plain_entry _ anonymous_client eq_refl H eq_refl).
Defined.

Lemma sent_request_fields (P : platform) (e : env) (up : value) (m : string)
    (q : value) (c : client) (r : http_req) :
  In (Request r) (trace (makeFeedRequest P e up m q c)) ->
  method r = m
  /\ body r = (if is_write m then Some q else None)
  /\ forall kv, In kv (content_headers m) -> In kv (headers r).
Proof.
  intros Hin.
  apply makeFeedRequest_sent in Hin as (u & _ & Hreq & _).
  unfold build_request in Hreq.
  destruct (auth_headers _) as [h| |]; try discriminate.
  cbn [bind] in Hreq.
  destruct (with_query u m q) as [u'| |]; try discriminate.
  cbn [bind] in Hreq. injection Hreq as <-. cbn.
  repeat split; auto. intros kv Hkv. apply in_or_app. now right.
Qed.

Lemma row_field_link (self : list (string * value)) (items : list value)
    (t : list (string * value)) :
  link_table items [] = Normal t ->
  row_field self "link" (Arr items) = Normal (set_prop "_links" (Obj t) self).
Proof. intros Ht. unfold row_field. cbn. now rewrite Ht. Qed.

(** X19.  [del] of a row built from an entry whose links hold an [edit]
    link sends a [DELETE] request without body to the [href] of the last
    such link, provided no later key of the entry is assigned to [_links];
    a row built from an entry without [link] has no [_links], and [del]
    fails with a [TypeError] and sends nothing. *)
Theorem row_del_targets_its_edit_link (P : platform) (e : env)
    (data xml : value) (props self : list (string * value)) (c : client) :
  entry_props data = Normal props ->
  SpreadsheetRow P data xml = Normal self ->
  ((forall k v, In (k, v) props -> ~ In "_links" (row_targets k)) ->
   del P e self c = (Throw TypeError, c, []))
  /\ (forall pre post links href r,
        props = (pre ++ ("link",
                         Arr (map (fun p => link_obj (fst p) (snd p)) links))
                        :: post)%list ->
        (forall rel h, In (rel, h) links ->
                       rel <> "length" /\ rel <> "__proto__") ->
        (forall k v, In (k, v) post -> ~ In "_links" (row_targets k)) ->
        lookup "edit" (rev links) = Some (Str href) ->
        In (Request r) (trace (del P e self c)) ->
        url r = Str href /\ method r = "DELETE" /\ body r = None).
Proof.
  intros Hp Hrow.
  destruct (SpreadsheetRow_lookup P data xml props self "_links" Hp Hrow)
    as (fields & Hf & Hl); try discriminate.
  split.
  - intros Hk. rewrite (row_fields_other "_links" props _ fields Hf Hk) in Hl.
    unfold del. rewrite bindM_lift. cbn [field]. rewrite Hl. reflexivity.
  - intros pre post links href r -> Hnames Hpost Hedit Hin.
    rewrite row_fields_app in Hf.
    destruct (row_fields _ pre) as [s1| |]; try discriminate.
    cbn [bind row_fields] in Hf.
    destruct (link_table_lookup links [] Hnames) as (t & Ht & Hlook).
    rewrite (row_field_link s1 _ t Ht) in Hf. cbn [bind] in Hf.
    rewrite (row_fields_other "_links" post _ fields Hf Hpost) in Hl.
    rewrite lookup_set_prop_same in Hl by discriminate.
    unfold del in Hin. rewrite bindM_lift in Hin. cbn [field] in Hin.
    rewrite Hl in Hin. cbn [get_prop field] in Hin.
    rewrite Hlook, Hedit in Hin.
    destruct (sent_request_fields _ _ _ _ _ _ _ Hin) as (Hm & Hb & _).
    apply plain_request_url in Hin; [|reflexivity].
    cbn in Hin. repeat split; [congruence|exact Hm|exact Hb].
Qed.

Lemma row_del_targets_its_edit_link_witness :
  SpreadsheetRow sample_platform sample_entry (Str sample_fragment)
  = Normal sample_row
  /\ In (Request sample_delete_request)
        (trace (del sample_platform (answering 0 Unmodelled (atom_response ""))
                  sample_row anonymous_client))
  /\ url sample_delete_request = Str "https://example.org/edit"
  /\ method sample_delete_request = "DELETE"
  /\ body sample_delete_request = None.
Proof.
  assert (Hin : In (Request sample_delete_request)
                  (trace (del sample_platform
                            (answering 0 Unmodelled (atom_response ""))
                            sample_row anonymous_client)))
    by (vm_compute; left; reflexivity).
  assert (Hnames : forall rel h,
             In (rel, h) [("self", Str "https://example.org/self");
                          ("edit", Str "https://example.org/edit")] ->
             rel <> "length" /\ rel <> "__proto__").
  { intros rel h [E|[E|[]]]; injection E as <- <-; split; discriminate. }
  assert (Hpost : forall k v,
             In (k, v) [("gsx:name", Str "Ann"); ("gsx:city", Str "Oslo");
                        ("gsx:notes", Str "")] ->
             ~ In "_links" (row_targets k)).
  { intros k v [E|[E|[E|[]]]]; injection E as <- <-; cbn; intros [F|[]];
      discriminate. }
  split; [reflexivity|]. split; [exact Hin|].
  exact (proj2 (row_del_targets_its_edit_link sample_platform
                  (answering 0 Unmodelled (atom_response ""))
                  sample_entry (Str sample_fragment) _ sample_row
                  anonymous_client eq_refl eq_refl)
           [("id", Str "https://spreadsheets.google.com/feeds/list/key0/1/private/full/cokwr");
            ("title", Obj [("_", Str "Ann"); ("$", Obj [("type", Str "text")])])]
           [("gsx:name", Str "Ann"); ("gsx:city", Str "Oslo");
            ("gsx:notes", Str "")]
           [("self", Str "https://example.org/self");
            ("edit", Str "https://example.org/edit")]
           "https://example.org/edit" sample_delete_request
           eq_refl Hnames Hpost eq_refl Hin).
Defined.

Lemma cell_xml_shape (cl : cell) (d : string) :
  cell_xml cl = Normal d ->
  exists row col v tail,
    to_string (cell_row cl) = Some row
    /\ to_string (cell_col cl) = Some col
    /\ xmlSafeValue (cell_value cl) = Normal v
    /\ cell_entry (CELL_EDIT_BASE ++ row ++ "C" ++ col) row col v
       = "<entry>" ++ tail
    /\ d = CELL_ENTRY_TAG ++ tail.
Proof.
  unfold cell_xml.
  destruct (xmlSafeValue (cell_value cl)) as [v| |]; try discriminate.
  destruct (to_string (cell_row cl)) as [row|]; try discriminate.
  destruct (to_string (cell_col cl)) as [col|]; try discriminate.
  cbn [bind of_option]. intros H. injection H as <-.
  exists row, col, v.
  exists (drop 7 (cell_entry (CELL_EDIT_BASE ++ row ++ "C" ++ col) row col v)).
  repeat split; reflexivity.
Qed.

(** X20.  [save] of a cell sends by [PUT], with the Atom content type,
    the entry it assembles from the row, the column and the escaped value,
    in which only the leading [<entry>] is replaced by the tag that
    declares the namespaces; the id and edit link of that entry are built
    on the fixed text [key/worksheetId], whatever the spreadsheet.  [del]
    of a cell is [setValue] with an empty string, which sends what
    [setValue(null)] and [setValue(undefined)] send. *)
Theorem cell_save_document (P : platform) (e : env) (cl : cell) (c : client) :
  (forall r, In (Request r) (trace (cell_save P e cl c)) ->
     method r = "PUT"
     /\ In ("content-type", "application/atom+xml") (headers r)
     /\ exists row col v tail,
          to_string (cell_row cl) = Some row
          /\ to_string (cell_col cl) = Some col
          /\ xmlSafeValue (cell_value cl) = Normal v
          /\ cell_entry (CELL_EDIT_BASE ++ row ++ "C" ++ col) row col v
             = "<entry>" ++ tail
          /\ body r = Some (Str (CELL_ENTRY_TAG ++ tail)))
  /\ cell_del P e cl c = cell_setValue P e Null cl c
  /\ cell_del P e cl c = cell_setValue P e Undefined cl c.
Proof.
  split; [|split; reflexivity].
  intros r Hin. unfold cell_save in Hin. rewrite bindM_lift in Hin.
  destruct (cell_xml cl) as [d| |] eqn:Hd; try (destruct Hin).
  destruct (sent_request_fields _ _ _ _ _ _ _ Hin) as (Hm & Hb & Hh).
  split; [exact Hm|]. split; [apply Hh; now left|].
  destruct (cell_xml_shape cl d Hd) as (row & col & v & tail & ? & ? & ? & ? & ->).
  exists row, col, v, tail. repeat split; auto.
Qed.

Lemma cell_save_document_witness :
  In (Request sample_cell_request)
     (trace (cell_save sample_platform
               (answering 0 Unmodelled (atom_response ""))
               sample_cell anonymous_client))
  /\ method sample_cell_request = "PUT"
  /\ In ("content-type", "application/atom+xml") (headers sample_cell_request)
  /\ exists row col v tail,
       to_string (cell_row sample_cell) = Some row
       /\ to_string (cell_col sample_cell) = Some col
       /\ xmlSafeValue (cell_value sample_cell) = Normal v
       /\ cell_entry (CELL_EDIT_BASE ++ row ++ "C" ++ col) row col v
          = "<entry>" ++ tail
       /\ body sample_cell_request = Some (Str (CELL_ENTRY_TAG ++ tail)).
Proof.
  assert (Hin : In (Request sample_cell_request)
                  (trace (cell_save sample_platform
                            (answering 0 Unmodelled (atom_response ""))
                            sample_cell anonymous_client)))
    by (vm_compute; left; reflexivity).
  split; [exact Hin|].
  exact (proj1 (cell_save_document sample_platform
                  (answering 0 Unmodelled (atom_response ""))
                  sample_cell anonymous_client) sample_cell_request Hin).
Defined.

Lemma add_row_lines_filter (props : list (string * value)) :
  add_row_lines props
  = add_row_lines (filter (fun kv => negb (reserved_key (fst kv))) props).
Proof.
  induction props as [|[k v] props IH]; [reflexivity|].
  cbn [add_row_lines filter fst]. unfold add_row_line at 1.
  destruct (reserved_key k) eqn:Hk; cbn [negb bind].
  - rewrite <- IH. destruct (add_row_lines props); reflexivity.
  - cbn [add_row_lines]. unfold add_row_line. rewrite Hk, IH. reflexivity.
Qed.

(** X21.  [addRow] passes over the keys [id], [title], [content] and
    [_links]: the lines of the document are those of the other keys.  Its
    request is a [POST] with the Atom content type whose body is the
    namespaced entry tag, one line per remaining key, and the closing
    tag.  On [null] or [undefined] data it fails with a [TypeError] and
    sends nothing. *)
Theorem addRow_document (P : platform) (e : env) (ws data : value)
    (c : client) :
  (forall props,
     add_row_lines props
     = add_row_lines (filter (fun kv => negb (reserved_key (fst kv))) props))
  /\ (forall r, In (Request r) (trace (addRow P e ws data c)) ->
        exists props ls,
          entry_props data = Normal props
          /\ add_row_lines props = Normal ls
          /\ method r = "POST"
          /\ In ("content-type", "application/atom+xml") (headers r)
          /\ body r = Some (Str (ADD_ROW_HEAD ++ ls ++ "</entry>")))
  /\ (data = Null \/ data = Undefined ->
      addRow P e ws data c = (Throw TypeError, c, [])).
Proof.
  split; [exact add_row_lines_filter|]. split.
  - intros r Hin. apply addRow_trace in Hin as (d & Hd & Hin).
    destruct (sent_request_fields _ _ _ _ _ _ _ Hin) as (Hm & Hb & Hh).
    unfold add_row_xml in Hd.
    destruct (entry_props data) as [props| |]; try discriminate.
    cbn [bind] in Hd.
    destruct (add_row_lines props) as [ls| |] eqn:Hls; try discriminate.
    cbn [bind] in Hd.
    assert (E : d = ADD_ROW_HEAD ++ ls ++ "</entry>") by congruence.
    exists props, ls. rewrite <- E.
    split; [reflexivity|]. split; [exact Hls|]. split; [exact Hm|].
    split; [apply Hh; now left|exact Hb].
  - intros [-> | ->]; reflexivity.
Qed.

Lemma addRow_document_witness :
  In (Request sample_add_request)
     (trace (addRow sample_platform (answering 0 Unmodelled (atom_response ""))
               (Str "od6") sample_new_row anonymous_client))
  /\ exists props ls,
       entry_props sample_new_row = Normal props
       /\ add_row_lines props = Normal ls
       /\ method sample_add_request = "POST"
       /\ In ("content-type", "application/atom+xml")
             (headers sample_add_request)
       /\ body sample_add_request
          = Some (Str (ADD_ROW_HEAD ++ ls ++ "</entry>")).
Proof.
  assert (Hin : In (Request sample_add_request)
                  (trace (addRow sample_platform
                            (answering 0 Unmodelled (atom_response ""))
                            (Str "od6") sample_new_row anonymous_client)))
    by (vm_compute; left; reflexivity).
  split; [exact Hin|].
  exact (proj1 (proj2 (addRow_document sample_platform
                         (answering 0 Unmodelled (atom_response ""))
                         (Str "od6") sample_new_row anonymous_client))
           sample_add_request Hin).
Defined.

(** ** Entries of a feed *)

Lemma prefix_app (p x y : string) :
  prefix p x = true -> prefix p (x ++ y) = true.
Proof.
  revert x. induction p as [|a p IH]; intros x; [intros _; apply prefix_nil|].
  destruct x as [|b x]; cbn; [discriminate|].
  destruct (ascii_dec a b); [apply IH|discriminate].
Qed.

Lemma contains_cons (pat : string) (c : ascii) (s : string) :
  contains pat (String c s) = prefix pat (String c s) || contains pat s.
Proof.
  unfold contains. cbn [split_first].
  destruct (prefix pat (String c s)); [reflexivity|].
  now destruct (split_first pat s) as [[a b]|].
Qed.

Lemma split_first_before (pat s a b : string) :
  pat <> "" ->
  split_first pat s = Some (a, b) -> contains pat a = false.
Proof.
  intros Hpat. revert a. induction s as [|c s IH]; intros a; cbn [split_first].
  - destruct (prefix pat "") eqn:E; [|discriminate].
    destruct pat; [contradiction|discriminate].
  - destruct (prefix pat (String c s)) eqn:E.
    + intros H. injection H as <- <-. unfold contains. cbn.
      destruct pat; [contradiction|reflexivity].
    + destruct (split_first pat s) as [[a' b']|] eqn:Hs; [|discriminate].
      intros H. injection H as <- <-.
      rewrite contains_cons, (IH a' eq_refl), orb_false_r.
      destruct (prefix pat (String c a')) eqn:Ep; [|reflexivity].
      rewrite (split_first_sound _ _ _ _ Hs) in E.
      change (String c (a' ++ pat ++ b')) with (String c a' ++ pat ++ b') in E.
      now rewrite (prefix_app _ _ _ Ep) in E.
Qed.

Lemma match_entries_step (fuel : nat) (xml f : string) :
  In f (match_entries (S fuel) xml) ->
  exists b0 attrs inner r3,
    xml = b0 ++ "<entry" ++ attrs ++ ">" ++ inner ++ "</entry>" ++ r3
    /\ contains ">" attrs = false
    /\ contains "</entry>" inner = false
    /\ (f = "<entry" ++ attrs ++ ">" ++ inner ++ "</entry>"
        \/ In f (match_entries fuel r3)).
Proof.
  cbn [match_entries].
  destruct (split_first "<entry" xml) as [[b0 r1]|] eqn:H1; [|intros []].
  destruct (split_first ">" r1) as [[attrs r2]|] eqn:H2; [|intros []].
  destruct (split_first "</entry>" r2) as [[inner r3]|] eqn:H3; [|intros []].
  intros Hin. exists b0, attrs, inner, r3.
  split.
  - rewrite (split_first_sound _ _ _ _ H1), (split_first_sound _ _ _ _ H2),
      (split_first_sound _ _ _ _ H3). reflexivity.
  - split; [eapply split_first_before; [|exact H2]; discriminate|].
    split; [eapply split_first_before; [|exact H3]; discriminate|].
    destruct Hin as [<-|Hin]; [now left|now right].
Qed.

Lemma match_entries_fragment (fuel : nat) (xml f : string) :
  In f (match_entries fuel xml) ->
  exists before attrs inner after,
    xml = before ++ f ++ after
    /\ f = "<entry" ++ attrs ++ ">" ++ inner ++ "</entry>"
    /\ contains ">" attrs = false
    /\ contains "</entry>" inner = false.
Proof.
  revert xml. induction fuel as [|fuel IH]; intros xml; [intros []|].
  intros Hin.
  apply match_entries_step in Hin
    as (b0 & attrs & inner & r3 & -> & Ha & Hi & [->|Hin]).
  - exists b0, attrs, inner, r3. repeat split; auto.
    now rewrite !append_assoc.
  - destruct (IH r3 Hin) as (before & attrs' & inner' & after & -> & Hf & Ha' & Hi').
    exists (b0 ++ "<entry" ++ attrs ++ ">" ++ inner ++ "</entry>" ++ before),
      attrs', inner', after.
    repeat split; auto. now rewrite !append_assoc.
Qed.

Lemma match_entries_empty (fuel : nat) : match_entries fuel "" = [].
Proof. now destruct fuel. Qed.

Lemma match_entries_fuel (n m : nat) (xml : string) :
  (String.length xml <= n)%nat -> (String.length xml <= m)%nat ->
  match_entries n xml = match_entries m xml.
Proof.
  revert m xml. induction n as [|n IH]; intros m xml Hn Hm.
  - destruct xml; [|cbn in Hn; lia]. now rewrite !match_entries_empty.
  - destruct m as [|m].
    { destruct xml; [|cbn in Hm; lia]. now rewrite !match_entries_empty. }
    cbn [match_entries].
    destruct (split_first "<entry" xml) as [[b0 r1]|] eqn:H1; [|reflexivity].
    destruct (split_first ">" r1) as [[attrs r2]|] eqn:H2; [|reflexivity].
    destruct (split_first "</entry>" r2) as [[inner r3]|] eqn:H3; [|reflexivity].
    f_equal.
    apply split_first_sound in H1, H2, H3.
    assert (Hlen : (String.length r3 < String.length xml)%nat).
    { rewrite H1, H2, H3, !append_length. cbn. lia. }
    apply IH; lia.
Qed.

(** X22.  Every fragment [getRows] cuts out of the response text is a
    piece of that text, of the form [<entry], attributes without [>],
    [>], a content without [</entry>], [</entry>]; and the search needs no
    more turns than the text has characters. *)
Theorem matched_entries_are_fragments (xml : string) :
  (forall fuel f,
     In f (match_entries fuel xml) ->
     exists before attrs inner after,
       xml = before ++ f ++ after
       /\ f = "<entry" ++ attrs ++ ">" ++ inner ++ "</entry>"
       /\ contains ">" attrs = false
       /\ contains "</entry>" inner = false)
  /\ (forall fuel,
        (String.length xml <= fuel)%nat ->
        match_entries fuel xml = match_entries (String.length xml) xml).
Proof.
  split.
  - intros fuel f. apply match_entries_fragment.
  - intros fuel H. apply match_entries_fuel; lia.
Qed.

Lemma matched_entries_are_fragments_witness :
  In "<entry x='1'>b</entry>"
     (match_entries (String.length sample_feed_xml) sample_feed_xml)
  /\ exists before attrs inner after,
       sample_feed_xml = before ++ "<entry x='1'>b</entry>" ++ after
       /\ "<entry x='1'>b</entry>"
          = "<entry" ++ attrs ++ ">" ++ inner ++ "</entry>"
       /\ contains ">" attrs = false
       /\ contains "</entry>" inner = false.
Proof.
  assert (H : In "<entry x='1'>b</entry>"
                (match_entries (String.length sample_feed_xml) sample_feed_xml))
    by (vm_compute; right; left; reflexivity).
  split; [exact H|].
  exact (proj1 (matched_entries_are_fragments sample_feed_xml) _ _ H).
Defined.

Lemma match_entries_none (fuel : nat) (s : string) :
  contains "<entry" s = false -> match_entries fuel s = [].
Proof.
  unfold contains. destruct fuel; [reflexivity|]. cbn [match_entries].
  now destruct (split_first "<entry" s).
Qed.

(** X23.  When the response text holds no [<entry], [getRows] gives no
    rows if the parsed feed has no entry, and fails with a [TypeError]
    (indexing the [null] result of [match]) if it has one. *)
Theorem rows_need_fragments (P : platform) (data e xml : value) (s : string) :
  xml = Buf s \/ xml = Str s ->
  is_true data = false ->
  get_prop data "entry" = Normal e ->
  contains "<entry" s = false ->
  getRows_k P data xml
  = match forceArray e with
    | [] => Normal []
    | _ :: _ => Throw TypeError
    end.
Proof.
  intros Hx Ht He Hs. unfold getRows_k. rewrite Ht.
  destruct Hx as [-> | ->]; rewrite He; cbn [bind];
    rewrite (match_entries_none _ _ Hs); now destruct (forceArray e).
Qed.

Lemma rows_need_fragments_witness :
  is_true (Obj [("entry", sample_entry)]) = false
  /\ get_prop (Obj [("entry", sample_entry)]) "entry" = Normal sample_entry
  /\ contains "<entry" "<feed/>" = false
  /\ getRows_k sample_platform (Obj [("entry", sample_entry)]) (Buf "<feed/>")
     = match forceArray sample_entry with
       | [] => Normal []
       | _ :: _ => Throw TypeError
       end.
Proof.
  split; [reflexivity|]. split; [reflexivity|]. split; [reflexivity|].
  exact (rows_need_fragments sample_platform (Obj [("entry", sample_entry)])
           sample_entry (Buf "<feed/>") "<feed/>" (or_introl eq_refl)
           eq_refl eq_refl eq_refl).
Defined.

Lemma map_outcome_nth {A B : Type} (f : A -> outcome B) (l : list A)
    (ys : list B) :
  map_outcome f l = Normal ys ->
  List.length ys = List.length l
  /\ forall i y, nth_error ys i = Some y ->
                 exists x, nth_error l i = Some x /\ f x = Normal y.
Proof.
  revert ys. induction l as [|x l IH]; intros ys; cbn [map_outcome].
  - intros H. injection H as <-. split; [reflexivity|].
    intros [|i] y; discriminate.
  - destruct (f x) as [y0| |] eqn:Fx; try discriminate. cbn [bind].
    destruct (map_outcome f l) as [ys0| |]; try discriminate. cbn [bind].
    intros H. injection H as <-.
    destruct (IH ys0 eq_refl) as [Hlen Hnth].
    split; [cbn; now rewrite Hlen|].
    intros [|i] y; cbn.
    + intros E. injection E as <-. now exists x.
    + apply Hnth.
Qed.

Lemma map_outcome_throw {A B : Type} (f : A -> outcome B) (l : list A)
    (x : A) :
  (forall a, f a = Throw TypeError \/ exists b, f a = Normal b) ->
  In x l -> f x = Throw TypeError ->
  map_outcome f l = Throw TypeError.
Proof.
  intros Hf. induction l as [|a l IH]; [intros []|].
  intros [->|Hin] Hx; cbn [map_outcome].
  - now rewrite Hx.
  - destruct (Hf a) as [->|[b ->]]; [reflexivity|]. cbn [bind].
    now rewrite (IH Hin Hx).
Qed.

Lemma get_prop_outcomes (v : value) (k : string) :
  get_prop v k = Throw TypeError \/ get_prop v k = Normal (field v k).
Proof. destruct v; cbn; auto. Qed.

Lemma SpreadsheetWorksheet_outcomes (d : value) :
  SpreadsheetWorksheet d = Throw TypeError
  \/ exists w, SpreadsheetWorksheet d = Normal w.
Proof.
  unfold SpreadsheetWorksheet.
  destruct (get_prop_outcomes d "id") as [->| ->]; [now left|].
  cbn [bind]. destruct (field d "id"); try (now left).
  destruct (get_prop_outcomes (field d "title") "_") as [->| ->];
    cbn [bind]; eauto.
Qed.

Lemma SpreadsheetWorksheet_needs_id (d : value) :
  (forall s, field d "id" <> Str s) ->
  SpreadsheetWorksheet d = Throw TypeError.
Proof.
  intros Hid. unfold SpreadsheetWorksheet, get_prop at 1.
  destruct d; try reflexivity; cbn [bind];
    destruct (field _ "id") eqn:E; try reflexivity;
    now destruct (Hid s).
Qed.

(** X24.  [getInfo] gives the title of the feed and one worksheet per
    entry, in the order of the feed, each with the last segment of the
    entry's id as id and the entry's title as title; one entry whose id is
    not a string makes the whole call fail with a [TypeError]. *)
Theorem getInfo_one_worksheet_per_entry (data xml : value) :
  is_true data = false ->
  (forall info,
     getInfo_k data xml = Normal info ->
     title info = field (field data "title") "_"
     /\ List.length (worksheets info)
        = List.length (forceArray (field data "entry"))
     /\ forall i w,
          nth_error (worksheets info) i = Some w ->
          exists d s,
            nth_error (forceArray (field data "entry")) i = Some d
            /\ field d "id" = Str s
            /\ ws_id w = after_last_slash s
            /\ ws_title w = field (field d "title") "_")
  /\ (forall d,
        In d (forceArray (field data "entry")) ->
        (forall s, field d "id" <> Str s) ->
        getInfo_k data xml = Throw TypeError).
Proof.
  intros Ht. unfold getInfo_k. rewrite Ht. split.
  - intros info.
    destruct (get_prop_outcomes data "title") as [->| ->]; try discriminate.
    cbn [bind].
    destruct (get_prop_outcomes (field data "title") "_") as [->| ->];
      try discriminate.
    cbn [bind].
    destruct (get_prop_outcomes data "updated") as [->| ->]; try discriminate.
    destruct (get_prop_outcomes data "author") as [->| ->]; try discriminate.
    destruct (get_prop_outcomes data "entry") as [->| ->]; try discriminate.
    cbn [bind].
    destruct (map_outcome SpreadsheetWorksheet _) as [ws| |] eqn:Hws;
      try discriminate.
    cbn [bind]. intros H. injection H as <-. cbn.
    destruct (map_outcome_nth _ _ _ Hws) as [Hlen Hnth].
    split; [reflexivity|]. split; [exact Hlen|].
    intros i w Hw. destruct (Hnth i w Hw) as (d & Hd & Hsw).
    unfold SpreadsheetWorksheet in Hsw.
    destruct (get_prop_outcomes d "id") as [E|E]; rewrite E in Hsw;
      try discriminate.
    cbn [bind] in Hsw. destruct (field d "id") eqn:Hid; try discriminate.
    destruct (get_prop_outcomes (field d "title") "_") as [E'|E'];
      rewrite E' in Hsw; try discriminate.
    cbn [bind] in Hsw. injection Hsw as <-.
    exists d, s. cbn. auto.
  - intros d Hin Hid.
    destruct (get_prop_outcomes data "title") as [->| ->]; [reflexivity|].
    cbn [bind].
    destruct (get_prop_outcomes (field data "title") "_") as [->| ->];
      [reflexivity|].
    cbn [bind].
    destruct (get_prop_outcomes data "updated") as [->| ->]; [reflexivity|].
    destruct (get_prop_outcomes data "author") as [->| ->]; [reflexivity|].
    destruct (get_prop_outcomes data "entry") as [->| ->]; [reflexivity|].
    cbn [bind].
    rewrite (map_outcome_throw SpreadsheetWorksheet _ d
               SpreadsheetWorksheet_outcomes Hin
               (SpreadsheetWorksheet_needs_id d Hid)).
    reflexivity.
Qed.

Lemma getInfo_one_worksheet_per_entry_witness :
  is_true sample_info = false
  /\ In (Obj [("title", Obj [("_", Str "Sheet2")])])
        (forceArray (field sample_info "entry"))
  /\ (forall s, field (Obj [("title", Obj [("_", Str "Sheet2")])]) "id"
                <> Str s)
  /\ getInfo_k sample_info Null = Throw TypeError.
Proof.
  assert (Hin : In (Obj [("title", Obj [("_", Str "Sheet2")])])
                  (forceArray (field sample_info "entry")))
    by (right; left; reflexivity).
  assert (Hid : forall s, field (Obj [("title", Obj [("_", Str "Sheet2")])]) "id"
                          <> Str s)
    by (intros s; discriminate).
  split; [reflexivity|]. split; [exact Hin|]. split; [exact Hid|].
  exact (proj2 (getInfo_one_worksheet_per_entry sample_info Null eq_refl)
           _ Hin Hid).
Defined.

Lemma build_rows_nth (P : platform) (frags : list string) (entries : list value)
    (i0 : nat) (rows : list (list (string * value))) :
  build_rows P frags i0 entries = Normal rows ->
  List.length rows = List.length entries
  /\ forall i row,
       nth_error rows i = Some row ->
       exists d,
         nth_error entries i = Some d
         /\ SpreadsheetRow P d
              (match nth_error frags (i0 + i) with
               | Some f => Str f
               | None => Undefined
               end) = Normal row.
Proof.
  revert i0 rows.
  induction entries as [|d entries IH]; intros i0 rows; cbn [build_rows].
  - intros H. injection H as <-. split; [reflexivity|].
    intros [|i] row; discriminate.
  - destruct (entry_xml frags i0) as [x| |] eqn:Hx; try discriminate.
    cbn [bind].
    destruct (SpreadsheetRow P d x) as [row0| |] eqn:Hrow; try discriminate.
    cbn [bind].
    destruct (build_rows P frags (S i0) entries) as [rows0| |] eqn:Hrest;
      try discriminate.
    cbn [bind]. intros H. injection H as <-.
    destruct (IH (S i0) rows0 Hrest) as [Hlen Hnth].
    split; [cbn; now rewrite Hlen|].
    intros [|i] row; cbn [nth_error].
    + intros E. injection E as <-. exists d. split; [reflexivity|].
      rewrite Nat.add_0_r. unfold entry_xml in Hx.
      destruct frags; [discriminate|]. now injection Hx as <-.
    + intros Hi. destruct (Hnth i row Hi) as (d' & Hd' & Hr).
      exists d'. split; [exact Hd'|].
      now rewrite Nat.add_succ_r.
Qed.

(** X25.  [getRows] gives one row per parsed entry, in order, and the
    row at position [i] is built from the entry at position [i] and the
    fragment at position [i] of the response text, [undefined] when there
    are fewer fragments than entries. *)
Theorem rows_pair_with_fragments (P : platform) (data xml : value)
    (s : string) (rows : list (list (string * value))) :
  xml = Buf s \/ xml = Str s ->
  getRows_k P data xml = Normal rows ->
  List.length rows = List.length (forceArray (field data "entry"))
  /\ forall i row,
       nth_error rows i = Some row ->
       exists d,
         nth_error (forceArray (field data "entry")) i = Some d
         /\ SpreadsheetRow P d
              (match nth_error (match_entries (String.length s) s) i with
               | Some f => Str f
               | None => Undefined
               end) = Normal row.
Proof.
  intros Hx. unfold getRows_k. destruct (is_true data); [discriminate|].
  destruct Hx as [-> | ->];
    (destruct (get_prop_outcomes data "entry") as [->| ->]; [discriminate|]);
    cbn [bind]; intros H; exact (build_rows_nth _ _ _ 0 _ H).
Qed.

Lemma rows_pair_with_fragments_witness :
  getRows_k sample_platform sample_rows_data (Buf sample_rows_xml)
  = Normal sample_rows
  /\ List.length sample_rows = 2%nat
  /\ forall i row,
       nth_error sample_rows i = Some row ->
       exists d,
         nth_error (forceArray (field sample_rows_data "entry")) i = Some d
         /\ SpreadsheetRow sample_platform d
              (match nth_error
                       (match_entries (String.length sample_rows_xml)
                          sample_rows_xml) i with
               | Some f => Str f
               | None => Undefined
               end) = Normal row.
Proof.
  split; [reflexivity|].
  exact (rows_pair_with_fragments sample_platform sample_rows_data
           (Buf sample_rows_xml) sample_rows_xml sample_rows
           (or_introl eq_refl) eq_refl).
Defined.
